(** * Instagram video downloader: a shallow embedding of
      [instagram_downloader.py] and the properties of its fallback pipeline.

    The development follows the source file top to bottom:

    - [Text]: Python [str] operations the code relies on ([in], [find],
      f-string concatenation) and the fragment of [re] its two URL patterns
      use, with [extract_instagram_shortcode];
    - [Py]: Python values as they come out of [json.loads], with the
      dynamically checked operations ([in], [len], indexing, [.get],
      truthiness) and the exceptions they raise;
    - [Env]: the external world (file system, network, the yt-dlp engine,
      [random.choice], the logger) as oracles over the history of events;
    - the three strategies and the [/download] handler;
    - [Routes]: the clean-up of old downloads, the start-up hook and the
      other routes;
    - the vocabulary of the properties, and the theorems. *)

From Stdlib Require Import ZArith QArith Ascii String DecimalString.
From stdpp Require Import gmap strings list.

Local Open Scope Z_scope.
Set Warnings "-register-all".

(* ===================================================================== *)
(** ** Text: strings and regular expressions                              *)
(* ===================================================================== *)

(** A Python [str] is modelled by [string]: a sequence of characters with
    code points U+0000..U+00FF.  Literals of the source are kept as they
    are written. *)

Module Text.

(** [s.startswith(p)], returning what follows the prefix. *)
Fixpoint strip_prefix (p s : string) : option string :=
  match p, s with
  | EmptyString, _ => Some s
  | String a p', String b s' =>
      if Ascii.eqb a b then strip_prefix p' s' else None
  | String _ _, EmptyString => None
  end.

(** [s.find(sub)]: offset of the leftmost occurrence, [None] for -1. *)
Fixpoint str_find (sub s : string) : option nat :=
  match strip_prefix sub s with
  | Some _ => Some 0%nat
  | None =>
      match s with
      | EmptyString => None
      | String _ s' => S <$> str_find sub s'
      end
  end.

(** [sub in s] on two strings. *)
Definition str_contains (sub s : string) : bool :=
  match str_find sub s with Some _ => true | None => false end.

(** All offsets at which [sub] occurs in [s], in increasing order. *)
Fixpoint str_occurrences (sub s : string) : list nat :=
  let here := match strip_prefix sub s with Some _ => [0%nat] | None => [] end in
  match s with
  | EmptyString => here
  | String _ s' => here ++ (S <$> str_occurrences sub s')
  end.

Fixpoint str_forallb (f : ascii -> bool) (s : string) : bool :=
  match s with
  | EmptyString => true
  | String a s' => f a && str_forallb f s'
  end.

(** The first character of [s], if any, satisfies [f]. *)
Definition head_is (f : ascii -> bool) (s : string) : bool :=
  match s with
  | EmptyString => false
  | String a _ => f a
  end.

(** [s.endswith(c)] for one character. *)
Fixpoint last_is (f : ascii -> bool) (s : string) : bool :=
  match s with
  | EmptyString => false
  | String a EmptyString => f a
  | String _ s' => last_is f s'
  end.

(** *** Character classes *)

(** [\w] of a [str] pattern (no [re.ASCII] flag): alphanumeric characters
    of Unicode and the underscore, here on U+0000..U+00FF. *)
Definition is_word (c : ascii) : bool :=
  let n := Z.of_N (N_of_ascii c) in
  ((48 <=? n) && (n <=? 57))            (* 0-9 *)
  || ((65 <=? n) && (n <=? 90))         (* A-Z *)
  || (n =? 95)                          (* _ *)
  || ((97 <=? n) && (n <=? 122))        (* a-z *)
  || (n =? 170) || (n =? 178) || (n =? 179) || (n =? 181)
  || (n =? 185) || (n =? 186)
  || ((188 <=? n) && (n <=? 190))
  || ((192 <=? n) && (n <=? 214))
  || ((216 <=? n) && (n <=? 246))
  || ((248 <=? n) && (n <=? 255)).

Inductive class_item :=
  | CWord                (* \w *)
  | CChar (c : ascii).   (* a literal character inside [...] *)

Definition in_class (cs : list class_item) (a : ascii) : bool :=
  existsb (fun i => match i with
                    | CWord => is_word a
                    | CChar c => Ascii.eqb c a
                    end) cs.

(** *** Regular expressions

    The constructs the two URL patterns are built from. *)
Inductive regex :=
  | Str (l : string)             (* literal text, escapes resolved *)
  | Plus (cs : list class_item)  (* [...]+  greedy, one or more *)
  | AnyLazy                      (* .*?    lazy, any character (re.DOTALL) *)
  | Alt (r1 r2 : regex)          (* r1|r2 *)
  | Cat (r1 r2 : regex)          (* r1 r2 *)
  | Group (r : regex).           (* (r)   capturing group *)

(** All non-empty prefixes of [s] made of characters of the class, the
    longest first: the order in which a greedy [+] gives them back. *)
Fixpoint runs (cs : list class_item) (s : string) : list (string * string) :=
  match s with
  | EmptyString => []
  | String a s' =>
      if in_class cs a
      then ((fun '(t, r) => (String a t, r)) <$> runs cs s') ++ [(String a "", s')]
      else []
  end.

(** Every split of [s], the shortest prefix first: the order in which a
    lazy [.*?] gives them back. *)
Fixpoint splits (s : string) : list (string * string) :=
  ("", s) ::
  match s with
  | EmptyString => []
  | String a s' => (fun '(t, r) => (String a t, r)) <$> splits s'
  end.

(** One way of matching a pattern at the start of a text: the text
    consumed, the text of group 1 if it took part, and what remains. *)
Definition outcome : Type := string * option string * string.

(** Every way of matching [r] at the start of [s], in the order a
    backtracking matcher tries them. *)
Fixpoint ms (r : regex) (s : string) : list outcome :=
  match r with
  | Str l =>
      match strip_prefix l s with
      | Some s' => [(l, None, s')]
      | None => []
      end
  | Plus cs => (fun '(t, s') => (t, None, s')) <$> runs cs s
  | AnyLazy => (fun '(t, s') => (t, None, s')) <$> splits s
  | Alt r1 r2 => ms r1 s ++ ms r2 s
  | Cat r1 r2 =>
      '(t1, g1, s1) ← ms r1 s;
      (fun '(t2, g2, s2) =>
         (t1 +:+ t2, match g1 with Some _ => g1 | None => g2 end, s2))
        <$> ms r2 s1
  | Group r => (fun '(t, _, s') => (t, Some t, s')) <$> ms r s
  end.

(** [re.match(r, s)]: the first way of matching at the start of [s]. *)
Definition re_match (r : regex) (s : string) : option (string * option string) :=
  match ms r s with
  | (t, g, _) :: _ => Some (t, g)
  | [] => None
  end.

(** [re.search(r, s)]: the match at the leftmost offset that has one
    (offsets 0 .. len(s)). *)
Fixpoint re_search (r : regex) (s : string) : option (string * option string) :=
  match re_match r s with
  | Some m => Some m
  | None =>
      match s with
      | EmptyString => None
      | String _ s' => re_search r s'
      end
  end.

(** [re.findall(r, s)] for a pattern with one group whose matches are
    never empty: the group of every match, left to right, the scan resuming
    where the previous match ended.  [skip] counts the characters of the
    previous match still to step over. *)
Fixpoint re_findall_from (skip : nat) (r : regex) (s : string) {struct s}
  : list string :=
  match skip with
  | S k =>
      match s with
      | EmptyString => []
      | String _ s' => re_findall_from k r s'
      end
  | O =>
      match re_match r s, s with
      | Some (t, g), String _ s' =>
          default "" g :: re_findall_from (Nat.pred (String.length t)) r s'
      | Some (t, g), EmptyString => [default "" g]
      | None, String _ s' => re_findall_from 0 r s'
      | None, EmptyString => []
      end
  end.

Definition re_findall : regex -> string -> list string := re_findall_from 0.

(** *** [extract_instagram_shortcode] *)

Definition id_class : list class_item := [CWord; CChar "-"].     (* [\w-] *)
Definition user_class : list class_item := [CWord; CChar "."].   (* [\w.] *)

(** r'instagram\.com/(?:p|reel|tv|reels)/([\w-]+)' *)
Definition pattern1 : regex :=
  Cat (Str "instagram.com/")
   (Cat (Alt (Str "p") (Alt (Str "reel") (Alt (Str "tv") (Str "reels"))))
    (Cat (Str "/")
     (Group (Plus id_class)))).

(** r'instagram\.com/[\w.]+/(?:p|reel)/([\w-]+)' *)
Definition pattern2 : regex :=
  Cat (Str "instagram.com/")
   (Cat (Plus user_class)
    (Cat (Str "/")
     (Cat (Alt (Str "p") (Str "reel"))
      (Cat (Str "/")
       (Group (Plus id_class)))))).

Definition patterns : list regex := [pattern1; pattern2].

(** The loop [for pattern in patterns], returning [match.group(1)] of the
    first pattern that is found. *)
Fixpoint first_match (ps : list regex) (url : string) : option string :=
  match ps with
  | [] => None
  | pattern :: ps' =>
      match re_search pattern url with
      | Some (_, g) => g
      | None => first_match ps' url
      end
  end.

Definition extract_instagram_shortcode (url : string) : option string :=
  first_match patterns url.

End Text.

Import Text.

(* ===================================================================== *)
(** ** Py: values, exceptions and the dynamically checked operations      *)
(* ===================================================================== *)

Module Py.

(** Exceptions, all instances of [Exception]: what [except Exception]
    catches.  [exn_str] is [str(e)]. *)
Inductive exn_class :=
  | JSONDecodeError
  | DownloadError
  | TypeError
  | KeyError
  | IndexError
  | AttributeError
  | OSError
  | OtherError (name : string).

Record exn := Exn { exn_class_of : exn_class; exn_str : string }.

Inductive result (A : Type) :=
  | Ok (a : A)
  | Raise (e : exn).
Arguments Ok {A} a.
Arguments Raise {A} e.

Definition result_bind {A B} (r : result A) (k : A -> result B) : result B :=
  match r with
  | Ok a => k a
  | Raise e => Raise e
  end.

#[export] Instance result_ret : MRet result := fun A a => Ok a.
#[export] Instance result_mbind : MBind result := fun A B k r => result_bind r k.

(** A Python [float]: besides the numbers, [json.loads] and
    [response.json()] read the literals NaN, Infinity and -Infinity. *)
Inductive pyfloat :=
  | Finite (q : Q)
  | NaN
  | Infinity (negative : bool).

(** Values of the kinds [json.loads] produces, which are also the kinds the
    code builds itself (option and result dictionaries). A dictionary
    keeps its items in insertion order; its keys are strings. *)
Inductive value :=
  | VNone
  | VBool (b : bool)
  | VInt (n : Z)
  | VFloat (x : pyfloat)
  | VStr (s : string)
  | VList (l : list value)
  | VDict (d : list (string * value)).

Definition type_name (v : value) : string :=
  match v with
  | VNone => "NoneType"
  | VBool _ => "bool"
  | VInt _ => "int"
  | VFloat _ => "float"
  | VStr _ => "str"
  | VList _ => "list"
  | VDict _ => "dict"
  end.

(** [bool(v)] *)
Definition truthy (v : value) : bool :=
  match v with
  | VNone => false
  | VBool b => b
  | VInt n => negb (n =? 0)
  | VFloat (Finite q) => negb (Qeq_bool q 0)
  | VFloat _ => true
  | VStr s => negb (String.eqb s "")
  | VList l => match l with [] => false | _ => true end
  | VDict d => match d with [] => false | _ => true end
  end.

Fixpoint dict_lookup (k : string) (d : list (string * value)) : option value :=
  match d with
  | [] => None
  | (k', v) :: d' => if String.eqb k k' then Some v else dict_lookup k d'
  end.

Definition dict_keys (d : list (string * value)) : list string := fst <$> d.

(** [v == k] for a string [k] *)
Definition eq_str (k : string) (v : value) : bool :=
  match v with
  | VStr s => String.eqb s k
  | _ => false
  end.

(** [k in v] for a string [k]: key of a dictionary, element of a list,
    substring of a string; other values are not containers. *)
Definition py_in (k : string) (v : value) : result bool :=
  match v with
  | VDict d => Ok (bool_decide (is_Some (dict_lookup k d)))
  | VList l => Ok (existsb (eq_str k) l)
  | VStr s => Ok (str_contains k s)
  | _ => Raise (Exn TypeError
                  ("argument of type '" +:+ type_name v +:+ "' is not iterable"))
  end.

(** [len(v)] *)
Definition py_len (v : value) : result Z :=
  match v with
  | VDict d => Ok (Z.of_nat (length d))
  | VList l => Ok (Z.of_nat (length l))
  | VStr s => Ok (Z.of_nat (String.length s))
  | _ => Raise (Exn TypeError
                  ("object of type '" +:+ type_name v +:+ "' has no len()"))
  end.

(** [v[k]] for a string [k] *)
Definition py_getitem (v : value) (k : string) : result value :=
  match v with
  | VDict d =>
      match dict_lookup k d with
      | Some x => Ok x
      | None => Raise (Exn KeyError ("'" +:+ k +:+ "'"))
      end
  | VList _ =>
      Raise (Exn TypeError "list indices must be integers or slices, not str")
  | VStr _ =>
      Raise (Exn TypeError "string indices must be integers, not 'str'")
  | _ => Raise (Exn TypeError
                  ("'" +:+ type_name v +:+ "' object is not subscriptable"))
  end.

(** [v[0]] *)
Definition py_getitem0 (v : value) : result value :=
  match v with
  | VList (x :: _) => Ok x
  | VList [] => Raise (Exn IndexError "list index out of range")
  | VStr (String a _) => Ok (VStr (String a ""))
  | VStr EmptyString => Raise (Exn IndexError "string index out of range")
  | VDict _ => Raise (Exn KeyError "0")
  | _ => Raise (Exn TypeError
                  ("'" +:+ type_name v +:+ "' object is not subscriptable"))
  end.

(** [v.get(k, dflt)]: only dictionaries have the method. *)
Definition py_get (v : value) (k : string) (dflt : value) : result value :=
  match v with
  | VDict d => Ok (default dflt (dict_lookup k d))
  | _ => Raise (Exn AttributeError
                  ("'" +:+ type_name v +:+ "' object has no attribute 'get'"))
  end.

(** [isinstance(v, dict)] *)
Definition is_dict (v : value) : bool :=
  match v with
  | VDict _ => true
  | _ => false
  end.

(** [str(v)], as an f-string formats a value.  [repr] stands for the text
    Python gives floats, lists and dictionaries. *)
Definition py_str (repr : value -> string) (v : value) : string :=
  match v with
  | VStr s => s
  | VNone => "None"
  | VBool true => "True"
  | VBool false => "False"
  | VInt n => DecimalString.NilZero.string_of_int (Z.to_int n)
  | _ => repr v
  end.

(** What [json.dumps(v, allow_nan=False)] accepts: a value with no NaN and
    no infinity anywhere in it. *)
Fixpoint json_compliant (v : value) : bool :=
  match v with
  | VFloat (Finite _) => true
  | VFloat _ => false
  | VList l => forallb json_compliant l
  | VDict d => forallb (fun '(_, x) => json_compliant x) d
  | _ => true
  end.

(** posixpath [os.path.join(a, b)] *)
Definition os_path_join (a b : string) : string :=
  if head_is (Ascii.eqb "/") b then b
  else if String.eqb a "" || last_is (Ascii.eqb "/") a then a +:+ b
  else a +:+ "/" +:+ b.

End Py.

Import Py.

(* ===================================================================== *)
(** ** Env: the world outside the module                                  *)
(* ===================================================================== *)

Module Env.

Inductive level := INFO | WARNING | ERROR.

(** What the code reads of a [requests.Response]. *)
Record response := Response {
  status_code : Z;
  json : result value;                  (* response.json() *)
  text : string;                        (* response.text *)
  iter_content : list (list Byte.byte); (* the chunks of iter_content(8192) *)
  iter_error : option exn               (* raised after them if the stream breaks *)
}.

(** What the module does to the outside, in the order it does it. *)
Inductive event :=
  | Log (lv : level) (msg : string)
  | HttpGet (url : value) (headers : list (string * string))
            (stream : bool) (timeout : Z)
  | ExtractInfo (ydl_opts : value) (url : string).

(** The files on disk, by path, and the history of events. *)
Record state := State {
  fs : gmap string (list Byte.byte);
  events : list event
}.

(** The collaborators: every answer may depend on all that happened
    before. *)
Record world := World {
  getcwd : string;                       (* os.getcwd() at import time *)
  repr : value -> string;
  json_loads : string -> result value;
  choose : state -> nat;                 (* the draw of random.choice *)
  http : state -> value -> list (string * string) -> bool -> Z
         -> result response;             (* requests.get *)
  ytdl : state -> value -> string
         -> result value * gmap string (list Byte.byte);
                                         (* YoutubeDL(opts).extract_info(url, download=True) *)
  open_error : state -> string -> option exn;  (* open(path, 'wb') failing *)
  isdir : string -> bool;                (* the directories of the machine, besides
                                            the download directory *)
  dir_size : string -> Z;                (* os.path.getsize of a directory *)
  fd_size : Z -> result Z;               (* os.path.getsize(n), n a file descriptor *)
  dumps_error : value -> exn             (* raised by json.dumps(allow_nan=False)
                                            on an out-of-range float *)
}.

(** *** The monad of the handler: state and exceptions *)

Definition M (A : Type) : Type := state -> result A * state.

Definition ret {A} (a : A) : M A := fun s => (Ok a, s).

Definition bind {A B} (m : M A) (k : A -> M B) : M B :=
  fun s =>
    match m s with
    | (Ok a, s') => k a s'
    | (Raise e, s') => (Raise e, s')
    end.

Definition raise {A} (e : exn) : M A := fun s => (Raise e, s).

Definition lift {A} (r : result A) : M A := fun s => (r, s).

(** [try: m  except Exception as e: h e] *)
Definition try_except {A} (m : M A) (h : exn -> M A) : M A :=
  fun s =>
    match m s with
    | (Ok a, s') => (Ok a, s')
    | (Raise e, s') => h e s'
    end.

(** The outcome of [m] as a value: nothing escapes. *)
Definition attempt {A} (m : M A) : M (result A) :=
  fun s => let '(r, s') := m s in (Ok r, s').

Definition emit (e : event) : M unit :=
  fun s => (Ok tt, State (fs s) (events s ++ [e])).

Definition logger (lv : level) (msg : string) : M unit := emit (Log lv msg).

Arguments ret {A} a s /.
Arguments bind {A B} m k s /.
Arguments raise {A} e s /.
Arguments lift {A} r s /.
Arguments try_except {A} m h s /.
Arguments attempt {A} m s /.
Arguments emit e s /.
Arguments logger lv msg s /.

Declare Scope py_scope.
Delimit Scope py_scope with py.
Notation "x <- m ;; k" := (bind m (fun x => k))
  (at level 100, m at next level, right associativity) : py_scope.
Notation "m ;; k" := (bind m (fun _ => k))
  (at level 100, right associativity) : py_scope.
Notation "x <~ r ;; k" := (bind (lift r) (fun x => k))
  (at level 100, r at next level, right associativity) : py_scope.

(** *** Module-level state of the source *)

Definition download_dir (w : world) : string :=
  os_path_join (getcwd w) "downloads".

Definition USER_AGENTS : list string := [
  "Mozilla/5.0 (Windows NT 10.0; Win64; x64) AppleWebKit/537.36 (KHTML, like Gecko) Chrome/120.0.0.0 Safari/537.36";
  "Mozilla/5.0 (Macintosh; Intel Mac OS X 10_15_7) AppleWebKit/537.36 (KHTML, like Gecko) Chrome/120.0.0.0 Safari/537.36";
  "Mozilla/5.0 (X11; Linux x86_64) AppleWebKit/537.36 (KHTML, like Gecko) Chrome/120.0.0.0 Safari/537.36";
  "Mozilla/5.0 (Windows NT 10.0; Win64; x64; rv:121.0) Gecko/20100101 Firefox/121.0";
  "Mozilla/5.0 (Macintosh; Intel Mac OS X 10_15_7) AppleWebKit/605.1.15 (KHTML, like Gecko) Version/17.2 Safari/605.1.15"
].

Definition get_random_user_agent (w : world) : M string :=
  fun s => (Ok (default "" (USER_AGENTS !! (choose w s `mod` length USER_AGENTS)%nat)), s).

(** *** Calls to the collaborators *)

Definition requests_get (w : world) (url : value) (headers : list (string * string))
    (stream : bool) (timeout : Z) : M response :=
  fun s =>
    let s' := State (fs s) (events s ++ [HttpGet url headers stream timeout]) in
    (http w s url headers stream timeout, s').

Definition extract_info (w : world) (ydl_opts : value) (url : string) : M value :=
  fun s =>
    let '(r, fs') := ytdl w s ydl_opts url in
    (r, State fs' (events s ++ [ExtractInfo ydl_opts url])).

(** What may follow the name of a directory and still name it: separators
    and "." components ("/", "/.", "/./", ...). *)
Fixpoint dot_components (after_separator : bool) (rest : string) : bool :=
  match rest with
  | EmptyString => true
  | String c rest' =>
      if Ascii.eqb c "/" then dot_components true rest'
      else if Ascii.eqb c "." then after_separator && dot_components false rest'
      else false
  end.

(** [os.path.isdir]: the state holds the regular files; the directories
    are the download directory, made when the module is imported
    ([os.makedirs(download_dir, exist_ok=True)]), under each of its names,
    and those the machine has besides.  The module makes and removes no
    directory afterwards. *)
Definition os_path_isdir (w : world) (path : string) : bool :=
  match strip_prefix (download_dir w) path with
  | Some rest => dot_components false rest || isdir w path
  | None => isdir w path
  end.

(** What [os.path.exists] answers for [path] when the files are [files]:
    true of a regular file and of a directory. *)
Definition path_exists (w : world) (files : gmap string (list Byte.byte))
    (path : string) : bool :=
  bool_decide (is_Some (files !! path)) || os_path_isdir w path.

Definition os_path_exists (w : world) (path : string) : M bool :=
  fun s => (Ok (path_exists w (fs s) path), s).

(** [os.path.getsize]: the size of a regular file or of a directory; an
    integer (or a boolean, which is one) names a file descriptor; any
    other value is refused. *)
Definition os_path_getsize (w : world) (path : value) : M Z :=
  fun s =>
    match path with
    | VStr p =>
        match fs s !! p with
        | Some bytes => (Ok (Z.of_nat (length bytes)), s)
        | None =>
            if os_path_isdir w p then (Ok (dir_size w p), s)
            else (Raise (Exn OSError ("[Errno 2] No such file or directory: '" +:+ p +:+ "'")), s)
        end
    | VInt n => (fd_size w n, s)
    | VBool b => (fd_size w (if b then 1 else 0), s)
    | _ => (Raise (Exn TypeError
                     ("stat: path should be string, bytes, os.PathLike or integer, not " +:+
                      type_name path)), s)
    end.

(** [f.write(chunk)] on the file opened at [path] *)
Definition write_chunk (path : string) (files : gmap string (list Byte.byte))
    (chunk : list Byte.byte) : gmap string (list Byte.byte) :=
  <[path := default [] (files !! path) ++ chunk]> files.

(** [with open(path, 'wb') as f: for chunk in r.iter_content(8192): f.write(chunk)] *)
Definition save_stream (w : world) (path : string) (r : response) : M unit :=
  fun s =>
    match open_error w s path with
    | Some e => (Raise e, s)
    | None =>
        let opened := <[path := []]> (fs s) in
        let written := foldl (write_chunk path) opened (iter_content r) in
        let s' := State written (events s) in
        match iter_error r with
        | Some e => (Raise e, s')
        | None => (Ok tt, s')
        end
    end.

End Env.

Import Env.
Local Open Scope py_scope.

(* ===================================================================== *)
(** ** The three strategies                                               *)
(* ===================================================================== *)

Definition is_class (c : exn_class) (e : exn) : bool :=
  match c, exn_class_of e with
  | JSONDecodeError, JSONDecodeError => true
  | DownloadError, DownloadError => true
  | _, _ => false
  end.

(** *** (a) [download_with_ytdlp_enhanced] *)

Definition ydl_opts (w : world) (shortcode user_agent : string) : value :=
  VDict [
    ("format", VStr "best");
    ("outtmpl", VStr (os_path_join (download_dir w) (shortcode +:+ ".%(ext)s")));
    ("quiet", VBool false);
    ("no_warnings", VBool false);
    ("extract_flat", VBool false);
    ("nocheckcertificate", VBool true);
    ("merge_output_format", VStr "mp4");
    ("cookiefile", VNone);
    ("http_headers", VDict [
       ("User-Agent", VStr user_agent);
       ("Accept", VStr "text/html,application/xhtml+xml,application/xml;q=0.9,*/*;q=0.8");
       ("Accept-Language", VStr "en-US,en;q=0.9");
       ("Accept-Encoding", VStr "gzip, deflate, br");
       ("DNT", VStr "1");
       ("Connection", VStr "keep-alive");
       ("Upgrade-Insecure-Requests", VStr "1");
       ("Sec-Fetch-Dest", VStr "document");
       ("Sec-Fetch-Mode", VStr "navigate");
       ("Sec-Fetch-Site", VStr "none");
       ("Cache-Control", VStr "max-age=0")]);
    ("retries", VInt 5);
    ("fragment_retries", VInt 5);
    ("geo_bypass", VBool true);
    ("age_limit", VNone);
    ("extractor_args", VDict [("instagram", VDict [("api_version", VStr "1")])])
  ].

Definition download_with_ytdlp_enhanced (w : world) (url shortcode : string) : M value :=
  try_except
    (logger INFO ("Attempting enhanced yt-dlp method for " +:+ shortcode);;
     user_agent <- get_random_user_agent w;;
     info <- extract_info w (ydl_opts w shortcode user_agent) url;;
     video_id <~ py_get info "id" (VStr shortcode);;
     ext <~ py_get info "ext" (VStr "mp4");;
     let filename := py_str (repr w) video_id +:+ "." +:+ py_str (repr w) ext in
     let filepath := os_path_join (download_dir w) filename in
     found <- os_path_exists w filepath;;
     if found then
       title <~ py_get info "title" (VStr "Instagram Video");;
       author <~ py_get info "uploader" (VStr "Unknown");;
       caption <~ py_get info "description" (VStr "No caption available");;
       thumbnail <~ py_get info "thumbnail" (VStr "");;
       ret (VDict [
         ("success", VBool true);
         ("filepath", VStr filepath);
         ("filename", VStr filename);
         ("title", title);
         ("author", author);
         ("caption", caption);
         ("thumbnail", thumbnail);
         ("method", VStr "ytdlp_enhanced")])
     else ret VNone)
    (fun e =>
       if is_class DownloadError e
       then logger WARNING ("Enhanced yt-dlp method failed: " +:+ exn_str e);; ret VNone
       else logger ERROR ("Enhanced yt-dlp method error: " +:+ exn_str e);; ret VNone).

(** *** (b) [download_with_requests] *)

Definition api_urls (shortcode : string) : list string := [
  "https://www.instagram.com/p/" +:+ shortcode +:+ "/?__a=1&__d=dis";
  "https://www.instagram.com/reel/" +:+ shortcode +:+ "/?__a=1&__d=dis"
].

Definition api_headers (user_agent shortcode : string) : list (string * string) := [
  ("User-Agent", user_agent);
  ("Accept", "*/*");
  ("Accept-Language", "en-US,en;q=0.9");
  ("Accept-Encoding", "gzip, deflate, br");
  ("X-IG-App-ID", "936619743392459");
  ("X-ASBD-ID", "198387");
  ("X-IG-WWW-Claim", "0");
  ("Origin", "https://www.instagram.com");
  ("Referer", "https://www.instagram.com/p/" +:+ shortcode +:+ "/");
  ("Sec-Fetch-Dest", "empty");
  ("Sec-Fetch-Mode", "cors");
  ("Sec-Fetch-Site", "same-origin")
].

(** [x in v and len(v[x]) > 0] *)
Definition has_nonempty (k : string) (v : value) : result bool :=
  b ← py_in k v;
  if b : bool then x ← py_getitem v k; n ← py_len x; mret (0 <? n) else mret false.

(** "Navigate through the JSON structure": the media object, or [None]
    where the code says [continue]. *)
Definition find_media (data : value) : result (option value) :=
  items ← has_nonempty "items" data;
  if items : bool then
    l ← py_getitem data "items"; media ← py_getitem0 l; mret (Some media)
  else
    graphql ← py_in "graphql" data;
    if graphql : bool then
      g ← py_getitem data "graphql"; media ← py_getitem g "shortcode_media";
      mret (Some media)
    else mret None.

(** "Extract video URL" *)
Definition find_video_url (media : value) : result value :=
  direct ← py_in "video_url" media;
  if direct : bool then py_getitem media "video_url"
  else
    versions ← has_nonempty "video_versions" media;
    if versions : bool then
      l ← py_getitem media "video_versions"; first ← py_getitem0 l;
      py_getitem first "url"
    else mret VNone.

(** "Get caption" *)
Definition find_caption (media : value) : result value :=
  has ← py_in "caption" media;
  c ← (if has : bool then py_getitem media "caption" else mret VNone);
  if has && truthy c then py_get c "text" (VStr "")
  else
    has_edges ← py_in "edge_media_to_caption" media;
    if has_edges : bool then
      e ← py_getitem media "edge_media_to_caption";
      edges ← py_get e "edges" (VList []);
      if truthy edges then
        first ← py_getitem0 edges; node ← py_getitem first "node";
        py_getitem node "text"
      else mret (VStr "")
    else mret (VStr "").

(** "Get author" *)
Definition find_author (media : value) : result value :=
  owner ← py_get media "owner" (VDict []);
  py_get owner "username" (VStr "Unknown").

(** One turn of [for api_url in api_urls]: the value returned from inside
    the loop, or [None] when the turn ends and the loop goes on. *)
Definition try_api_url (w : world) (shortcode user_agent api_url : string)
    : M (option value) :=
  let headers := api_headers user_agent shortcode in
  response <- requests_get w (VStr api_url) headers false 30;;
  if status_code response =? 200 then
    try_except
      (data <~ json response;;
       found <~ find_media data;;
       match found with
       | None => ret None
       | Some media =>
           video_url <~ find_video_url media;;
           if truthy video_url then
             caption <~ find_caption media;;
             author <~ find_author media;;
             video_response <- requests_get w video_url headers true 60;;
             if status_code video_response =? 200 then
               let filename := shortcode +:+ ".mp4" in
               let filepath := os_path_join (download_dir w) filename in
               save_stream w filepath video_response;;
               logger INFO ("Successfully downloaded via direct API: " +:+ filename);;
               ret (Some (VDict [
                 ("success", VBool true);
                 ("filepath", VStr filepath);
                 ("filename", VStr filename);
                 ("title", VStr ("Instagram Video - " +:+ shortcode));
                 ("author", author);
                 ("caption", if truthy caption then caption
                             else VStr "No caption available");
                 ("method", VStr "direct_api")]))
             else ret None
           else ret None
       end)
      (fun e =>
         if is_class JSONDecodeError e
         then logger WARNING ("Failed to parse JSON from " +:+ api_url);; ret None
         else raise e)
  else ret None.

Fixpoint for_api_urls (w : world) (shortcode user_agent : string)
    (urls : list string) : M value :=
  match urls with
  | [] => ret VNone
  | api_url :: rest =>
      r <- try_api_url w shortcode user_agent api_url;;
      match r with
      | Some result => ret result
      | None => for_api_urls w shortcode user_agent rest
      end
  end.

Definition download_with_requests (w : world) (url shortcode : string) : M value :=
  try_except
    (logger INFO ("Attempting direct API method for " +:+ shortcode);;
     user_agent <- get_random_user_agent w;;
     for_api_urls w shortcode user_agent (api_urls shortcode))
    (fun e => logger ERROR ("Direct API method failed: " +:+ exn_str e);; ret VNone).

(** *** (c) [download_with_instaloader_like] *)

Definition page_headers (user_agent : string) : list (string * string) := [
  ("User-Agent", user_agent);
  ("Accept", "text/html,application/xhtml+xml,application/xml;q=0.9,image/webp,*/*;q=0.8");
  ("Accept-Language", "en-US,en;q=0.5");
  ("DNT", "1");
  ("Connection", "keep-alive");
  ("Upgrade-Insecure-Requests", "1")
].

Definition dquote : string := String "034" "".

(** r'<script type="application/ld\+json">({.*?})</script>' with re.DOTALL *)
Definition ld_json_pattern : regex :=
  Cat (Str ("<script type=" +:+ dquote +:+ "application/ld+json" +:+ dquote +:+ ">"))
   (Cat (Group (Cat (Str "{") (Cat AnyLazy (Str "}"))))
    (Str "</script>")).

(** One turn of [for match in matches]. *)
Definition try_ld_json (w : world) (shortcode : string)
    (headers : list (string * string)) (block : string) : M (option value) :=
  try_except
    (data <~ json_loads w block;;
     has <~ py_in "video" data;;
     video <~ (if has : bool then py_getitem data "video" else Ok VNone);;
     if has && is_dict video then
       video_url <~ py_get video "contentUrl" VNone;;
       if truthy video_url then
         video_response <- requests_get w video_url headers true 60;;
         if status_code video_response =? 200 then
           let filename := shortcode +:+ ".mp4" in
           let filepath := os_path_join (download_dir w) filename in
           save_stream w filepath video_response;;
           logger INFO ("Successfully downloaded via HTML scraping: " +:+ filename);;
           title <~ py_get data "caption" (VStr "Instagram Video");;
           author_obj <~ py_get data "author" (VDict []);;
           author <~ py_get author_obj "name" (VStr "Unknown");;
           caption <~ py_get data "caption" (VStr "No caption available");;
           ret (Some (VDict [
             ("success", VBool true);
             ("filepath", VStr filepath);
             ("filename", VStr filename);
             ("title", title);
             ("author", author);
             ("caption", caption);
             ("method", VStr "html_scraping")]))
         else ret None
       else ret None
     else ret None)
    (fun e => if is_class JSONDecodeError e then ret None else raise e).

Fixpoint for_matches (w : world) (shortcode : string)
    (headers : list (string * string)) (matches : list string) : M value :=
  match matches with
  | [] => ret VNone
  | block :: rest =>
      r <- try_ld_json w shortcode headers block;;
      match r with
      | Some result => ret result
      | None => for_matches w shortcode headers rest
      end
  end.

Definition download_with_instaloader_like (w : world) (url shortcode : string)
    : M value :=
  try_except
    (logger INFO ("Attempting HTML scraping for " +:+ shortcode);;
     let post_url := "https://www.instagram.com/p/" +:+ shortcode +:+ "/" in
     user_agent <- get_random_user_agent w;;
     let headers := page_headers user_agent in
     response <- requests_get w (VStr post_url) headers false 30;;
     if status_code response =? 200 then
       let html := text response in
       for_matches w shortcode headers (re_findall ld_json_pattern html)
     else ret VNone)
    (fun e => logger ERROR ("HTML scraping method failed: " +:+ exn_str e);; ret VNone).

(* ===================================================================== *)
(** ** The [/download] handler                                            *)
(* ===================================================================== *)

Record json_response := JSONResponse { content : value; status : Z }.

(** [JSONResponse(content=..., status_code=...)]: the response renders its
    content when it is built, with [json.dumps(..., allow_nan=False)]. *)
Definition rendered (w : world) (r : json_response) : M json_response :=
  if json_compliant (content r) then ret r else raise (dumps_error w (content r)).

Arguments rendered w r s /.

(** [result and result.get('success')], as a condition *)
Definition is_success (result : value) : Py.result bool :=
  if truthy result then v ← py_get result "success" VNone; mret (truthy v)
  else mret false.

(** The loop [for method_name, method_func in methods], started with the
    current value of the variable [result]; it yields the value of
    [result] when the loop is left. *)
Fixpoint try_methods (methods : list (string * M value)) (result : value) : M value :=
  match methods with
  | [] => ret result
  | (method_name, method_func) :: rest =>
      logger INFO ("Trying method: " +:+ method_name);;
      called <- attempt method_func;;
      match called with
      | Raise e =>
          logger ERROR ("Method " +:+ method_name +:+ " failed: " +:+ exn_str e);;
          try_methods rest result
      | Ok result' =>
          match is_success result' with
          | Ok true =>
              logger INFO ("âœ… Success with method: " +:+ method_name);;
              ret result'
          | Ok false => try_methods rest result'
          | Raise e =>
              logger ERROR ("Method " +:+ method_name +:+ " failed: " +:+ exn_str e);;
              try_methods rest result'
          end
      end
  end.

Definition nl : string := String "010" "".

Definition exhausted_error : string :=
  "Unable to download video. This might be a private post, age-restricted content, or Instagram has blocked the request. Try with a different public Instagram video.".

Definition exhausted_suggestion : string :=
  "Make sure the Instagram post is:" +:+ nl +:+
  "1. Public (not private account)" +:+ nl +:+
  "2. Not age-restricted" +:+ nl +:+
  "3. Not deleted" +:+ nl +:+
  "4. Accessible without login in your browser" +:+ nl +:+ nl +:+
  "Note: Some videos may be blocked on hosted servers. If this persists, the video might require login to view.".

(** [re.search] wants a string. *)
Definition shortcode_of (url : value) : result (option string) :=
  match url with
  | VStr u => Ok (extract_instagram_shortcode u)
  | _ => Raise (Exn TypeError "expected string or bytes-like object")
  end.

Section Handler.

(** The handler calls the three strategies through their module-level
    names; they are parameters here, so that stubs can stand for them as
    in a test that patches the module. *)
Variable w : world.
Variables strategy_a strategy_b strategy_c : string -> string -> M value.

Definition methods (url shortcode : string) : list (string * M value) := [
  ("Enhanced yt-dlp", strategy_a url shortcode);
  ("Direct API", strategy_b url shortcode);
  ("HTML Scraping", strategy_c url shortcode)
].

(** The branch [if result and result.get('success'): ... else: ...] that
    builds the response once the loop is over. *)
Definition respond (result : value) : M json_response :=
  ok <~ is_success result;;
  if ok : bool then
    filepath <~ py_getitem result "filepath";;
    file_size <- os_path_getsize w filepath;;
    filename <~ py_getitem result "filename";;
    title <~ py_get result "title" (VStr "Instagram Video");;
    author <~ py_get result "author" (VStr "Unknown");;
    thumbnail <~ py_get result "thumbnail" (VStr "");;
    caption <~ py_get result "caption" (VStr "No caption available");;
    method <~ py_get result "method" (VStr "unknown");;
    rendered w (JSONResponse (VDict [
      ("success", VBool true);
      ("video", VStr ("/downloads/" +:+ py_str (repr w) filename));
      ("title", title);
      ("author", author);
      ("thumbnail", thumbnail);
      ("filename", filename);
      ("caption", caption);
      ("file_size", VInt file_size);
      ("method", method)]) 200)
  else
    rendered w (JSONResponse (VDict [
      ("error", VStr exhausted_error);
      ("suggestion", VStr exhausted_suggestion)]) 400).

(** The outermost [except Exception as e]. *)
Definition internal_error (e : exn) : M json_response :=
  logger ERROR ("Unexpected error: " +:+ exn_str e);;
  rendered w (JSONResponse
                (VDict [("error", VStr ("Internal server error: " +:+ exn_str e))]) 500).

Definition bad_request (message : string) : json_response :=
  JSONResponse (VDict [("error", VStr message)]) 400.

(** "Try multiple methods in order", then the response. *)
Definition run_pipeline (url shortcode : string) : M json_response :=
  result <- try_methods (methods url shortcode) VNone;;
  respond result.

Definition download_handler (request_json : result value) : M json_response :=
  try_except
    (data <~ request_json;;
     url <~ py_get data "url" VNone;;
     if negb (truthy url) then rendered w (bad_request "No URL provided")
     else
       inside <~ py_in "instagram.com" url;;
       if negb inside then rendered w (bad_request "Invalid Instagram URL")
       else
         logger INFO ("Processing download request for: " +:+ py_str (repr w) url);;
         found <~ shortcode_of url;;
         match url, found with
         | VStr u, Some shortcode =>
             if String.eqb shortcode "" then
               rendered w (bad_request "Could not extract video ID from URL")
             else
               logger INFO ("Extracted shortcode: " +:+ shortcode);;
               run_pipeline u shortcode
         | _, _ => rendered w (bad_request "Could not extract video ID from URL")
         end)
    internal_error.

End Handler.

(** The handler as the module defines it. *)
Definition download (w : world) (request_json : result value) : M json_response :=
  download_handler w
    (download_with_ytdlp_enhanced w)
    (download_with_requests w)
    (download_with_instaloader_like w)
    request_json.

(** A strategy replaced in a test: it notes that it was entered and gives
    the scripted outcome. *)
Definition stub (name : string) (outcome : result value) (url shortcode : string)
    : M value :=
  logger INFO ("stub " +:+ name);; lift outcome.

(* ===================================================================== *)
(** ** The clean-up and the other routes                                  *)
(* ===================================================================== *)

Module Routes.

(** What the clean-up and the routes read of the machine and of the
    framework.  Timestamps are floats; the code subtracts two of them and
    compares the difference with an integer, and nothing else, so their
    type and these two operations are the host's. *)
Record host := Host {
  timestamp : Type;
  now : state -> timestamp;                           (* datetime.now().timestamp() *)
  now_isoformat : state -> string;                    (* datetime.now().isoformat() *)
  listdir : state -> string -> result (list string);  (* os.listdir *)
  getmtime : state -> string -> result timestamp;     (* os.path.getmtime *)
  minus : timestamp -> timestamp -> timestamp;        (* current_time - mtime *)
  greater : timestamp -> Z -> bool;                   (* file_age > seconds *)
  remove_error : state -> string -> option exn;       (* os.remove failing *)
  http_exception_str : Z -> string -> string          (* str(HTTPException(code, detail)) *)
}.

(** [os.path.isfile]: the file system of the model holds regular files
    only. *)
Definition os_path_isfile (path : string) : M bool :=
  fun s => (Ok (bool_decide (is_Some (fs s !! path))), s).

Definition os_path_getmtime (h : host) (path : string) : M (timestamp h) :=
  fun s => (getmtime h s path, s).

Definition os_listdir (h : host) (path : string) : M (list string) :=
  fun s => (listdir h s path, s).

Definition os_remove (h : host) (path : string) : M unit :=
  fun s =>
    match fs s !! path with
    | None =>
        (Raise (Exn OSError ("[Errno 2] No such file or directory: '" +:+ path +:+ "'")), s)
    | Some _ =>
        match remove_error h s path with
        | Some e => (Raise e, s)
        | None => (Ok tt, State (delete path (fs s)) (events s))
        end
    end.

Arguments os_path_isfile path s /.
Arguments os_path_getmtime h path s /.
Arguments os_listdir h path s /.

(** One turn of [for filename in os.listdir(download_dir)]. *)
Definition clean_file (h : host) (w : world) (current_time : timestamp h)
    (max_age_hours : Z) (filename : string) : M unit :=
  let file_path := os_path_join (download_dir w) filename in
  is_file <- os_path_isfile file_path;;
  if is_file : bool then
    mtime <- os_path_getmtime h file_path;;
    let file_age := minus h current_time mtime in
    if greater h file_age (max_age_hours * 3600) then
      os_remove h file_path;;
      logger INFO ("Cleaned up old file: " +:+ filename)
    else ret tt
  else ret tt.

Fixpoint for_listdir (h : host) (w : world) (current_time : timestamp h)
    (max_age_hours : Z) (names : list string) : M unit :=
  match names with
  | [] => ret tt
  | filename :: rest =>
      clean_file h w current_time max_age_hours filename;;
      for_listdir h w current_time max_age_hours rest
  end.

Definition clean_old_downloads (h : host) (w : world) (max_age_hours : Z) : M unit :=
  try_except
    (current_time <- (fun s => (Ok (now h s), s));;
     names <- os_listdir h (download_dir w);;
     for_listdir h w current_time max_age_hours names)
    (fun e => logger ERROR ("Error cleaning downloads: " +:+ exn_str e)).

Definition startup_event (h : host) (w : world) : M unit :=
  logger INFO "Instagram Downloader API v2.1 starting up...";;
  logger INFO "Enhanced mode with better Render compatibility";;
  clean_old_downloads h w 24.

(** [/downloads/{filename}] *)

Inductive http_exception := HTTPException (status_code : Z) (detail : string).

Record file_response := FileResponse {
  path : string;
  media_type : string;
  filename : string;
  headers : list (string * string)
}.

(** The route ends with a [FileResponse] or by raising an [HTTPException]
    to the framework, which answers with its status code.  Inside the
    [try], the exception raised for a missing file is an [Exception] like
    any other. *)
Definition serve_video (h : host) (w : world) (filename : string)
    : M (http_exception + file_response) :=
  try_except
    (let file_path := os_path_join (download_dir w) filename in
     found <- os_path_exists w file_path;;
     if negb found then
       raise (Exn (OtherError "HTTPException") (http_exception_str h 404 "File not found"))
     else
       file_size <- os_path_getsize w (VStr file_path);;
       ret (inr (FileResponse file_path "video/mp4" filename [
                   ("Accept-Ranges", "bytes");
                   ("Content-Length", py_str (repr w) (VInt file_size));
                   ("Cache-Control", "no-cache")])))
    (fun e =>
       logger ERROR ("Error serving file: " +:+ exn_str e);;
       ret (inl (HTTPException 500 (exn_str e)))).

(** [/health] *)
Definition health (h : host) : M value :=
  fun s =>
    (Ok (VDict [
       ("status", VStr "ok");
       ("service", VStr "Instagram Downloader API (Enhanced)");
       ("version", VStr "2.1.0");
       ("methods", VList [VStr "ytdlp_enhanced"; VStr "direct_api"; VStr "html_scraping"]);
       ("timestamp", VStr (now_isoformat h s))]), s).

(** [/] *)
Definition root : M value :=
  ret (VDict [
    ("message", VStr "Instagram Video Downloader API - Enhanced for Render");
    ("version", VStr "2.1.0");
    ("status", VStr "running");
    ("note", VStr "Optimized for cloud hosting with multiple fallback methods")]).

End Routes.

(* ===================================================================== *)
(** ** Vocabulary of the properties                                       *)
(* ===================================================================== *)

(** *** Patterns, read declaratively *)

(** [matches r t g]: the text [t] as a whole is matched by [r], with [g]
    the text of group 1. *)
Inductive matches : regex -> string -> option string -> Prop :=
  | matches_Str l : matches (Str l) l None
  | matches_Plus cs t :
      t <> "" -> str_forallb (in_class cs) t = true -> matches (Plus cs) t None
  | matches_AnyLazy t : matches AnyLazy t None
  | matches_Alt_l r1 r2 t g : matches r1 t g -> matches (Alt r1 r2) t g
  | matches_Alt_r r1 r2 t g : matches r2 t g -> matches (Alt r1 r2) t g
  | matches_Cat r1 r2 t1 g1 t2 g2 :
      matches r1 t1 g1 -> matches r2 t2 g2 ->
      matches (Cat r1 r2) (t1 +:+ t2) (match g1 with Some _ => g1 | None => g2 end)
  | matches_Group r t g : matches r t g -> matches (Group r) t (Some t).

(** The continuation of [ms] on a concatenation. *)
Definition cat_with (r2 : regex) : outcome -> list outcome :=
  fun '(t1, g1, s1) =>
    (fun '(t2, g2, s2) =>
       (t1 +:+ t2, match g1 with Some _ => g1 | None => g2 end, s2))
      <$> ms r2 s1.

(** An identifier is a non-empty run of [[\w-]]; a username a non-empty run
    of [[\w.]]; an identifier ends where the text after it does not go on
    with a character of its class. *)
Definition is_id (id : string) : Prop :=
  id <> "" /\ str_forallb (in_class id_class) id = true.
Definition is_user (user : string) : Prop :=
  user <> "" /\ str_forallb (in_class user_class) user = true.
Definition ends_id (rest : string) : Prop :=
  head_is (in_class id_class) rest = false.

(** The URL shapes the two patterns recognise, with the identifier they
    capture. *)
Inductive recognized : string -> string -> Prop :=
  | recognized_plain pre seg id rest :
      seg ∈ ["p"; "reel"; "tv"; "reels"] -> is_id id ->
      recognized (pre +:+ "instagram.com/" +:+ seg +:+ "/" +:+ id +:+ rest) id
  | recognized_user pre user seg id rest :
      seg ∈ ["p"; "reel"] -> is_user user -> is_id id ->
      recognized (pre +:+ "instagram.com/" +:+ user +:+ "/" +:+ seg +:+ "/" +:+ id +:+ rest) id.

(** The same two shapes at the start of a text. *)
Definition plain_here (s : string) : Prop :=
  exists seg id rest,
    seg ∈ ["p"; "reel"; "tv"; "reels"] /\ is_id id /\
    s = "instagram.com/" +:+ seg +:+ "/" +:+ id +:+ rest.

Definition user_here (s : string) : Prop :=
  exists user seg id rest,
    seg ∈ ["p"; "reel"] /\ is_user user /\ is_id id /\
    s = "instagram.com/" +:+ user +:+ "/" +:+ seg +:+ "/" +:+ id +:+ rest.

(** In [pre ++ s], no place inside [pre] is the start of the shape. *)
Definition not_before (shape : string -> Prop) (pre s : string) : Prop :=
  forall a b, pre = a +:+ b -> b <> "" -> ~ shape (b +:+ s).

(** No place of [url] is the start of the shape. *)
Definition nowhere (shape : string -> Prop) (url : string) : Prop :=
  forall a b, url = a +:+ b -> ~ shape b.

(** *** Stubs and what is observed of a run *)

(** The name a stub logs when it is entered. *)
Definition stub_name (e : event) : option string :=
  match e with
  | Log INFO msg => strip_prefix "stub " msg
  | _ => None
  end.

Definition stub_calls (evs : list event) : list string := omap stub_name evs.

Definition succeeded (o : result value) : bool :=
  match o with
  | Ok r => match is_success r with Ok true => true | _ => false end
  | Raise _ => false
  end.

Definition no_result (o : result value) : Prop :=
  o = Ok VNone \/ exists e, o = Raise e.

(** The methods list with every strategy stubbed: method name, stub name,
    scripted outcome. *)
Definition stubbed (url shortcode : string) (l : list (string * string * result value))
    : list (string * M value) :=
  (fun '(method_name, name, o) => (method_name, stub name o url shortcode)) <$> l.

(** The stubs entered, in order: up to the first that succeeds. *)
Fixpoint called_until (l : list (string * string * result value)) : list string :=
  match l with
  | [] => []
  | (_, name, o) :: l' => name :: if succeeded o then [] else called_until l'
  end.

(** The value of the variable [result] when the loop is left. *)
Fixpoint final_result (l : list (string * string * result value)) (result : value)
    : value :=
  match l with
  | [] => result
  | (_, _, Raise _) :: l' => final_result l' result
  | (_, _, Ok r) :: l' => if succeeded (Ok r) then r else final_result l' r
  end.

(** The response that leaves the handler: an error raised while answering
    becomes the 500 response. *)
Definition settle (r : result json_response) : json_response :=
  match r with
  | Ok resp => resp
  | Raise e =>
      JSONResponse (VDict [("error", VStr ("Internal server error: " +:+ exn_str e))]) 500
  end.

Definition exhausted_response : json_response :=
  JSONResponse (VDict [("error", VStr exhausted_error);
                       ("suggestion", VStr exhausted_suggestion)]) 400.

(** An outcome of the declared type of a strategy: a dictionary or [None],
    unless it raises. *)
Definition returned (o : result (option (list (string * value)))) : result value :=
  match o with
  | Ok None => Ok VNone
  | Ok (Some d) => Ok (VDict d)
  | Raise e => Raise e
  end.

(** The same outcome with a raised error replaced by "no result". *)
Definition absorbed (o : result (option (list (string * value))))
    : result (option (list (string * value))) :=
  match o with
  | Raise _ => Ok None
  | _ => o
  end.

(** Never raises: an [M] computation that always ends with a value. *)
Definition total {A} (m : M A) : Prop :=
  forall s, exists a s', m s = (Ok a, s').

(** Never raises, and ends with [None] or with a success result. *)
Definition none_or_success (m : M value) : Prop :=
  forall s, exists v s', m s = (Ok v, s') /\ (v = VNone \/ is_success v = Ok true).

(** The state in which the first strategy is entered. *)
Definition entering (u shortcode : string) (s : state) : state :=
  State (fs s)
    (events s ++ [Log INFO ("Processing download request for: " +:+ u);
                  Log INFO ("Extracted shortcode: " +:+ shortcode);
                  Log INFO "Trying method: Enhanced yt-dlp"]).

(** A computation only adds to the history. *)
Definition extends {A} (m : M A) : Prop :=
  forall s, exists more, events (m s).2 = events s ++ more.

(** The URLs requested, in order. *)
Definition requests_made (evs : list event) : list value :=
  omap (fun e => match e with HttpGet url _ _ _ => Some url | _ => None end) evs.

(** The shapes of the structured endpoint's payload: what the look-ups
    of the code find in an object [d].  "items" counts when its length is
    above zero, and the media object is then its first element. *)
Definition no_items (d : list (string * value)) : Prop :=
  dict_lookup "items" d = None \/
  exists x, dict_lookup "items" d = Some x /\ py_len x = Ok 0.

Definition items_shape (d : list (string * value)) (media : value) : Prop :=
  exists x n, dict_lookup "items" d = Some x /\ py_len x = Ok n /\ 0 < n /\
              py_getitem0 x = Ok media.

Definition graphql_shape (d : list (string * value)) (media : value) : Prop :=
  no_items d /\
  exists g, dict_lookup "graphql" d = Some (VDict g) /\
            dict_lookup "shortcode_media" g = Some media.

Definition neither_shape (d : list (string * value)) : Prop :=
  no_items d /\ dict_lookup "graphql" d = None.

(** A media object [m] in which no playable URL is found: a falsy
    "video_url"; or no "video_url" and no "video_versions", an empty one,
    or one whose first entry has a falsy "url". *)
Definition no_video_url (m : list (string * value)) : Prop :=
  (exists v, dict_lookup "video_url" m = Some v /\ truthy v = false)
  \/ (dict_lookup "video_url" m = None /\
      (dict_lookup "video_versions" m = None \/
       (exists l, dict_lookup "video_versions" m = Some l /\ py_len l = Ok 0) \/
       (exists l n first v,
          dict_lookup "video_versions" m = Some l /\ py_len l = Ok n /\ 0 < n /\
          py_getitem0 l = Ok first /\ py_getitem first "url" = Ok v /\
          truthy v = false))).

(** *** The success dictionaries *)

(** The path of the file strategies (b) and (c) write. *)
Definition video_path (w : world) (shortcode : string) : string :=
  os_path_join (download_dir w) (shortcode +:+ ".mp4").

(** The success dictionary of strategy (b). *)
Definition direct_result (w : world) (shortcode : string) (author caption : value) : value :=
  VDict [
    ("success", VBool true);
    ("filepath", VStr (video_path w shortcode));
    ("filename", VStr (shortcode +:+ ".mp4"));
    ("title", VStr ("Instagram Video - " +:+ shortcode));
    ("author", author);
    ("caption", if truthy caption then caption else VStr "No caption available");
    ("method", VStr "direct_api")].

(** The success dictionary of strategy (a), from what the engine reports. *)
Definition ytdlp_filename (w : world) (shortcode : string) (info : list (string * value))
    : string :=
  py_str (repr w) (default (VStr shortcode) (dict_lookup "id" info)) +:+ "." +:+
  py_str (repr w) (default (VStr "mp4") (dict_lookup "ext" info)).

Definition ytdlp_result (w : world) (shortcode : string) (info : list (string * value))
    : value :=
  VDict [
    ("success", VBool true);
    ("filepath", VStr (os_path_join (download_dir w) (ytdlp_filename w shortcode info)));
    ("filename", VStr (ytdlp_filename w shortcode info));
    ("title", default (VStr "Instagram Video") (dict_lookup "title" info));
    ("author", default (VStr "Unknown") (dict_lookup "uploader" info));
    ("caption", default (VStr "No caption available") (dict_lookup "description" info));
    ("thumbnail", default (VStr "") (dict_lookup "thumbnail" info));
    ("method", VStr "ytdlp_enhanced")].

(** The success dictionary of strategy (c). *)
Definition scraping_result (w : world) (shortcode : string) (title author caption : value)
    : value :=
  VDict [
    ("success", VBool true);
    ("filepath", VStr (video_path w shortcode));
    ("filename", VStr (shortcode +:+ ".mp4"));
    ("title", title);
    ("author", author);
    ("caption", caption);
    ("method", VStr "html_scraping")].

(** *** Concrete worlds and runs *)

(** A world in which nothing works: no network, no engine. *)
Definition offline : world := {|
  getcwd := "/app";
  repr := fun _ => "<repr>";
  json_loads := fun _ => Raise (Exn JSONDecodeError "Expecting value");
  choose := fun _ => 0%nat;
  http := fun _ _ _ _ _ => Raise (Exn (OtherError "ConnectionError") "unreachable");
  ytdl := fun s _ _ => (Raise (Exn DownloadError "unreachable"), fs s);
  open_error := fun _ _ => None;
  isdir := fun _ => false;
  dir_size := fun _ => 4096;
  fd_size := fun _ => Raise (Exn OSError "[Errno 9] Bad file descriptor");
  dumps_error := fun _ =>
    Exn (OtherError "ValueError") "Out of range float values are not JSON compliant"
|}.

Definition fresh : state := State ∅ [].

(** A network on which every endpoint answers 200 with the given payload
    and every video is served as the given chunks. *)
Definition serving (payload : result value) (chunks : list (list Byte.byte)) : world := {|
  getcwd := "/app";
  repr := fun _ => "<repr>";
  json_loads := fun _ => Raise (Exn JSONDecodeError "Expecting value");
  choose := fun _ => 0%nat;
  http := fun _ _ _ stream _ =>
            if stream then Ok (Response 200 (Raise (Exn JSONDecodeError "Expecting value")) "" chunks None)
            else Ok (Response 200 payload "" [] None);
  ytdl := fun s _ _ => (Raise (Exn DownloadError "unreachable"), fs s);
  open_error := fun _ _ => None;
  isdir := fun _ => false;
  dir_size := fun _ => 4096;
  fd_size := fun _ => Raise (Exn OSError "[Errno 9] Bad file descriptor");
  dumps_error := fun _ =>
    Exn (OtherError "ValueError") "Out of range float values are not JSON compliant"
|}.

Definition video_payload : value :=
  VDict [("items", VList [VDict [("video_url", VStr "https://cdn.example/v.mp4")]])].

Definition empty_video_run : result value * state :=
  download_with_requests (serving (Ok video_payload) [])
    "https://www.instagram.com/p/ABC/" "ABC" fresh.

Definition items_not_array : list (string * value) := [("items", VInt 5)].

Definition items_not_array_run : result value * state :=
  download_with_requests (serving (Ok (VDict items_not_array)) [])
    "https://www.instagram.com/p/ABC/" "ABC" fresh.

(** The same network with an empty "items" array as payload. *)
Definition items_empty_run : result value * state :=
  download_with_requests (serving (Ok (VDict [("items", VList [])])) [])
    "https://www.instagram.com/p/ABC/" "ABC" fresh.

(** An engine that reports an empty id and an empty extension, and writes
    nothing. *)
Definition dotted : world := {|
  getcwd := "/app";
  repr := fun _ => "<repr>";
  json_loads := fun _ => Raise (Exn JSONDecodeError "Expecting value");
  choose := fun _ => 0%nat;
  http := fun _ _ _ _ _ => Raise (Exn (OtherError "ConnectionError") "unreachable");
  ytdl := fun s _ _ => (Ok (VDict [("id", VStr ""); ("ext", VStr "")]), fs s);
  open_error := fun _ _ => None;
  isdir := fun _ => false;
  dir_size := fun _ => 4096;
  fd_size := fun _ => Raise (Exn OSError "[Errno 9] Bad file descriptor");
  dumps_error := fun _ =>
    Exn (OtherError "ValueError") "Out of range float values are not JSON compliant"
|}.

Definition dotted_run : result value * state :=
  download_with_ytdlp_enhanced dotted "https://www.instagram.com/p/ABC/" "ABC" fresh.

Definition other_host_url : string := "https://notinstagram.com/p/ABC123".

Definition reel_request : list (string * value) :=
  [("url", VStr "https://instagram.com/reel/ABC123xyz/")].

(** *** Vocabulary of the further properties *)

(** The user agent [random.choice] draws in state [s]. *)
Definition drawn_user_agent (w : world) (s : state) : string :=
  default "" (USER_AGENTS !! (choose w s `mod` length USER_AGENTS)%nat).

(** A request as a strategy sends it: with the given headers, and with the
    time limit of its kind (30 s, 60 s when streamed); a strategy that
    talks to the network itself never calls the engine. *)
Definition request_ok (headers : list (string * string)) (e : event) : Prop :=
  match e with
  | Log _ _ => True
  | HttpGet _ h stream timeout => h = headers /\ timeout = (if stream : bool then 60 else 30)
  | ExtractInfo _ _ => False
  end.

(** What a success result [d] names, by "filename" and "filepath", in the
    download directory: for a result of the engine, whatever
    [os.path.exists] accepted there, a regular file or a directory; for any
    other result, the regular file "<identifier>.mp4". *)
Definition names_download (w : world) (files : gmap string (list Byte.byte))
    (shortcode : string) (d : list (string * value)) (filename : string) : Prop :=
  is_success (VDict d) = Ok true /\
  dict_lookup "filepath" d = Some (VStr (os_path_join (download_dir w) filename)) /\
  dict_lookup "filename" d = Some (VStr filename) /\
  ((dict_lookup "method" d = Some (VStr "ytdlp_enhanced") /\
    path_exists w files (os_path_join (download_dir w) filename) = true)
   \/
   (dict_lookup "method" d <> Some (VStr "ytdlp_enhanced") /\
    filename = shortcode +:+ ".mp4" /\
    is_Some (files !! os_path_join (download_dir w) filename))).

(** A result the handler can answer with: [None], or a success result that
    names something that exists. *)
Definition servable (w : world) (files : gmap string (list Byte.byte))
    (shortcode : string) (r : value) : Prop :=
  r = VNone \/
  exists d filename, r = VDict d /\ names_download w files shortcode d filename.

(** [os.path.getsize] of a path that exists. *)
Definition size_at (w : world) (files : gmap string (list Byte.byte)) (path : string) : Z :=
  match files !! path with
  | Some bytes => Z.of_nat (length bytes)
  | None => dir_size w path
  end.

(** A JSON value that is not a container: [in] raises on it. *)
Definition is_scalar (v : value) : bool :=
  match v with
  | VNone | VBool _ | VInt _ | VFloat _ => true
  | _ => false
  end.

Definition is_str (v : value) : bool :=
  match v with
  | VStr _ => true
  | _ => false
  end.

(** The two responses the handler builds apart from the 400s. *)
Definition internal_error_response (message : string) : json_response :=
  JSONResponse (VDict [("error", VStr ("Internal server error: " +:+ message))]) 500.

Definition success_response (w : world) (d : list (string * value)) (filename : value)
    (file_size : Z) : json_response :=
  JSONResponse (VDict [
    ("success", VBool true);
    ("video", VStr ("/downloads/" +:+ py_str (repr w) filename));
    ("title", default (VStr "Instagram Video") (dict_lookup "title" d));
    ("author", default (VStr "Unknown") (dict_lookup "author" d));
    ("thumbnail", default (VStr "") (dict_lookup "thumbnail" d));
    ("filename", filename);
    ("caption", default (VStr "No caption available") (dict_lookup "caption" d));
    ("file_size", VInt file_size);
    ("method", default (VStr "unknown") (dict_lookup "method" d))]) 200.

(** A method whose results, when it returns, are servable. *)
Definition yields_servable (w : world) (shortcode : string) (method : string * M value)
    : Prop :=
  forall s r s', method.2 s = (Ok r, s') -> servable w (fs s') shortcode r.

(** The file at [p] is one the clean-up may remove: it is in the download
    directory under a listed name, and its age, from the modification time
    read at some point, is above the limit. *)
Definition expired (h : Routes.host) (w : world) (current_time : Routes.timestamp h)
    (max_age_hours : Z) (names : list string) (p : string) : Prop :=
  exists filename s0 mtime,
    filename ∈ names /\ p = os_path_join (download_dir w) filename /\
    Routes.getmtime h s0 p = Ok mtime /\
    Routes.greater h (Routes.minus h current_time mtime) (max_age_hours * 3600) = true.

(** The clean-up only logs. *)
Definition is_log (e : event) : Prop :=
  match e with
  | Log _ _ => True
  | _ => False
  end.

(** A machine with integer time: it is second 100000, every file was
    modified at second 99000 but the one called old.mp4, modified at second
    1000; the directory lists old.mp4, new.mp4 and a sub-directory. *)
Definition ticking : Routes.host := {|
  Routes.timestamp := Z;
  Routes.now := fun _ => 100000;
  Routes.now_isoformat := fun _ => "1970-01-02T03:46:40";
  Routes.listdir := fun _ _ => Ok ["old.mp4"; "new.mp4"; "cache"];
  Routes.getmtime := fun _ p =>
    Ok (if String.eqb p "/app/downloads/old.mp4" then 1000 else 99000);
  Routes.minus := Z.sub;
  Routes.greater := fun age limit => limit <? age;
  Routes.remove_error := fun _ _ => None;
  Routes.http_exception_str := fun code detail =>
    DecimalString.NilZero.string_of_int (Z.to_int code) +:+ ": " +:+ detail
|}.

Definition two_videos : state :=
  State (<["/app/downloads/old.mp4" := []]> (<["/app/downloads/new.mp4" := []]> ∅)) [].

(** A disk whose download directory cannot be listed. *)
Definition unlistable : Routes.host := {|
  Routes.timestamp := Z;
  Routes.now := fun _ => 100000;
  Routes.now_isoformat := fun _ => "1970-01-02T03:46:40";
  Routes.listdir := fun _ _ =>
    Raise (Exn OSError "[Errno 2] No such file or directory: '/app/downloads'");
  Routes.getmtime := fun _ _ => Ok 0;
  Routes.minus := Z.sub;
  Routes.greater := fun age limit => limit <? age;
  Routes.remove_error := fun _ _ => None;
  Routes.http_exception_str := fun code detail =>
    DecimalString.NilZero.string_of_int (Z.to_int code) +:+ ": " +:+ detail
|}.

(** A network that answers every request with status 429. *)
Definition refusing : world := {|
  getcwd := "/app";
  repr := fun _ => "<repr>";
  json_loads := fun _ => Raise (Exn JSONDecodeError "Expecting value");
  choose := fun _ => 0%nat;
  http := fun _ _ _ _ _ =>
            Ok (Response 429 (Raise (Exn JSONDecodeError "Expecting value")) "" [] None);
  ytdl := fun s _ _ => (Raise (Exn DownloadError "unreachable"), fs s);
  open_error := fun _ _ => None;
  isdir := fun _ => false;
  dir_size := fun _ => 4096;
  fd_size := fun _ => Raise (Exn OSError "[Errno 9] Bad file descriptor");
  dumps_error := fun _ =>
    Exn (OtherError "ValueError") "Out of range float values are not JSON compliant"
|}.

(** A network on which the post page holds one ld+json block, which
    parses to a video object with a caption, and the video is served as one
    chunk of two bytes. *)
Definition scraped_page : string :=
  "<html><script type=" +:+ dquote +:+ "application/ld+json" +:+ dquote +:+
  ">{video}</script></html>".

Definition scraped_data : value :=
  VDict [("video", VDict [("contentUrl", VStr "https://cdn.example/v.mp4")]);
         ("caption", VStr "Hello")].

Definition scraped : world := {|
  getcwd := "/app";
  repr := fun _ => "<repr>";
  json_loads := fun _ => Ok scraped_data;
  choose := fun _ => 0%nat;
  http := fun _ _ _ stream _ =>
            if stream
            then Ok (Response 200 (Raise (Exn JSONDecodeError "Expecting value")) ""
                       [[Byte.x01; Byte.x02]] None)
            else Ok (Response 200 (Raise (Exn JSONDecodeError "Expecting value"))
                       scraped_page [] None);
  ytdl := fun s _ _ => (Raise (Exn DownloadError "unreachable"), fs s);
  open_error := fun _ _ => None;
  isdir := fun _ => false;
  dir_size := fun _ => 4096;
  fd_size := fun _ => Raise (Exn OSError "[Errno 9] Bad file descriptor");
  dumps_error := fun _ =>
    Exn (OtherError "ValueError") "Out of range float values are not JSON compliant"
|}.

Definition scraped_run : result value * state :=
  download_with_instaloader_like scraped "https://www.instagram.com/p/ABC/" "ABC" fresh.

(** The handler of the module on a network that serves a video of three
    bytes through the first endpoint of strategy (b). *)
Definition three_bytes : list (list Byte.byte) := [[Byte.x01; Byte.x02]; [Byte.x03]].

Definition served_run : result json_response * state :=
  download (serving (Ok video_payload) three_bytes) (Ok (VDict reel_request)) fresh.

Definition served_response : json_response :=
  success_response (serving (Ok video_payload) three_bytes)
    [("title", VStr "Instagram Video - ABC123xyz");
     ("author", VStr "Unknown");
     ("caption", VStr "No caption available");
     ("method", VStr "direct_api")]
    (VStr "ABC123xyz.mp4") 3.

(** A stubbed success that names the file [/app/downloads/ABC.mp4]. *)
Definition stubbed_success : list (string * value) :=
  [("success", VBool true);
   ("filepath", VStr "/app/downloads/ABC.mp4");
   ("filename", VStr "ABC.mp4");
   ("method", VStr "stub")].

Definition one_video : state :=
  State (<["/app/downloads/ABC.mp4" := [Byte.x01; Byte.x02; Byte.x03]]> ∅) [].

(* ===================================================================== *)
(** ** Properties                                                         *)
(* ===================================================================== *)

#[local] Arguments String.append !_ _ / : simpl nomatch.
#[local] Arguments Ascii.eqb !_ !_ / : simpl nomatch.

(** *** Strings and the matcher *)

Section TextFacts.

Lemma append_assoc (a b c : string) : (a +:+ b) +:+ c = a +:+ (b +:+ c).
Proof. induction a as [|x a IH]; simpl; [done|]. by rewrite IH. Qed.

Lemma append_nil_r (a : string) : a +:+ "" = a.
Proof. induction a as [|x a IH]; simpl; [done|]. by rewrite IH. Qed.

Lemma length_append (a b : string) :
  String.length (a +:+ b) = (String.length a + String.length b)%nat.
Proof. induction a as [|x a IH]; simpl; [done|]. by rewrite IH. Qed.

Lemma strip_prefix_app (p s : string) : strip_prefix p (p +:+ s) = Some s.
Proof.
  induction p as [|x p IH]; simpl; [done|]. by rewrite Ascii.eqb_refl.
Qed.

Lemma strip_prefix_Some (p s r : string) :
  strip_prefix p s = Some r -> s = p +:+ r.
Proof.
  revert s. induction p as [|x p IH]; intros [|y s]; simpl; try congruence.
  destruct (Ascii.eqb_spec x y) as [->|]; [|done].
  intros H. by rewrite (IH _ H).
Qed.

(** *** Runs of a class *)

Lemma runs_nil cs s : head_is (in_class cs) s = false -> runs cs s = [].
Proof. destruct s as [|a s]; simpl; [done|]. by intros ->. Qed.

Lemma runs_sound cs s t r :
  (t, r) ∈ runs cs s ->
  s = t +:+ r /\ t <> "" /\ str_forallb (in_class cs) t = true.
Proof.
  revert t. induction s as [|a s IH]; simpl; intros t.
  - by intros ?%elem_of_nil.
  - destruct (in_class cs a) eqn:Ha; [|by intros ?%elem_of_nil].
    rewrite elem_of_app, list_elem_of_fmap, list_elem_of_singleton.
    intros [([t' r'] & [= -> ->] & Hin)|[= -> ->]].
    + destruct (IH _ Hin) as (-> & _ & Hall). simpl. by rewrite Ha, Hall.
    + simpl. by rewrite Ha.
Qed.

Lemma runs_longest cs t rest :
  t <> "" -> str_forallb (in_class cs) t = true ->
  head_is (in_class cs) rest = false ->
  exists shorter,
    runs cs (t +:+ rest) = (t, rest) :: shorter /\
    forall t' r', (t', r') ∈ shorter -> head_is (in_class cs) r' = true.
Proof.
  intros Hne Hall Hrest. induction t as [|a t IH]; [done|].
  simpl in Hall. apply andb_prop in Hall as [Ha Hall]. simpl. rewrite Ha.
  destruct t as [|b t].
  - simpl. rewrite (runs_nil _ _ Hrest). simpl. exists []. split; [done|].
    by intros ?? ?%elem_of_nil.
  - destruct IH as (shorter & -> & Hsh); [done|done|].
    exists (((fun '(t0, r) => (String a t0, r)) <$> shorter)
              ++ [(String a "", String b t +:+ rest)]).
    split; [done|]. intros t' r'.
    rewrite elem_of_app, list_elem_of_fmap, list_elem_of_singleton.
    intros [([t0 r0] & [= -> ->] & Hin)|[= -> ->]]; [by eapply Hsh|].
    simpl in *. by apply andb_prop in Hall as [-> _].
Qed.

Lemma splits_sound s t r : (t, r) ∈ splits s -> s = t +:+ r.
Proof.
  revert t. induction s as [|a s IH]; simpl; intros t.
  - by intros [= -> ->]%list_elem_of_singleton.
  - rewrite elem_of_cons, list_elem_of_fmap.
    intros [[= -> ->]|([t' r'] & [= -> ->] & Hin)]; [done|].
    simpl. by rewrite <- (IH _ Hin).
Qed.

(** *** The matcher against the declarative reading of a pattern *)

Lemma ms_sound r : forall s t g s',
  (t, g, s') ∈ ms r s -> s = t +:+ s' /\ matches r t g.
Proof.
  induction r as [l|cs| |r1 IH1 r2 IH2|r1 IH1 r2 IH2|r IH]; simpl; intros s t g s'.
  - destruct (strip_prefix l s) as [s0|] eqn:Hl; [|by intros ?%elem_of_nil].
    intros [= -> -> ->]%list_elem_of_singleton.
    split; [by apply strip_prefix_Some|constructor].
  - rewrite list_elem_of_fmap. intros ([t0 r0] & [= -> -> ->] & Hin).
    destruct (runs_sound _ _ _ _ Hin) as (-> & ? & ?). split; [done|by constructor].
  - rewrite list_elem_of_fmap. intros ([t0 r0] & [= -> -> ->] & Hin).
    split; [by apply splits_sound|constructor].
  - rewrite elem_of_app. intros [Hin|Hin].
    + destruct (IH1 _ _ _ _ Hin). split; [done|by apply matches_Alt_l].
    + destruct (IH2 _ _ _ _ Hin). split; [done|by apply matches_Alt_r].
  - rewrite list_elem_of_bind. intros ([[t1 g1] s1] & Hin2 & Hin1).
    apply list_elem_of_fmap in Hin2 as ([[t2 g2] s2] & [= -> -> ->] & Hin2).
    destruct (IH1 _ _ _ _ Hin1) as [-> ?], (IH2 _ _ _ _ Hin2) as [-> ?].
    split; [by rewrite append_assoc|by constructor].
  - rewrite list_elem_of_fmap. intros ([[t0 g0] r0] & [= -> -> ->] & Hin).
    destruct (IH _ _ _ _ Hin). split; [done|by econstructor].
Qed.

Lemma runs_complete cs t s' :
  t <> "" -> str_forallb (in_class cs) t = true -> (t, s') ∈ runs cs (t +:+ s').
Proof.
  induction t as [|a t IH]; [done|]. intros _ Hall. simpl in Hall.
  apply andb_prop in Hall as [Ha Hall]. simpl. rewrite Ha.
  apply elem_of_app. destruct t as [|b t].
  - right. simpl. by apply list_elem_of_singleton.
  - left. apply list_elem_of_fmap. exists (String b t, s'). split; [done|]. by apply IH.
Qed.

Lemma splits_complete t s' : (t, s') ∈ splits (t +:+ s').
Proof.
  induction t as [|a t IH].
  - simpl. destruct s'; simpl; left.
  - change (String a t +:+ s') with (String a (t +:+ s')). cbn [splits].
    right. apply list_elem_of_fmap. by exists (t, s').
Qed.

(** Every declarative match is one of the ways the matcher finds. *)
Lemma ms_complete r t g : matches r t g -> forall s', (t, g, s') ∈ ms r (t +:+ s').
Proof.
  induction 1 as [l|cs t Hne Hall|t|r1 r2 t g _ IH|r1 r2 t g _ IH
                 |r1 r2 t1 g1 t2 g2 _ IH1 _ IH2|r t g _ IH]; intros s'; cbn [ms].
  - rewrite strip_prefix_app. left.
  - apply list_elem_of_fmap. exists (t, s'). split; [done|by apply runs_complete].
  - apply list_elem_of_fmap. exists (t, s'). split; [done|apply splits_complete].
  - apply elem_of_app. left. apply IH.
  - apply elem_of_app. right. apply IH.
  - apply list_elem_of_bind. exists (t1, g1, t2 +:+ s'). split.
    + apply list_elem_of_fmap. exists (t2, g2, s'). split; [done|apply IH2].
    + rewrite append_assoc. apply IH1.
  - apply list_elem_of_fmap. exists (t, g, s'). split; [done|apply IH].
Qed.

Lemma re_match_complete r t g s' : matches r t g -> is_Some (re_match r (t +:+ s')).
Proof.
  intros H. unfold re_match. pose proof (ms_complete _ _ _ H s') as Hin.
  destruct (ms r (t +:+ s')) as [|[[t0 g0] s0] l]; [by apply elem_of_nil in Hin|by eexists].
Qed.

Lemma re_match_sound r s t g :
  re_match r s = Some (t, g) -> exists s', s = t +:+ s' /\ matches r t g.
Proof.
  unfold re_match. destruct (ms r s) as [|[[t0 g0] s0] l] eqn:Hms; [done|].
  intros [= -> ->]. exists s0. apply ms_sound. rewrite Hms. left.
Qed.

Lemma re_search_sound r s t g :
  re_search r s = Some (t, g) ->
  exists pre s', s = pre +:+ t +:+ s' /\ matches r t g.
Proof.
  induction s as [|a s IH]; simpl.
  - destruct (re_match r "") as [m|] eqn:Hm; [|done]. intros [= ->].
    apply re_match_sound in Hm as (s' & ? & ?). by exists "", s'.
  - destruct (re_match r (String a s)) as [m|] eqn:Hm.
    + intros [= ->]. apply re_match_sound in Hm as (s' & ? & ?). by exists "", s'.
    + intros (pre & s' & -> & ?)%IH. by exists (String a pre), s'.
Qed.

(** *** Patterns that start with a literal *)

Lemma ms_Cat_Str l r s :
  ms (Cat (Str l) r) s =
  match strip_prefix l s with
  | Some s' => (fun '(t, g, s2) => (l +:+ t, g, s2)) <$> ms r s'
  | None => []
  end.
Proof.
  simpl. destruct (strip_prefix l s); simpl; [|done]. by rewrite app_nil_r.
Qed.

Lemma re_match_Cat_Str_None l r s :
  strip_prefix l s = None -> re_match (Cat (Str l) r) s = None.
Proof. intros H. unfold re_match. by rewrite ms_Cat_Str, H. Qed.

Lemma re_search_skip l r pre s :
  str_find l (pre +:+ s) = Some (String.length pre) ->
  re_search (Cat (Str l) r) (pre +:+ s) = re_search (Cat (Str l) r) s.
Proof.
  induction pre as [|a pre IH]; [done|]. cbn [String.length].
  change (String a pre +:+ s) with (String a (pre +:+ s)). cbn [str_find re_search].
  destruct (strip_prefix l (String a (pre +:+ s))) eqn:Hl; [done|].
  rewrite (re_match_Cat_Str_None _ _ _ Hl).
  destruct (str_find l (pre +:+ s)) as [n|] eqn:Hf; [|done].
  intros [= ->]. by apply IH.
Qed.

Lemma re_search_no_occurrence l r s :
  str_occurrences l s = [] -> re_search (Cat (Str l) r) s = None.
Proof.
  induction s as [|a s IH]; cbn [str_occurrences re_search].
  - destruct (strip_prefix l "") eqn:Hl; [done|].
    by rewrite (re_match_Cat_Str_None _ _ _ Hl).
  - destruct (strip_prefix l (String a s)) eqn:Hl; [done|].
    rewrite (re_match_Cat_Str_None _ _ _ Hl). simpl.
    intros H. apply IH. by destruct (str_occurrences l s).
Qed.

Lemma re_search_only l r pre s :
  str_occurrences l (pre +:+ s) = [String.length pre] ->
  re_search (Cat (Str l) r) (pre +:+ s) = re_match (Cat (Str l) r) s.
Proof.
  induction pre as [|a pre IH].
  - simpl. destruct s as [|a s]; cbn [str_occurrences re_search].
    + by destruct (re_match _ "").
    + destruct (re_match _ (String a s)) as [m|]; [done|].
      intros H. apply re_search_no_occurrence.
      destruct (strip_prefix l (String a s)); simpl in H;
        by destruct (str_occurrences l s).
  - change (String a pre +:+ s) with (String a (pre +:+ s)).
    cbn [str_occurrences re_search String.length].
    destruct (strip_prefix l (String a (pre +:+ s))) eqn:Hl; [done|].
    rewrite (re_match_Cat_Str_None _ _ _ Hl). simpl. intros H. apply IH.
    destruct (str_occurrences l (pre +:+ s)) as [|n [|]]; simplify_eq/=; done.
Qed.

Lemma str_find_occurrences l s n rest :
  str_occurrences l s = n :: rest -> str_find l s = Some n.
Proof.
  revert n rest. induction s as [|a s IH]; intros n rest; cbn [str_occurrences str_find].
  - destruct (strip_prefix l ""); [by intros [= <-]|done].
  - destruct (strip_prefix l (String a s)); [by intros [= <- _]|]. simpl.
    destruct (str_occurrences l s) as [|m tl] eqn:Ho; [done|].
    intros [= <- _]. by rewrite (IH _ _ eq_refl).
Qed.

End TextFacts.

(** *** The two URL patterns *)

Section Patterns.

#[local] Arguments ms : simpl never.

Lemma bind_all_nil {A B} (f : A -> list B) (l : list A) :
  (forall x, x ∈ l -> f x = []) -> l ≫= f = [].
Proof.
  induction l as [|x l IH]; [done|]. intros H. simpl.
  rewrite (H x) by left. apply IH. intros y Hy. apply H. by right.
Qed.

Lemma ms_Plus cs s : ms (Plus cs) s = (fun '(t, s') => (t, None, s')) <$> runs cs s.
Proof. reflexivity. Qed.

Lemma ms_Group r s : ms (Group r) s = (fun '(t, _, s') => (t, Some t, s')) <$> ms r s.
Proof. reflexivity. Qed.

Lemma ms_Alt r1 r2 s : ms (Alt r1 r2) s = ms r1 s ++ ms r2 s.
Proof. reflexivity. Qed.

Lemma ms_Cat_bind r1 r2 s :
  ms (Cat r1 r2) s = ms r1 s ≫= cat_with r2.
Proof. reflexivity. Qed.

Lemma ms_Cat_Alt r1 r2 r s :
  ms (Cat (Alt r1 r2) r) s = ms (Cat r1 r) s ++ ms (Cat r2 r) s.
Proof. rewrite !ms_Cat_bind, ms_Alt. apply bind_app. Qed.

(** A greedy class followed by a literal whose first character is not in
    the class: only the longest run can be followed by the literal. *)
Lemma ms_Plus_then_Str cs t rest c l r :
  t <> "" -> str_forallb (in_class cs) t = true ->
  head_is (in_class cs) rest = false -> in_class cs c = false ->
  ms (Cat (Plus cs) (Cat (Str (String c l)) r)) (t +:+ rest) =
  (fun '(t2, g2, s2) => (t +:+ t2, g2, s2)) <$> ms (Cat (Str (String c l)) r) rest.
Proof.
  intros Hne Hall Hrest Hc.
  destruct (runs_longest cs t rest Hne Hall Hrest) as (shorter & Hruns & Hsh).
  rewrite ms_Cat_bind, ms_Plus, Hruns, fmap_cons, bind_cons.
  rewrite (bind_all_nil _ (_ <$> shorter)); [by rewrite app_nil_r|].
  intros x ([t0 r0] & -> & Hin)%list_elem_of_fmap.
  apply Hsh in Hin. destruct r0 as [|a r0]; [done|]. simpl in Hin.
  unfold cat_with. rewrite ms_Cat_Str. simpl.
  destruct (Ascii.eqb_spec c a) as [->|]; [congruence|done].
Qed.

(** The captured group at the end of both patterns. *)
Lemma ms_id_group id rest :
  is_id id -> ends_id rest ->
  exists more, ms (Group (Plus id_class)) (id +:+ rest) = (id, Some id, rest) :: more.
Proof.
  intros [Hne Hall] Hrest.
  destruct (runs_longest _ id rest Hne Hall Hrest) as (shorter & Hruns & _).
  rewrite ms_Group, ms_Plus, Hruns. simpl. eauto.
Qed.

Lemma ms_id_group_nil s :
  head_is (in_class id_class) s = false -> ms (Group (Plus id_class)) s = [].
Proof. intros H. by rewrite ms_Group, ms_Plus, (runs_nil _ _ H). Qed.

Lemma re_match_plain seg id rest :
  seg ∈ ["p"; "reel"; "tv"; "reels"] -> is_id id -> ends_id rest ->
  re_match pattern1 ("instagram.com/" +:+ seg +:+ "/" +:+ id +:+ rest)
  = Some ("instagram.com/" +:+ seg +:+ "/" +:+ id, Some id).
Proof.
  intros Hseg Hid Hrest. destruct (ms_id_group id rest Hid Hrest) as (more & Hms).
  unfold re_match, pattern1. rewrite ms_Cat_Str, strip_prefix_app.
  rewrite !ms_Cat_Alt, !ms_Cat_Str.
  repeat (apply elem_of_cons in Hseg as [->|Hseg]); [..|by apply elem_of_nil in Hseg];
    simpl; rewrite ms_Cat_Str; simpl; rewrite Hms; reflexivity.
Qed.

(** Two texts cut at their first "/" agree on what comes before it. *)
Lemma strip_prefix_before_slash f sg user tail s' s'' :
  f "/"%char = false ->
  str_forallb f sg = true -> str_forallb f user = true ->
  strip_prefix sg (user +:+ "/" +:+ tail) = Some s' ->
  strip_prefix "/" s' = Some s'' -> sg = user.
Proof.
  intros Hf. revert user. induction sg as [|c sg IH]; intros [|a user]; simpl.
  - done.
  - intros _ [Ha _]%andb_prop [= <-]. simpl.
    destruct (Ascii.eqb_spec "/" a) as [<-|]; [congruence|done].
  - intros [Hc _]%andb_prop _.
    destruct (Ascii.eqb_spec c "/") as [->|]; [congruence|done].
  - intros [_ Hsg]%andb_prop [_ Hu]%andb_prop.
    destruct (Ascii.eqb_spec c a) as [->|]; [|done].
    intros H1 H2. by rewrite (IH _ Hsg Hu H1 H2).
Qed.

Lemma ms_seg_other sg r user tail :
  str_forallb (in_class user_class) sg = true -> is_user user -> sg <> user ->
  ms (Cat (Str sg) (Cat (Str "/") r)) (user +:+ "/" +:+ tail) = [].
Proof.
  intros Hsg [_ Hu] Hne. rewrite ms_Cat_Str.
  destruct (strip_prefix sg _) as [s'|] eqn:H1; [|done].
  rewrite ms_Cat_Str. destruct (strip_prefix "/" s') as [s''|] eqn:H2; [|done].
  destruct Hne. by eapply (strip_prefix_before_slash (in_class user_class)).
Qed.

Lemma re_match_plain_user user tail :
  is_user user -> user ∉ ["p"; "reel"; "tv"; "reels"] ->
  re_match pattern1 ("instagram.com/" +:+ user +:+ "/" +:+ tail) = None.
Proof.
  intros Hu Hnot. unfold re_match, pattern1.
  rewrite ms_Cat_Str, strip_prefix_app, !ms_Cat_Alt.
  assert (forall sg r, sg ∈ ["p"; "reel"; "tv"; "reels"] ->
            ms (Cat (Str sg) (Cat (Str "/") r)) (user +:+ "/" +:+ tail) = []) as H.
  { intros sg r Hsg. apply ms_seg_other; [|done|by intros ->].
    repeat (apply elem_of_cons in Hsg as [->|Hsg]); [done..|].
    by apply elem_of_nil in Hsg. }
  rewrite !H by set_solver. done.
Qed.

Lemma re_match_user user seg id rest :
  seg ∈ ["p"; "reel"] -> is_user user -> is_id id -> ends_id rest ->
  re_match pattern2 ("instagram.com/" +:+ user +:+ "/" +:+ seg +:+ "/" +:+ id +:+ rest)
  = Some ("instagram.com/" +:+ user +:+ "/" +:+ seg +:+ "/" +:+ id, Some id).
Proof.
  intros Hseg [Hne Hu] Hid Hrest.
  destruct (ms_id_group id rest Hid Hrest) as (more & Hms).
  unfold re_match, pattern2. rewrite ms_Cat_Str, strip_prefix_app.
  rewrite ms_Plus_then_Str by done. rewrite ms_Cat_Str, (strip_prefix_app "/").
  rewrite ms_Cat_Alt, !ms_Cat_Str.
  repeat (apply elem_of_cons in Hseg as [->|Hseg]); [..|by apply elem_of_nil in Hseg];
    simpl; rewrite ms_Cat_Str; simpl; rewrite Hms; simpl; reflexivity.
Qed.

Lemma re_match_user_other user seg tail :
  seg ∈ ["tv"; "reels"] -> is_user user ->
  re_match pattern2 ("instagram.com/" +:+ user +:+ "/" +:+ seg +:+ "/" +:+ tail) = None.
Proof.
  intros Hseg [Hne Hu].
  unfold re_match, pattern2. rewrite ms_Cat_Str, strip_prefix_app.
  rewrite ms_Plus_then_Str by done. rewrite ms_Cat_Str, (strip_prefix_app "/").
  rewrite ms_Cat_Alt, !ms_Cat_Str.
  repeat (apply elem_of_cons in Hseg as [->|Hseg]); [..|by apply elem_of_nil in Hseg];
    reflexivity.
Qed.

(** What the two patterns match, read off their structure. *)
Lemma matches_pattern1 t g :
  matches pattern1 t g ->
  exists seg id : string,
    seg ∈ ["p"; "reel"; "tv"; "reels"] /\ is_id id /\
    t = "instagram.com/" +:+ seg +:+ "/" +:+ id /\ g = Some id.
Proof.
  unfold pattern1. intros H.
  repeat match goal with
         | H : matches (Cat _ _) _ _ |- _ => inversion H; clear H; subst
         | H : matches (Str _) _ _ |- _ => inversion H; clear H; subst
         | H : matches (Group _) _ _ |- _ => inversion H; clear H; subst
         | H : matches (Plus _) _ _ |- _ => inversion H; clear H; subst
         | H : matches (Alt _ _) _ _ |- _ => inversion H; clear H; subst
         end;
    (eexists _, _; split_and!; cycle 2;
     [reflexivity|reflexivity|set_solver|by split]).
Qed.

Lemma matches_pattern2 t g :
  matches pattern2 t g ->
  exists user seg id : string,
    seg ∈ ["p"; "reel"] /\ is_user user /\ is_id id /\
    t = "instagram.com/" +:+ user +:+ "/" +:+ seg +:+ "/" +:+ id /\ g = Some id.
Proof.
  unfold pattern2. intros H.
  repeat match goal with
         | H : matches (Cat _ _) _ _ |- _ => inversion H; clear H; subst
         | H : matches (Str _) _ _ |- _ => inversion H; clear H; subst
         | H : matches (Group _) _ _ |- _ => inversion H; clear H; subst
         | H : matches (Plus _) _ _ |- _ => inversion H; clear H; subst
         | H : matches (Alt _ _) _ _ |- _ => inversion H; clear H; subst
         end;
    (eexists _, _, _; split_and!; cycle 3;
     [reflexivity|reflexivity|set_solver|by split|by split]).
Qed.

Lemma extract_recognized url id :
  extract_instagram_shortcode url = Some id -> recognized url id.
Proof.
  unfold extract_instagram_shortcode, patterns. cbn [first_match].
  destruct (re_search pattern1 url) as [[t g]|] eqn:H1.
  - intros ->. apply re_search_sound in H1 as (pre & s' & -> & Hm).
    apply matches_pattern1 in Hm as (seg & id' & ? & ? & -> & [= <-]).
    rewrite !append_assoc. by constructor.
  - destruct (re_search pattern2 url) as [[t g]|] eqn:H2; [|done].
    intros ->. apply re_search_sound in H2 as (pre & s' & -> & Hm).
    apply matches_pattern2 in Hm as (user & seg & id' & ? & ? & ? & -> & [= <-]).
    rewrite !append_assoc. by constructor.
Qed.

Lemma str_find_eq sub s :
  str_find sub s =
  match strip_prefix sub s with
  | Some _ => Some 0%nat
  | None => match s with
            | EmptyString => None
            | String _ s' => S <$> str_find sub s'
            end
  end.
Proof. by destruct s. Qed.

Lemma str_find_app sub pre rest : is_Some (str_find sub (pre +:+ sub +:+ rest)).
Proof.
  induction pre as [|a pre IH]; rewrite str_find_eq.
  - change ("" +:+ ?x) with x. by rewrite strip_prefix_app.
  - change (String a pre +:+ ?x) with (String a (pre +:+ x)).
    destruct (strip_prefix sub _); [done|]. by destruct IH as [n ->].
Qed.

Lemma str_contains_app sub pre rest : str_contains sub (pre +:+ sub +:+ rest) = true.
Proof. unfold str_contains. by destruct (str_find_app sub pre rest) as [n ->]. Qed.

Lemma recognized_valid url id :
  recognized url id ->
  str_contains "instagram.com" url = true /\ url <> "" /\ id <> "".
Proof.
  intros [pre seg id' rest _ [Hid _]|pre user seg id' rest _ _ [Hid _]].
  - split; [apply (str_contains_app "instagram.com" pre)|split; [|done]].
    by destruct pre.
  - split; [apply (str_contains_app "instagram.com" pre)|split; [|done]].
    by destruct pre.
Qed.

Lemma re_search_here r s m : re_match r s = Some m -> re_search r s = Some m.
Proof. intros H. destruct s; simpl; by rewrite H. Qed.

Lemma re_search_found r a b : is_Some (re_match r b) -> is_Some (re_search r (a +:+ b)).
Proof.
  intros [m Hm]. induction a as [|x a IH].
  - simpl. rewrite (re_search_here _ _ _ Hm). by eexists.
  - change (String x a +:+ b) with (String x (a +:+ b)). cbn [re_search].
    destruct (re_match r (String x (a +:+ b))); [by eexists|done].
Qed.

Lemma re_search_none r s :
  (forall a b, s = a +:+ b -> re_match r b = None) -> re_search r s = None.
Proof.
  induction s as [|x s IH]; intros H; cbn [re_search].
  - by rewrite (H "" "").
  - rewrite (H "" (String x s)) by done. apply IH. intros a b ->.
    by apply (H (String x a)).
Qed.

Lemma re_search_not_before r pre s :
  (forall a b, pre = a +:+ b -> b <> "" -> re_match r (b +:+ s) = None) ->
  re_search r (pre +:+ s) = re_search r s.
Proof.
  induction pre as [|x pre IH]; intros H; [done|].
  change (String x pre +:+ s) with (String x (pre +:+ s)). cbn [re_search].
  pose proof (H "" (String x pre) eq_refl) as Hhere.
  change (String x pre +:+ s) with (String x (pre +:+ s)) in Hhere.
  rewrite Hhere by done. apply IH. intros a b -> Hb. by apply (H (String x a)).
Qed.

(** The two shapes are what the two patterns match at the start of a
    text. *)
Lemma plain_matches seg id :
  seg ∈ ["p"; "reel"; "tv"; "reels"] -> is_id id ->
  matches pattern1 ("instagram.com/" +:+ seg +:+ "/" +:+ id) (Some id).
Proof.
  intros Hseg [Hne Hall].
  apply (matches_Cat _ _ "instagram.com/" None (seg +:+ "/" +:+ id) (Some id));
    [constructor|].
  apply (matches_Cat _ _ seg None ("/" +:+ id) (Some id)).
  - repeat (apply elem_of_cons in Hseg as [->|Hseg]); [..|by apply elem_of_nil in Hseg].
    + apply matches_Alt_l. constructor.
    + apply matches_Alt_r, matches_Alt_l. constructor.
    + apply matches_Alt_r, matches_Alt_r, matches_Alt_l. constructor.
    + do 3 apply matches_Alt_r. constructor.
  - apply (matches_Cat _ _ "/" None id (Some id)); [constructor|].
    apply (matches_Group _ _ None). by constructor.
Qed.

Lemma user_matches user seg id :
  seg ∈ ["p"; "reel"] -> is_user user -> is_id id ->
  matches pattern2 ("instagram.com/" +:+ user +:+ "/" +:+ seg +:+ "/" +:+ id) (Some id).
Proof.
  intros Hseg [Hu Hus] [Hne Hall].
  apply (matches_Cat _ _ "instagram.com/" None
           (user +:+ "/" +:+ seg +:+ "/" +:+ id) (Some id)); [constructor|].
  apply (matches_Cat _ _ user None ("/" +:+ seg +:+ "/" +:+ id) (Some id));
    [by constructor|].
  apply (matches_Cat _ _ "/" None (seg +:+ "/" +:+ id) (Some id)); [constructor|].
  apply (matches_Cat _ _ seg None ("/" +:+ id) (Some id)).
  - repeat (apply elem_of_cons in Hseg as [->|Hseg]); [..|by apply elem_of_nil in Hseg].
    + apply matches_Alt_l. constructor.
    + apply matches_Alt_r. constructor.
  - apply (matches_Cat _ _ "/" None id (Some id)); [constructor|].
    apply (matches_Group _ _ None). by constructor.
Qed.

Lemma re_match_pattern1_here s : is_Some (re_match pattern1 s) <-> plain_here s.
Proof.
  split.
  - intros [[t g] Hm]. apply re_match_sound in Hm as (s' & -> & Hm).
    apply matches_pattern1 in Hm as (seg & id & Hseg & Hid & -> & _).
    exists seg, id, s'. by rewrite !append_assoc.
  - intros (seg & id & rest & Hseg & Hid & ->).
    pose proof (re_match_complete _ _ _ rest (plain_matches seg id Hseg Hid)) as H.
    by rewrite !append_assoc in H.
Qed.

Lemma re_match_pattern2_here s : is_Some (re_match pattern2 s) <-> user_here s.
Proof.
  split.
  - intros [[t g] Hm]. apply re_match_sound in Hm as (s' & -> & Hm).
    apply matches_pattern2 in Hm as (user & seg & id & Hseg & Hu & Hid & -> & _).
    exists user, seg, id, s'. by rewrite !append_assoc.
  - intros (user & seg & id & rest & Hseg & Hu & Hid & ->).
    pose proof (re_match_complete _ _ _ rest (user_matches user seg id Hseg Hu Hid)) as H.
    by rewrite !append_assoc in H.
Qed.

Lemma not_here_None r shape s :
  (is_Some (re_match r s) <-> shape s) -> ~ shape s -> re_match r s = None.
Proof. intros H Hn. destruct (re_match r s) eqn:E; [|done]. destruct Hn. apply H. eauto. Qed.

(** A URL has one of the two shapes somewhere exactly when the pattern is
    found in it. *)
Lemma re_search_pattern1_None url : re_search pattern1 url = None -> nowhere plain_here url.
Proof.
  intros Hnone a b -> Hhere. apply re_match_pattern1_here in Hhere.
  apply (re_search_found _ a) in Hhere as [m Hm]. congruence.
Qed.

Lemma re_search_pattern2_None url : re_search pattern2 url = None -> nowhere user_here url.
Proof.
  intros Hnone a b -> Hhere. apply re_match_pattern2_here in Hhere.
  apply (re_search_found _ a) in Hhere as [m Hm]. congruence.
Qed.

(** The place of the leftmost "instagram.com/" is the leftmost place where
    a shape that starts with it can be. *)
Lemma first_occurrence_not_before (shape : string -> Prop) l pre s :
  (forall x, shape x -> is_Some (strip_prefix l x)) ->
  str_find l (pre +:+ s) = Some (String.length pre) ->
  not_before shape pre s.
Proof.
  intros Hshape Hfind a. revert pre Hfind.
  induction a as [|x a IH]; intros pre Hfind b -> Hb Hs.
  - apply Hshape in Hs as [r Hr]. change ("" +:+ b) with b in Hfind.
    rewrite str_find_eq, Hr in Hfind. by destruct b.
  - change ((String x a +:+ b) +:+ s) with (String x ((a +:+ b) +:+ s)) in Hfind.
    change (String x a +:+ b) with (String x (a +:+ b)) in Hfind.
    rewrite str_find_eq in Hfind. destruct (strip_prefix l _); [done|].
    cbn [String.length] in Hfind.
    destruct (str_find l ((a +:+ b) +:+ s)) as [n|] eqn:Hn; [|done].
    apply (IH (a +:+ b)) with b; [|done..]. simpl in Hfind. congruence.
Qed.

Lemma plain_here_prefix x : plain_here x -> is_Some (strip_prefix "instagram.com/" x).
Proof. intros (seg & id & rest & _ & _ & ->). by rewrite strip_prefix_app. Qed.

Lemma user_here_prefix x : user_here x -> is_Some (strip_prefix "instagram.com/" x).
Proof. intros (user & seg & id & rest & _ & _ & _ & ->). by rewrite strip_prefix_app. Qed.

End Patterns.

(** *** [extract_instagram_shortcode] *)

(** C4, as the code has it.  [extract_instagram_shortcode] returns the
    identifier captured at the leftmost place where "instagram.com/" is
    followed by p, reel, tv or reels, a slash and an identifier; when the
    URL has no such place, the identifier captured at the leftmost place
    where "instagram.com/" is followed by a username, a slash, p or reel
    (not tv or reels), a slash and an identifier.  The identifier is the
    whole run of letters, digits, "_" and "-".  Whatever is returned was
    captured from one of these two shapes; an identifier is returned for
    every URL that has one of them somewhere; and [None] is returned for a
    URL that has neither. *)
Theorem extract_shortcode_recognized_shapes :
  (forall pre seg id rest,
     seg ∈ ["p"; "reel"; "tv"; "reels"] -> is_id id -> ends_id rest ->
     not_before plain_here pre ("instagram.com/" +:+ seg +:+ "/" +:+ id +:+ rest) ->
     extract_instagram_shortcode (pre +:+ "instagram.com/" +:+ seg +:+ "/" +:+ id +:+ rest)
     = Some id)
  /\
  (forall pre user seg id rest,
     let url := pre +:+ "instagram.com/" +:+ user +:+ "/" +:+ seg +:+ "/" +:+ id +:+ rest in
     seg ∈ ["p"; "reel"] -> is_user user -> is_id id -> ends_id rest ->
     nowhere plain_here url ->
     not_before user_here pre
       ("instagram.com/" +:+ user +:+ "/" +:+ seg +:+ "/" +:+ id +:+ rest) ->
     extract_instagram_shortcode url = Some id)
  /\
  (forall url id, extract_instagram_shortcode url = Some id -> recognized url id)
  /\
  (forall url id,
     recognized url id -> exists id', extract_instagram_shortcode url = Some id')
  /\
  (forall url, (forall id, ~ recognized url id) -> extract_instagram_shortcode url = None).
Proof.
  split_and!.
  - intros pre seg id rest Hseg Hid Hrest Hleft.
    unfold extract_instagram_shortcode, patterns. cbn [first_match].
    rewrite re_search_not_before.
    + by rewrite (re_search_here _ _ _ (re_match_plain seg id rest Hseg Hid Hrest)).
    + intros a b Hpre Hb.
      apply (not_here_None _ _ _ (re_match_pattern1_here _)). by apply (Hleft a b).
  - intros pre user seg id rest url Hseg Hu Hid Hrest Hplain Hleft. subst url.
    unfold extract_instagram_shortcode, patterns. cbn [first_match].
    rewrite (re_search_none pattern1); cycle 1.
    { intros a b Hurl.
      apply (not_here_None _ _ _ (re_match_pattern1_here _)). by apply (Hplain a b). }
    rewrite re_search_not_before.
    + by rewrite (re_search_here _ _ _ (re_match_user user seg id rest Hseg Hu Hid Hrest)).
    + intros a b Hpre Hb.
      apply (not_here_None _ _ _ (re_match_pattern2_here _)). by apply (Hleft a b).
  - apply extract_recognized.
  - intros url id Hrec.
    unfold extract_instagram_shortcode, patterns. cbn [first_match].
    destruct (re_search pattern1 url) as [[t g]|] eqn:H1.
    { apply re_search_sound in H1 as (pre & s' & -> & Hm).
      apply matches_pattern1 in Hm as (seg & id' & _ & _ & _ & ->). by exists id'. }
    destruct (re_search pattern2 url) as [[t g]|] eqn:H2.
    { apply re_search_sound in H2 as (pre & s' & -> & Hm).
      apply matches_pattern2 in Hm as (user & seg & id' & _ & _ & _ & _ & ->).
      by exists id'. }
    exfalso. destruct Hrec as [pre seg id rest Hseg Hid|pre user seg id rest Hseg Hu Hid].
    + apply (re_search_pattern1_None _ H1 pre _ eq_refl). by exists seg, id, rest.
    + apply (re_search_pattern2_None _ H2 pre _ eq_refl). by exists user, seg, id, rest.
  - intros url Hnone. destruct (extract_instagram_shortcode url) as [id|] eqn:Hx; [|done].
    by apply extract_recognized, Hnone in Hx.
Qed.

Lemma extract_shortcode_recognized_shapes_witness :
  extract_instagram_shortcode "https://www.instagram.com/reels/a-b_c?x=1" = Some "a-b_c"
  /\ extract_instagram_shortcode "https://instagram.com/username/p/XYZ_789/" = Some "XYZ_789".
Proof.
  destruct extract_shortcode_recognized_shapes as (H1 & H2 & _).
  split.
  - apply (H1 "https://www." "reels" "a-b_c" "?x=1").
    + repeat constructor.
    + split; [discriminate|reflexivity].
    + reflexivity.
    + apply (first_occurrence_not_before _ "instagram.com/");
        [apply plain_here_prefix|reflexivity].
  - apply (H2 "https://" "username" "p" "XYZ_789" "/").
    + repeat constructor.
    + split; [discriminate|reflexivity].
    + split; [discriminate|reflexivity].
    + reflexivity.
    + apply re_search_pattern1_None. vm_compute. reflexivity.
    + apply (first_occurrence_not_before _ "instagram.com/");
        [apply user_here_prefix|reflexivity].
Defined.

(** The examples of the specification. *)
Example extract_reel :
  extract_instagram_shortcode "https://instagram.com/reel/ABC123xyz/" = Some "ABC123xyz".
Proof. vm_compute. reflexivity. Qed.

Example extract_user_post :
  extract_instagram_shortcode "https://instagram.com/username/p/XYZ_789/" = Some "XYZ_789".
Proof. vm_compute. reflexivity. Qed.

Example extract_profile :
  extract_instagram_shortcode "https://instagram.com/username/" = None.
Proof. vm_compute. reflexivity. Qed.

(** C4 as stated fails: with a username before the tv segment nothing is
    returned, while the same URL without the username yields the
    identifier; an account called reels makes the first pattern capture
    the segment p; and of two places the first pattern is tried on both
    before the second pattern is tried on any. *)
Lemma extract_username_tv_counterexample :
  extract_instagram_shortcode
    ("https://www." +:+ "instagram.com/" +:+ "username" +:+ "/" +:+ "tv" +:+ "/" +:+ "ABC123" +:+ "/")
  = None
  /\ extract_instagram_shortcode
       ("https://www." +:+ "instagram.com/" +:+ "tv" +:+ "/" +:+ "ABC123" +:+ "/")
     = Some "ABC123"
  /\ extract_instagram_shortcode "https://www.instagram.com/reels/p/ABC123/" = Some "p"
  /\ extract_instagram_shortcode
       "https://www.instagram.com/user/p/AAA?next=instagram.com/p/BBB"
     = Some "BBB".
Proof. split_and!; vm_compute; reflexivity. Qed.

(** *** The handler and its loop *)

Section HandlerFacts.

Variable w : world.

Lemma handler_valid sa sb sc d u shortcode s :
  dict_lookup "url" d = Some (VStr u) ->
  extract_instagram_shortcode u = Some shortcode ->
  download_handler w sa sb sc (Ok (VDict d)) s =
  try_except
    (logger INFO ("Processing download request for: " +:+ u);;
     logger INFO ("Extracted shortcode: " +:+ shortcode);;
     run_pipeline w sa sb sc u shortcode)
    (internal_error w) s.
Proof.
  intros Hd Hx.
  destruct (recognized_valid _ _ (extract_recognized _ _ Hx)) as (Hin & Hu & Hid).
  apply String.eqb_neq in Hu, Hid.
  unfold download_handler. simpl. rewrite Hd. simpl.
  rewrite Hu. simpl. unfold py_in. rewrite Hin. simpl. rewrite Hx. simpl.
  rewrite Hid. reflexivity.
Qed.

Lemma respond_state r s : (respond w r s).2 = s.
Proof.
  unfold respond, os_path_getsize. simpl.
  repeat (case_match; simplify_eq/=; try done).
Qed.

Lemma respond_fs r s s' : fs s = fs s' -> (respond w r s).1 = (respond w r s').1.
Proof.
  destruct s as [f ev], s' as [f' ev']. simpl. intros <-.
  unfold respond, os_path_getsize. simpl.
  repeat (case_match; simplify_eq/=; try done).
Qed.

(** The loop is left as soon as the first method succeeds. *)
Lemma run_pipeline_first sa sb sc u shortcode s r s' :
  sa u shortcode (State (fs s) (events s ++ [Log INFO "Trying method: Enhanced yt-dlp"]))
  = (Ok r, s') ->
  is_success r = Ok true ->
  run_pipeline w sa sb sc u shortcode s
  = respond w r
      (State (fs s') (events s' ++ [Log INFO "âœ… Success with method: Enhanced yt-dlp"])).
Proof.
  intros Ha Hr. unfold run_pipeline, methods.
  set (finish := respond w). simpl. rewrite Ha. simpl. by rewrite Hr.
Qed.

Lemma stub_calls_app l1 l2 : stub_calls (l1 ++ l2) = stub_calls l1 ++ stub_calls l2.
Proof. apply omap_app. Qed.

Lemma try_methods_stubbed u shortcode l : forall result s,
  exists logs,
    try_methods (stubbed u shortcode l) result s
    = (Ok (final_result l result), State (fs s) (events s ++ logs))
    /\ stub_calls logs = called_until l.
Proof.
  induction l as [|[[method_name name] o] l IH]; intros result s.
  - exists []. destruct s. simpl. by rewrite app_nil_r.
  - cbn [stubbed fmap list_fmap try_methods called_until final_result].
    fold (stubbed u shortcode l). unfold stub. simpl.
    destruct o as [r|e]; simpl.
    + destruct (is_success r) as [[|]|e] eqn:Hr; simpl.
      * eexists [_; _; _]. rewrite <- !app_assoc. split; [reflexivity|done].
      * edestruct IH as (logs & -> & Hlogs). eexists (_ :: _ :: logs).
        cbn [fs events]. rewrite <- !app_assoc. split; [reflexivity|].
        simpl. by rewrite <- Hlogs.
      * edestruct IH as (logs & -> & Hlogs). eexists (_ :: _ :: _ :: logs).
        cbn [fs events]. rewrite <- !app_assoc. split; [reflexivity|].
        simpl. by rewrite <- Hlogs.
    + edestruct IH as (logs & -> & Hlogs). eexists (_ :: _ :: _ :: logs).
      cbn [fs events]. rewrite <- !app_assoc. split; [reflexivity|].
      simpl. by rewrite <- Hlogs.
Qed.

Lemma handler_stubbed oa ob oc d u shortcode s :
  dict_lookup "url" d = Some (VStr u) ->
  extract_instagram_shortcode u = Some shortcode ->
  let l := [("Enhanced yt-dlp", "a", oa); ("Direct API", "b", ob);
            ("HTML Scraping", "c", oc)] in
  exists logs,
    download_handler w (stub "a" oa) (stub "b" ob) (stub "c" oc) (Ok (VDict d)) s
    = (Ok (settle (respond w (final_result l VNone) s).1),
       State (fs s) (events s ++ logs))
    /\ stub_calls logs = called_until l.
Proof.
  intros Hd Hx l. rewrite (handler_valid _ _ _ _ _ _ _ Hd Hx).
  unfold run_pipeline.
  change (methods _ _ _ u shortcode) with (stubbed u shortcode l).
  cbn [try_except bind logger emit].
  edestruct (try_methods_stubbed u shortcode l VNone) as (logs & -> & Hlogs).
  cbn [fs events].
  rewrite (surjective_pairing (respond w _ _)), respond_state.
  rewrite (respond_fs _ _ s) by done.
  destruct (respond w _ s).1 as [resp|e]; cbn [settle internal_error bind logger emit ret fs events];
    rewrite <- !app_assoc; eexists; (split; [reflexivity|]);
    rewrite ?stub_calls_app, Hlogs; simpl; by rewrite ?app_nil_r.
Qed.

Lemma try_except_total {A} (m : M A) h :
  (forall e, total (h e)) -> total (try_except m h).
Proof.
  intros Hh s. simpl. destruct (m s) as [[a|e] s']; [by eauto|]. apply Hh.
Qed.

Lemma try_methods_total methods : forall result, total (try_methods methods result).
Proof.
  induction methods as [|[name f] methods IH]; intros result s; simpl; [by eauto|].
  destruct (f _) as [[r|e] s1]; simpl; [|apply IH].
  destruct (is_success r) as [[|]|e]; simpl; [by eauto|apply IH..].
Qed.

Lemma download_handler_total sa sb sc request_json :
  total (download_handler w sa sb sc request_json).
Proof. apply try_except_total. intros e s. simpl. eauto. Qed.

Lemma ytdlp_total u shortcode : total (download_with_ytdlp_enhanced w u shortcode).
Proof.
  apply try_except_total. intros e s. destruct (is_class DownloadError e); simpl; eauto.
Qed.

Lemma requests_total u shortcode : total (download_with_requests w u shortcode).
Proof. apply try_except_total. intros e s. simpl. eauto. Qed.

Lemma instaloader_total u shortcode : total (download_with_instaloader_like w u shortcode).
Proof. apply try_except_total. intros e s. simpl. eauto. Qed.

Lemma is_success_dict d : exists b, is_success (VDict d) = Ok b.
Proof. unfold is_success. destruct (truthy (VDict d)); simpl; eauto. Qed.

Lemma respond_no_success r s :
  is_success r = Ok false -> respond w r s = (Ok exhausted_response, s).
Proof. intros H. unfold respond. simpl. by rewrite H. Qed.

Lemma succeeded_absorbed o : succeeded (returned (absorbed o)) = succeeded (returned o).
Proof. by destruct o as [[d|]|e]. Qed.

Lemma respond_absorbed oa ob oc s :
  let l := [("Enhanced yt-dlp", "a", returned oa); ("Direct API", "b", returned ob);
            ("HTML Scraping", "c", returned oc)] in
  let l' := [("Enhanced yt-dlp", "a", returned (absorbed oa));
             ("Direct API", "b", returned (absorbed ob));
             ("HTML Scraping", "c", returned (absorbed oc))] in
  respond w (final_result l' VNone) s = respond w (final_result l VNone) s.
Proof.
  intros l l'. subst l l'.
  destruct oa as [[da|]|ea], ob as [[db|]|eb], oc as [[dc|]|ec];
    cbn [final_result returned absorbed succeeded];
    change (is_success VNone) with (@Ok bool false);
    repeat match goal with
           | |- context [is_success (VDict ?d)] =>
               let b := fresh "b" in let H := fresh "H" in
               destruct (is_success_dict d) as [b H]; rewrite H; destruct b
           end;
    cbv iota;
    rewrite ?respond_no_success by done; try done.
Qed.

End HandlerFacts.

(** *** What the strategies return *)

Section StrategyFacts.

Variable w : world.

Lemma write_chunk_is_Some path files chunk :
  is_Some (files !! path) -> is_Some (write_chunk path files chunk !! path).
Proof. intros _. unfold write_chunk. rewrite lookup_insert_eq. eauto. Qed.

Lemma foldl_write_chunk_is_Some path chunks : forall files,
  is_Some (files !! path) -> is_Some (foldl (write_chunk path) files chunks !! path).
Proof.
  induction chunks as [|c chunks IH]; intros files H; simpl; [done|].
  by apply IH, write_chunk_is_Some.
Qed.

Lemma save_stream_Ok path r s s' :
  save_stream w path r s = (Ok tt, s') ->
  is_Some (fs s' !! path) /\ events s' = events s.
Proof.
  unfold save_stream. destruct (open_error w s path); [done|].
  destruct (iter_error r); [done|]. intros [= <-]. simpl. split; [|done].
  apply foldl_write_chunk_is_Some. rewrite lookup_insert_eq. eauto.
Qed.

#[local] Opaque save_stream.

Lemma try_api_url_Some shortcode user_agent api_url s r s' :
  try_api_url w shortcode user_agent api_url s = (Ok (Some r), s') ->
  exists resp data media author caption,
    http w s (VStr api_url) (api_headers user_agent shortcode) false 30 = Ok resp /\
    json resp = Ok data /\ find_media data = Ok (Some media) /\
    find_author media = Ok author /\ find_caption media = Ok caption /\
    r = direct_result w shortcode author caption /\
    is_Some (fs s' !! video_path w shortcode).
Proof.
  unfold try_api_url, requests_get. simpl. intros H.
  repeat (case_match; simplify_eq; simpl in *; try done).
  all: match goal with H : save_stream _ _ _ _ = (Ok ?u, _) |- _ =>
         destruct u; apply save_stream_Ok in H as [? ?] end.
  all: eexists _, _, _, _, _; split_and!; [done..| |done].
  all: unfold direct_result, video_path; simpl; case_match; congruence.
Qed.

Lemma for_api_urls_Ok shortcode user_agent urls : forall s r s',
  for_api_urls w shortcode user_agent urls s = (Ok r, s') ->
  r = VNone \/
  exists s1 api_url resp data media author caption,
    api_url ∈ urls /\
    http w s1 (VStr api_url) (api_headers user_agent shortcode) false 30 = Ok resp /\
    json resp = Ok data /\ find_media data = Ok (Some media) /\
    find_author media = Ok author /\ find_caption media = Ok caption /\
    r = direct_result w shortcode author caption /\
    is_Some (fs s' !! video_path w shortcode).
Proof.
  induction urls as [|api_url urls IH]; intros s r s'; simpl.
  - intros [= <- _]. by left.
  - destruct (try_api_url w shortcode user_agent api_url s) as [[[r0|]|e] s1] eqn:Hturn;
      [| |done].
    + intros [= <- <-]. right.
      apply try_api_url_Some in Hturn
        as (resp & data & media & author & caption & ? & ? & ? & ? & ? & ? & ?).
      exists s, api_url, resp, data, media, author, caption.
      split_and!; [left|done..].
    + intros [H|(s2 & u & resp & data & media & author & caption & ? & H)]%IH;
        [by left|right].
      exists s2, u, resp, data, media, author, caption. split; [by right|done].
Qed.

Lemma requests_outcome url shortcode s r s' :
  download_with_requests w url shortcode s = (Ok r, s') ->
  r = VNone \/
  exists s1 user_agent api_url resp data media author caption,
    api_url ∈ api_urls shortcode /\
    http w s1 (VStr api_url) (api_headers user_agent shortcode) false 30 = Ok resp /\
    json resp = Ok data /\ find_media data = Ok (Some media) /\
    find_author media = Ok author /\ find_caption media = Ok caption /\
    r = direct_result w shortcode author caption /\
    is_Some (fs s' !! video_path w shortcode).
Proof.
  unfold download_with_requests, get_random_user_agent.
  remember (api_urls shortcode) as urls eqn:Hurls. simpl.
  destruct (for_api_urls _ _ _ _ _) as [[r0|e] s1] eqn:Hloop.
  - intros [= <- <-]. apply for_api_urls_Ok in Hloop as [?|(s2 & H)]; [by left|right].
    eauto.
  - intros [= <- _]. by left.
Qed.

Lemma ytdlp_outcome url shortcode s r s' :
  download_with_ytdlp_enhanced w url shortcode s = (Ok r, s') ->
  r = VNone \/
  exists s1 user_agent info,
    ytdl w s1 (ydl_opts w shortcode user_agent) url = (Ok (VDict info), fs s') /\
    r = ytdlp_result w shortcode info /\
    path_exists w (fs s')
      (os_path_join (download_dir w) (ytdlp_filename w shortcode info)) = true.
Proof.
  unfold download_with_ytdlp_enhanced, get_random_user_agent, extract_info,
    os_path_exists. simpl.
  destruct (ytdl w _ _ url) as [[info|e] files] eqn:Hengine; simpl.
  - destruct info as [| | | | | |info]; simpl;
      try (intros [= <- _]; by left).
    fold (ytdlp_filename w shortcode info).
    destruct (path_exists w files _) eqn:Hfound; simpl; [|intros [= <- _]; by left].
    intros [= <- <-]. right. eexists _, _, info. by split_and!.
  - destruct (exn_class_of e); intros [= <- _]; by left.
Qed.

Lemma try_ld_json_Some shortcode headers block s r s' :
  try_ld_json w shortcode headers block s = (Ok (Some r), s') ->
  exists data title author_obj author caption,
    json_loads w block = Ok data /\
    py_get data "caption" (VStr "Instagram Video") = Ok title /\
    py_get data "author" (VDict []) = Ok author_obj /\
    py_get author_obj "name" (VStr "Unknown") = Ok author /\
    py_get data "caption" (VStr "No caption available") = Ok caption /\
    r = scraping_result w shortcode title author caption /\
    is_Some (fs s' !! video_path w shortcode).
Proof.
  unfold try_ld_json, requests_get. simpl. intros H.
  repeat (case_match; simplify_eq; simpl in *; try done).
  all: match goal with H : save_stream _ _ _ _ = (Ok ?u, _) |- _ =>
         destruct u; apply save_stream_Ok in H as [? ?] end.
  all: eexists _, _, _, _, _; split_and!; done.
Qed.

Lemma for_matches_Ok shortcode headers matches : forall s r s',
  for_matches w shortcode headers matches s = (Ok r, s') ->
  r = VNone \/
  exists block data title author_obj author caption,
    block ∈ matches /\ json_loads w block = Ok data /\
    py_get data "caption" (VStr "Instagram Video") = Ok title /\
    py_get data "author" (VDict []) = Ok author_obj /\
    py_get author_obj "name" (VStr "Unknown") = Ok author /\
    py_get data "caption" (VStr "No caption available") = Ok caption /\
    r = scraping_result w shortcode title author caption /\
    is_Some (fs s' !! video_path w shortcode).
Proof.
  induction matches as [|block matches IH]; intros s r s'; simpl.
  - intros [= <- _]. by left.
  - destruct (try_ld_json w shortcode headers block s) as [[[r0|]|e] s1] eqn:Hturn;
      [| |done].
    + intros [= <- <-]. right.
      apply try_ld_json_Some in Hturn
        as (data & title & ao & author & caption & ? & ? & ? & ? & ? & ? & ?).
      exists block, data, title, ao, author, caption. split_and!; [left|done..].
    + intros [H|(b & data & title & ao & author & caption & ? & H)]%IH; [by left|right].
      exists b, data, title, ao, author, caption. split; [by right|done].
Qed.

Lemma instaloader_outcome url shortcode s r s' :
  download_with_instaloader_like w url shortcode s = (Ok r, s') ->
  r = VNone \/
  exists block data title author_obj author caption,
    json_loads w block = Ok data /\
    py_get data "caption" (VStr "Instagram Video") = Ok title /\
    py_get data "author" (VDict []) = Ok author_obj /\
    py_get author_obj "name" (VStr "Unknown") = Ok author /\
    py_get data "caption" (VStr "No caption available") = Ok caption /\
    r = scraping_result w shortcode title author caption /\
    is_Some (fs s' !! video_path w shortcode).
Proof.
  unfold download_with_instaloader_like, get_random_user_agent, requests_get.
  generalize ld_json_pattern. intros pattern. simpl.
  destruct (http w _ _ _ _ _) as [resp|e]; simpl; [|intros [= <- _]; by left].
  destruct (status_code resp =? 200); simpl; [|intros [= <- _]; by left].
  destruct (for_matches _ _ _ _ _) as [[r0|e] s1] eqn:Hloop; simpl.
  - intros [= <- <-].
    apply for_matches_Ok in Hloop as [?|(b & data & t & ao & a & c & _ & H)]; [by left|].
    right. by exists b, data, t, ao, a, c.
  - intros [= <- _]. by left.
Qed.

Lemma ytdlp_none_or_success url shortcode :
  none_or_success (download_with_ytdlp_enhanced w url shortcode).
Proof.
  intros s. destruct (ytdlp_total w url shortcode s) as (v & s' & H).
  exists v, s'. split; [done|].
  apply ytdlp_outcome in H as [->|(s1 & ua & info & _ & -> & _)]; [by left|by right].
Qed.

Lemma requests_none_or_success url shortcode :
  none_or_success (download_with_requests w url shortcode).
Proof.
  intros s. destruct (requests_total w url shortcode s) as (v & s' & H).
  exists v, s'. split; [done|].
  apply requests_outcome in H
    as [->|(s1 & ua & u & resp & data & media & a & c & _ & _ & _ & _ & _ & _ & -> & _)];
    [by left|by right].
Qed.

Lemma instaloader_none_or_success url shortcode :
  none_or_success (download_with_instaloader_like w url shortcode).
Proof.
  intros s. destruct (instaloader_total w url shortcode s) as (v & s' & H).
  exists v, s'. split; [done|].
  apply instaloader_outcome in H
    as [->|(b & data & t & ao & a & c & _ & _ & _ & _ & _ & -> & _)]; [by left|by right].
Qed.

Lemma requests_made_app l1 l2 :
  requests_made (l1 ++ l2) = requests_made l1 ++ requests_made l2.
Proof. apply omap_app. Qed.

(** Strategy (a) makes no request of its own. *)
Lemma ytdlp_requests url shortcode s :
  requests_made (events (download_with_ytdlp_enhanced w url shortcode s).2)
  = requests_made (events s).
Proof.
  unfold download_with_ytdlp_enhanced, get_random_user_agent, extract_info,
    os_path_exists. simpl.
  destruct (ytdl w _ _ url) as [[info|e] files]; simpl.
  - destruct info; simpl; try destruct (path_exists w files _); simpl;
      rewrite ?requests_made_app; simpl; by rewrite ?app_nil_r.
  - destruct (exn_class_of e); simpl;
      rewrite ?requests_made_app; simpl; by rewrite ?app_nil_r.
Qed.

End StrategyFacts.

(** *** The history only grows *)

Section Extends.

Variable w : world.

Lemma extends_ret {A} (a : A) : extends (ret a).
Proof. intros s. exists []. simpl. by rewrite app_nil_r. Qed.

Lemma extends_raise {A} e : extends (@raise A e).
Proof. intros s. exists []. simpl. by rewrite app_nil_r. Qed.

Lemma extends_lift {A} (r : result A) : extends (lift r).
Proof. intros s. exists []. simpl. by rewrite app_nil_r. Qed.

Lemma extends_logger lv msg : extends (logger lv msg).
Proof. intros s. by eexists [_]. Qed.

Lemma extends_bind {A B} (m : M A) (k : A -> M B) :
  extends m -> (forall a, extends (k a)) -> extends (bind m k).
Proof.
  intros Hm Hk s. simpl. destruct (Hm s) as [more1 H1].
  destruct (m s) as [[a|e] s1]; simpl in *.
  - destruct (Hk a s1) as [more2 H2]. exists (more1 ++ more2).
    by rewrite H2, H1, app_assoc.
  - by exists more1.
Qed.

Lemma extends_try_except {A} (m : M A) h :
  extends m -> (forall e, extends (h e)) -> extends (try_except m h).
Proof.
  intros Hm Hh s. simpl. destruct (Hm s) as [more1 H1].
  destruct (m s) as [[a|e] s1]; simpl in *.
  - by exists more1.
  - destruct (Hh e s1) as [more2 H2]. exists (more1 ++ more2).
    by rewrite H2, H1, app_assoc.
Qed.

Lemma extends_get_random_user_agent : extends (get_random_user_agent w).
Proof. intros s. exists []. simpl. by rewrite app_nil_r. Qed.

Lemma extends_requests_get url headers stream timeout :
  extends (requests_get w url headers stream timeout).
Proof. intros s. by eexists [_]. Qed.

Lemma extends_extract_info opts url : extends (extract_info w opts url).
Proof. intros s. unfold extract_info. destruct (ytdl w s opts url). by eexists [_]. Qed.

Lemma extends_os_path_exists path : extends (os_path_exists w path).
Proof. intros s. exists []. simpl. by rewrite app_nil_r. Qed.

Lemma extends_save_stream path r : extends (save_stream w path r).
Proof.
  intros s. exists []. unfold save_stream. rewrite app_nil_r.
  destruct (open_error w s path); [done|]. by destruct (iter_error r).
Qed.

End Extends.

Create HintDb extends.
#[local] Hint Resolve extends_ret extends_raise extends_lift extends_logger
  extends_get_random_user_agent extends_requests_get extends_extract_info
  extends_os_path_exists extends_save_stream : extends.

Ltac solve_extends :=
  repeat first
    [ progress auto with extends
    | apply extends_bind; [|intros ?]
    | apply extends_try_except; [|intros ?]
    | case_match ].

Section ExtendsStrategies.

Variable w : world.

Lemma extends_try_api_url shortcode user_agent api_url :
  extends (try_api_url w shortcode user_agent api_url).
Proof. unfold try_api_url. solve_extends. Qed.

Lemma extends_for_api_urls shortcode user_agent urls :
  extends (for_api_urls w shortcode user_agent urls).
Proof.
  induction urls as [|api_url urls IH]; simpl; [apply extends_ret|].
  apply extends_bind; [apply extends_try_api_url|]. intros [r|]; [apply extends_ret|done].
Qed.

Lemma extends_try_ld_json shortcode headers block :
  extends (try_ld_json w shortcode headers block).
Proof. unfold try_ld_json. solve_extends. Qed.

Lemma extends_for_matches shortcode headers matches :
  extends (for_matches w shortcode headers matches).
Proof.
  induction matches as [|block matches IH]; simpl; [apply extends_ret|].
  apply extends_bind; [apply extends_try_ld_json|]. intros [r|]; [apply extends_ret|done].
Qed.

End ExtendsStrategies.

(** *** Strategy (b), endpoint by endpoint; files on disk *)

Section DirectApi.

Variable w : world.

Lemma find_media_items d media : items_shape d media -> find_media (VDict d) = Ok (Some media).
Proof.
  intros (x & n & H & Hlen & Hn & Hfirst). unfold find_media, has_nonempty. simpl.
  rewrite H. simpl. rewrite Hlen. simpl.
  apply Z.ltb_lt in Hn. rewrite Hn. simpl. by rewrite Hfirst.
Qed.

Lemma has_no_items d : no_items d -> has_nonempty "items" (VDict d) = Ok false.
Proof.
  intros [H|(x & H & Hlen)]; unfold has_nonempty; simpl; rewrite H; simpl; [done|].
  by rewrite Hlen.
Qed.

Lemma find_media_graphql d media :
  graphql_shape d media -> find_media (VDict d) = Ok (Some media).
Proof.
  intros (H & g & Hg & Hm). unfold find_media. rewrite (has_no_items _ H). simpl.
  rewrite Hg. simpl. by rewrite Hm.
Qed.

Lemma find_media_neither d : neither_shape d -> find_media (VDict d) = Ok None.
Proof.
  intros [H Hg]. unfold find_media. rewrite (has_no_items _ H). simpl. by rewrite Hg.
Qed.

Lemma find_video_url_none m :
  no_video_url m -> exists v, find_video_url (VDict m) = Ok v /\ truthy v = false.
Proof.
  intros [(v & H1 & Hv)|[H1 [H2|[(l & H2 & Hlen)|(l & n & first & v & H2 & Hlen & Hn & Hf & Hu & Hv)]]]];
    unfold find_video_url, has_nonempty; simpl; rewrite H1; simpl.
  - eauto.
  - rewrite H2. simpl. eauto.
  - rewrite H2. simpl. rewrite Hlen. simpl. eauto.
  - rewrite H2. simpl. rewrite Hlen. simpl. apply Z.ltb_lt in Hn. rewrite Hn. simpl.
    rewrite Hf. simpl. eauto.
Qed.

Lemma for_api_urls_next shortcode user_agent api_url rest s resp :
  http w s (VStr api_url) (api_headers user_agent shortcode) false 30 = Ok resp ->
  status_code resp = 200 ->
  (exists e, json resp = Raise e /\ exn_class_of e = JSONDecodeError) \/
  (exists data, json resp = Ok data /\ find_media data = Ok None) \/
  (exists data media v,
     json resp = Ok data /\ find_media data = Ok (Some media) /\
     find_video_url media = Ok v /\ truthy v = false) ->
  exists logs,
    for_api_urls w shortcode user_agent (api_url :: rest) s
    = for_api_urls w shortcode user_agent rest
        (State (fs s)
           (events s ++ HttpGet (VStr api_url) (api_headers user_agent shortcode) false 30
                        :: logs))
    /\ (logs = [] \/ logs = [Log WARNING ("Failed to parse JSON from " +:+ api_url)]).
Proof.
  intros Hget Hstatus Hcase. cbn [for_api_urls]. unfold try_api_url, requests_get.
  simpl. rewrite Hget, Hstatus. simpl.
  destruct Hcase as [(e & -> & He)|[(data & -> & Hd)|(data & m & v & -> & Hm & Hv & Ht)]];
    simpl.
  - unfold is_class. rewrite He. simpl. rewrite <- app_assoc. eexists. split; [done|by right].
  - rewrite Hd. simpl. eexists. split; [done|by left].
  - rewrite Hm. simpl. rewrite Hv. simpl. rewrite Ht.
    simpl. eexists. split; [done|by left].
Qed.

(** X26.  Where strategy (b) does go on with the next endpoint.  When an
    endpoint answers 200 and its body does not parse as JSON, or no media
    object is found in it, or no playable URL is found in the media object,
    the loop goes on with the next endpoint: nothing but the request (and
    the parse warning) has happened.  No media object is found in an
    object with no "items", or one of length zero ([], {} or the empty
    string), and no "graphql"; no playable URL is found in a media object
    with a falsy "video_url", or with no "video_url" and no
    "video_versions", an empty one, or one whose first entry has a falsy
    "url". *)
Theorem direct_api_proceeds_to_next_endpoint shortcode user_agent api_url rest s resp :
  http w s (VStr api_url) (api_headers user_agent shortcode) false 30 = Ok resp ->
  status_code resp = 200 ->
  (exists e, json resp = Raise e /\ exn_class_of e = JSONDecodeError) \/
  (exists d, json resp = Ok (VDict d) /\ neither_shape d) \/
  (exists d m, json resp = Ok (VDict d) /\
               (items_shape d (VDict m) \/ graphql_shape d (VDict m)) /\
               no_video_url m) \/
  (exists data, json resp = Ok data /\ find_media data = Ok None) \/
  (exists data media v,
     json resp = Ok data /\ find_media data = Ok (Some media) /\
     find_video_url media = Ok v /\ truthy v = false) ->
  exists logs,
    for_api_urls w shortcode user_agent (api_url :: rest) s
    = for_api_urls w shortcode user_agent rest
        (State (fs s)
           (events s ++ HttpGet (VStr api_url) (api_headers user_agent shortcode) false 30
                        :: logs))
    /\ (logs = [] \/ logs = [Log WARNING ("Failed to parse JSON from " +:+ api_url)]).
Proof.
  intros Hget Hstatus Hcase. apply (for_api_urls_next _ _ _ _ _ resp Hget Hstatus).
  destruct Hcase as [H|[(d & Hj & Hd)|[(d & m & Hj & Hm & Hv)|[H|H]]]].
  - by left.
  - right. left. exists (VDict d). split; [done|by apply find_media_neither].
  - right. right. destruct (find_video_url_none _ Hv) as (v & Hu & Ht).
    exists (VDict d), (VDict m), v. split_and!; [done| |done|done].
    destruct Hm; [by apply find_media_items|by apply find_media_graphql].
  - right. by left.
  - right. by right.
Qed.

(** C5, as the code has it.  When one of the three strategies returns a
    success result, the path in its "filepath" field exists when the
    strategy returns.  For (b) and (c) it is the regular file just written,
    which may be empty.  For (a) it is whatever [os.path.exists] accepts at
    "<download directory>/<id>.<ext>": a regular file, of any size, or a
    directory. *)
Theorem success_file_exists url shortcode s r s' :
  is_success r = Ok true ->
  (download_with_requests w url shortcode s = (Ok r, s') \/
   download_with_instaloader_like w url shortcode s = (Ok r, s') ->
   exists path, py_getitem r "filepath" = Ok (VStr path) /\ is_Some (fs s' !! path))
  /\
  (download_with_ytdlp_enhanced w url shortcode s = (Ok r, s') ->
   exists path,
     py_getitem r "filepath" = Ok (VStr path) /\
     (is_Some (fs s' !! path) \/ os_path_isdir w path = true)).
Proof.
  intros Hr. split.
  - intros [H|H].
    + apply requests_outcome in H
        as [->|(s1 & ua & u & resp & data & media & a & c & _ & _ & _ & _ & _ & _ & -> & Hfile)];
        [done|]. eauto.
    + apply instaloader_outcome in H
        as [->|(b & data & t & ao & a & c & _ & _ & _ & _ & _ & -> & Hfile)]; [done|]. eauto.
  - intros H.
    apply ytdlp_outcome in H as [->|(s1 & ua & info & _ & -> & Hfile)]; [done|].
    eexists. split; [done|].
    unfold path_exists in Hfile. apply orb_prop in Hfile as [Hfile|Hdir]; [left|by right].
    by apply bool_decide_eq_true_1 in Hfile.
Qed.

End DirectApi.

Lemma success_file_exists_witness :
  exists path,
    py_getitem (direct_result (serving (Ok video_payload) []) "ABC" (VStr "Unknown") (VStr ""))
      "filepath" = Ok (VStr path) /\
    is_Some (fs (download_with_requests (serving (Ok video_payload) [])
                   "https://www.instagram.com/p/ABC/" "ABC" fresh).2 !! path).
Proof.
  refine (proj1 (success_file_exists (serving (Ok video_payload) [])
                   "https://www.instagram.com/p/ABC/" "ABC" fresh
                   (direct_result (serving (Ok video_payload) []) "ABC"
                      (VStr "Unknown") (VStr ""))
                   _ _) _).
  - reflexivity.
  - left. vm_compute. reflexivity.
Defined.

(** C5 as stated fails: when the video is served with an empty body,
    strategy (b) returns success and the file it names is empty; and when
    the engine reports an empty id and an empty extension, strategy (a)
    returns success with the path "<download directory>/.", which is the
    download directory and no file. *)
Lemma success_with_empty_file_counterexample :
  ((exists r, empty_video_run.1 = Ok r /\ is_success r = Ok true /\
              py_getitem r "filepath" = Ok (VStr "/app/downloads/ABC.mp4")) /\
   fs empty_video_run.2 !! "/app/downloads/ABC.mp4" = Some [])
  /\
  ((exists r, dotted_run.1 = Ok r /\ is_success r = Ok true /\
              py_getitem r "filepath" = Ok (VStr "/app/downloads/.")) /\
   fs dotted_run.2 !! "/app/downloads/." = None).
Proof. split; (split; [eexists; split_and!|]); vm_compute; reflexivity. Qed.

(** *** Requests and result fields *)

Section Requests.

Variable w : world.

Lemma bind_bind {A B C} (m : M A) (k1 : A -> M B) (k2 : B -> M C) s :
  bind (bind m k1) k2 s = bind m (fun a => bind (k1 a) k2) s.
Proof. simpl. by destruct (m s) as [[a|e] s1]. Qed.

Lemma requests_get_first {B} url headers stream timeout (k : response -> M B) s :
  (forall r, extends (k r)) ->
  exists more,
    events (bind (requests_get w url headers stream timeout) k s).2
    = events s ++ HttpGet url headers stream timeout :: more.
Proof.
  intros Hk. simpl. destruct (http w s url headers stream timeout) as [r|e]; simpl.
  - destruct (Hk r (State (fs s) (events s ++ [HttpGet url headers stream timeout])))
      as [more ->].
    exists more. simpl. by rewrite <- app_assoc.
  - by exists [].
Qed.

Lemma for_api_urls_first shortcode user_agent api_url rest s :
  exists more,
    events (for_api_urls w shortcode user_agent (api_url :: rest) s).2
    = events s ++ HttpGet (VStr api_url) (api_headers user_agent shortcode) false 30 :: more.
Proof.
  cbn [for_api_urls]. unfold try_api_url. cbv zeta. rewrite bind_bind.
  apply requests_get_first. intros r. apply extends_bind.
  - cbv beta. solve_extends.
  - intros [r'|]; [apply extends_ret|apply extends_for_api_urls].
Qed.

(** C10.  Strategies (b) and (c) do not read the original URL: two calls
    with the same identifier and different URLs are the same computation.
    The first request of (b) goes to the p endpoint built from the
    identifier, with the referer built from the identifier; the first
    request of (c) goes to the post page built from the identifier. *)
Theorem original_url_is_not_read :
  (forall url1 url2 shortcode s,
     download_with_requests w url1 shortcode s = download_with_requests w url2 shortcode s
     /\ download_with_instaloader_like w url1 shortcode s
        = download_with_instaloader_like w url2 shortcode s)
  /\
  (forall url shortcode s,
     exists user_agent more,
       events (download_with_requests w url shortcode s).2
       = events s ++
         Log INFO ("Attempting direct API method for " +:+ shortcode)
         :: HttpGet (VStr ("https://www.instagram.com/p/" +:+ shortcode +:+ "/?__a=1&__d=dis"))
              (api_headers user_agent shortcode) false 30
         :: more
       /\ ("Referer", "https://www.instagram.com/p/" +:+ shortcode +:+ "/")
          ∈ api_headers user_agent shortcode)
  /\
  (forall url shortcode s,
     exists user_agent more,
       events (download_with_instaloader_like w url shortcode s).2
       = events s ++
         Log INFO ("Attempting HTML scraping for " +:+ shortcode)
         :: HttpGet (VStr ("https://www.instagram.com/p/" +:+ shortcode +:+ "/"))
              (page_headers user_agent) false 30
         :: more).
Proof.
  split_and!.
  - done.
  - intros url shortcode s. unfold download_with_requests, api_urls.
    cbn [try_except bind logger emit]. unfold get_random_user_agent at 1.
    set (s1 := State _ _). set (ua := default _ _).
    destruct (for_api_urls_first shortcode ua
                ("https://www.instagram.com/p/" +:+ shortcode +:+ "/?__a=1&__d=dis")
                ["https://www.instagram.com/reel/" +:+ shortcode +:+ "/?__a=1&__d=dis"] s1)
      as [more Hmore].
    exists ua.
    destruct (for_api_urls _ _ _ _ _) as [[r|e] s2].
    + exists more. cbn [snd events] in *. rewrite Hmore. subst s1. cbn [events].
      rewrite <- app_assoc. split; [done|]. unfold api_headers. set_solver.
    + eexists. cbn [snd events bind logger emit ret] in *. rewrite Hmore. subst s1.
      cbn [events]. rewrite <- !app_assoc. split; [done|]. unfold api_headers. set_solver.
  - intros url shortcode s.
    unfold download_with_instaloader_like, get_random_user_agent, requests_get.
    generalize ld_json_pattern. intros pattern. cbn [try_except bind logger emit].
    set (s1 := State _ _). set (ua := default _ _). exists ua.
    destruct (http w s1 _ _ _ _) as [resp|e];
      [|eexists; cbn [snd events bind logger emit ret fs]; subst s1; cbn [events];
        by rewrite <- !app_assoc].
    cbv beta. destruct (status_code resp =? 200);
      [|eexists; cbn [snd events ret fs]; subst s1; cbn [events];
        by rewrite <- !app_assoc].
    match goal with |- context [for_matches w shortcode ?h ?l ?s2] =>
      destruct (extends_for_matches w shortcode h l s2) as [more Hmore];
      destruct (for_matches w shortcode h l s2) as [[r|e] s3]
    end; eexists; cbn [snd events bind logger emit ret fs] in *; rewrite Hmore;
      subst s1; cbn [events]; by rewrite <- !app_assoc.
Qed.

Lemma find_author_default m :
  dict_lookup "owner" m = None -> find_author (VDict m) = Ok (VStr "Unknown").
Proof. intros H. unfold find_author. simpl. by rewrite H. Qed.

Lemma find_caption_default m :
  dict_lookup "caption" m = None -> dict_lookup "edge_media_to_caption" m = None ->
  find_caption (VDict m) = Ok (VStr "").
Proof. intros H1 H2. unfold find_caption. simpl. by rewrite H1, H2. Qed.

(** C3, as the code has it.  A success result of strategy (a) has the
    fields success, filepath, filename, title, author, caption, thumbnail
    and method; a success result of (b) or (c) has the same fields but no
    thumbnail.  The author is the one in the source data, "Unknown" when
    the data has none; the caption is the one in the source data, "No
    caption available" when the data has none. *)
Theorem success_results_fields url shortcode s r s' :
  is_success r = Ok true ->
  (download_with_ytdlp_enhanced w url shortcode s = (Ok r, s') ->
   exists s1 user_agent info d,
     ytdl w s1 (ydl_opts w shortcode user_agent) url = (Ok (VDict info), fs s') /\
     r = VDict d /\
     dict_keys d = ["success"; "filepath"; "filename"; "title"; "author"; "caption";
                    "thumbnail"; "method"] /\
     dict_lookup "author" d = Some (default (VStr "Unknown") (dict_lookup "uploader" info)) /\
     dict_lookup "caption" d
     = Some (default (VStr "No caption available") (dict_lookup "description" info)) /\
     dict_lookup "method" d = Some (VStr "ytdlp_enhanced"))
  /\
  (download_with_requests w url shortcode s = (Ok r, s') ->
   exists s1 user_agent api_url resp data media author caption d,
     http w s1 (VStr api_url) (api_headers user_agent shortcode) false 30 = Ok resp /\
     json resp = Ok data /\ find_media data = Ok (Some media) /\
     find_author media = Ok author /\ find_caption media = Ok caption /\
     r = VDict d /\
     dict_keys d = ["success"; "filepath"; "filename"; "title"; "author"; "caption";
                    "method"] /\
     dict_lookup "author" d = Some author /\
     dict_lookup "caption" d
     = Some (if truthy caption then caption else VStr "No caption available") /\
     dict_lookup "method" d = Some (VStr "direct_api"))
  /\
  (download_with_instaloader_like w url shortcode s = (Ok r, s') ->
   exists block data author_obj author caption d,
     json_loads w block = Ok data /\
     py_get data "author" (VDict []) = Ok author_obj /\
     py_get author_obj "name" (VStr "Unknown") = Ok author /\
     py_get data "caption" (VStr "No caption available") = Ok caption /\
     r = VDict d /\
     dict_keys d = ["success"; "filepath"; "filename"; "title"; "author"; "caption";
                    "method"] /\
     dict_lookup "author" d = Some author /\
     dict_lookup "caption" d = Some caption /\
     dict_lookup "method" d = Some (VStr "html_scraping"))
  /\
  (forall m, dict_lookup "owner" m = None -> find_author (VDict m) = Ok (VStr "Unknown"))
  /\
  (forall m, dict_lookup "caption" m = None -> dict_lookup "edge_media_to_caption" m = None ->
             find_caption (VDict m) = Ok (VStr "") /\ truthy (VStr "") = false).
Proof.
  intros Hr. split_and!.
  - intros [->|(s1 & ua & info & Hengine & -> & _)]%ytdlp_outcome; [done|].
    eexists s1, ua, info, _. by split_and!.
  - intros [->|(s1 & ua & u & resp & data & media & a & c & _ & ? & ? & ? & ? & ? & -> & _)]
             %requests_outcome; [done|].
    eexists s1, ua, u, resp, data, media, a, c, _. by split_and!.
  - intros [->|(b & data & t & ao & a & c & ? & _ & ? & ? & ? & -> & _)]%instaloader_outcome;
      [done|].
    eexists b, data, ao, a, c, _. by split_and!.
  - apply find_author_default.
  - intros m H1 H2. split; [by apply find_caption_default|done].
Qed.

End Requests.

Lemma success_results_fields_witness :
  exists s1 user_agent api_url resp data media author caption d,
    http (serving (Ok video_payload) []) s1 (VStr api_url)
      (api_headers user_agent "ABC") false 30 = Ok resp /\
    json resp = Ok data /\ find_media data = Ok (Some media) /\
    find_author media = Ok author /\ find_caption media = Ok caption /\
    direct_result (serving (Ok video_payload) []) "ABC" (VStr "Unknown") (VStr "") = VDict d /\
    dict_keys d = ["success"; "filepath"; "filename"; "title"; "author"; "caption";
                   "method"] /\
    dict_lookup "author" d = Some author /\
    dict_lookup "caption" d
    = Some (if truthy caption then caption else VStr "No caption available") /\
    dict_lookup "method" d = Some (VStr "direct_api").
Proof.
  refine (proj1 (proj2 (success_results_fields (serving (Ok video_payload) [])
            "https://www.instagram.com/p/ABC/" "ABC" fresh _ _ _)) _).
  - reflexivity.
  - vm_compute. reflexivity.
Defined.

(** C3 as stated fails: a success result of strategy (b) has no thumbnail
    field. *)
Lemma direct_api_result_without_thumbnail_counterexample :
  exists d,
    empty_video_run.1 = Ok (VDict d) /\
    dict_lookup "success" d = Some (VBool true) /\
    dict_lookup "thumbnail" d = None /\
    dict_keys d = ["success"; "filepath"; "filename"; "title"; "author"; "caption"; "method"].
Proof. eexists. split_and!; vm_compute; reflexivity. Qed.

Lemma direct_api_proceeds_witness :
  exists logs,
    for_api_urls (serving (Raise (Exn JSONDecodeError "Expecting value")) []) "ABC" "agent"
      ["https://www.instagram.com/p/ABC/?__a=1&__d=dis";
       "https://www.instagram.com/reel/ABC/?__a=1&__d=dis"] fresh
    = for_api_urls (serving (Raise (Exn JSONDecodeError "Expecting value")) []) "ABC" "agent"
        ["https://www.instagram.com/reel/ABC/?__a=1&__d=dis"]
        (State (fs fresh)
           (events fresh ++
            HttpGet (VStr "https://www.instagram.com/p/ABC/?__a=1&__d=dis")
              (api_headers "agent" "ABC") false 30 :: logs))
    /\ (logs = [] \/
        logs = [Log WARNING ("Failed to parse JSON from " +:+
                             "https://www.instagram.com/p/ABC/?__a=1&__d=dis")]).
Proof.
  eapply (direct_api_proceeds_to_next_endpoint
            (serving (Raise (Exn JSONDecodeError "Expecting value")) [])).
  - reflexivity.
  - reflexivity.
  - left. eexists. split; reflexivity.
Defined.

(** C8.  The code at the payload {"items": 5}, answered with status 200 by
    the first endpoint.  The object matches neither shape, and the claim
    has the strategy go on with the next endpoint; the code raises in
    [len], which only the [except] around the whole strategy catches: the
    error is logged, the result is [None] and the second endpoint is never
    requested.  On the payload {"items": []}, which matches neither shape
    either, the sibling path ([else: continue]) does go on: both endpoints
    are requested. *)
Theorem items_not_array_ends_the_strategy :
  (forall media, ~ items_shape items_not_array media) /\
  (forall media, ~ graphql_shape items_not_array media) /\
  items_not_array_run.1 = Ok VNone /\
  requests_made (events items_not_array_run.2)
  = [VStr "https://www.instagram.com/p/ABC/?__a=1&__d=dis"] /\
  last (events items_not_array_run.2)
  = Some (Log ERROR "Direct API method failed: object of type 'int' has no len()") /\
  items_empty_run.1 = Ok VNone /\
  requests_made (events items_empty_run.2)
  = [VStr "https://www.instagram.com/p/ABC/?__a=1&__d=dis";
     VStr "https://www.instagram.com/reel/ABC/?__a=1&__d=dis"].
Proof.
  split_and!.
  - by intros media (x & n & [= <-] & Hlen & _).
  - by intros media (_ & g & H & _).
  - vm_compute. reflexivity.
  - vm_compute. reflexivity.
  - vm_compute. reflexivity.
  - vm_compute. reflexivity.
  - vm_compute. reflexivity.
Qed.

(** *** The orchestrator *)

Section Orchestrator.

Variable w : world.

(** C1.  For a request whose URL yields an identifier, the strategies are
    entered in the order (a), (b), (c) and none after the first that returns
    a success result: with the three strategies stubbed, the stubs entered
    are "a", then "b" unless (a) succeeded, then "c" unless (a) or (b)
    succeeded.  When (a) succeeds the run does not depend on what (b) and
    (c) are, and with the strategies of the module it makes no request to
    the network: (b) and (c) are never entered. *)
Theorem strategies_in_order_until_first_success d u shortcode s :
  dict_lookup "url" d = Some (VStr u) ->
  extract_instagram_shortcode u = Some shortcode ->
  (forall oa ob oc,
     stub_calls (events (download_handler w (stub "a" oa) (stub "b" ob) (stub "c" oc)
                           (Ok (VDict d)) s).2)
     = stub_calls (events s) ++
       (if succeeded oa then ["a"]
        else if succeeded ob then ["a"; "b"]
        else ["a"; "b"; "c"]))
  /\
  (forall sa sb sc sb' sc' r s',
     sa u shortcode (entering u shortcode s) = (Ok r, s') ->
     is_success r = Ok true ->
     download_handler w sa sb sc (Ok (VDict d)) s
     = download_handler w sa sb' sc' (Ok (VDict d)) s)
  /\
  (forall r s',
     download_with_ytdlp_enhanced w u shortcode (entering u shortcode s) = (Ok r, s') ->
     is_success r = Ok true ->
     requests_made (events (download w (Ok (VDict d)) s).2) = requests_made (events s)).
Proof.
  intros Hd Hx. split_and!.
  - intros oa ob oc.
    destruct (handler_stubbed w oa ob oc d u shortcode s Hd Hx) as (logs & -> & Hlogs).
    cbn [snd events]. rewrite stub_calls_app, Hlogs. cbn [called_until].
    by destruct (succeeded oa), (succeeded ob), (succeeded oc).
  - intros sa sb sc sb' sc' r s' Ha Hr.
    rewrite !(handler_valid _ _ _ _ _ _ _ _ Hd Hx).
    unfold entering in Ha. simpl in Ha.
    unfold run_pipeline, methods. simpl.
    rewrite <- !app_assoc. simpl. rewrite Ha. simpl. by rewrite Hr.
  - intros r s' Ha Hr. unfold download.
    rewrite (handler_valid _ _ _ _ _ _ _ _ Hd Hx).
    pose proof (ytdlp_requests w u shortcode (entering u shortcode s)) as Hreq.
    rewrite Ha in Hreq. unfold entering in Ha, Hreq. cbn [snd events] in Hreq.
    cbn [try_except bind logger emit fs events].
    rewrite (run_pipeline_first _ _ _ _ _ _ _ r s');
      [|by cbn [fs events]; rewrite <- !app_assoc|done].
    rewrite (surjective_pairing (respond w r _)), respond_state.
    destruct (respond w r _).1;
      cbn [snd events internal_error bind logger emit ret rendered content
           json_compliant forallb andb];
      rewrite !requests_made_app, Hreq, !requests_made_app; simpl;
      by rewrite ?app_nil_r.
Qed.

(** C2.  No error of a strategy escapes.  Each of the three strategies
    always ends with a value, [None] or a success result, whatever the
    world does and whatever fails inside; the loop over the
    methods and the handler always end with a value, whatever the methods
    are; and a stubbed strategy that raises leaves the response, the files
    and the strategies entered exactly as if it had returned [None].  The
    loop goes on after an error: when a method raises, the error is logged
    and the loop continues with the methods that remain, as it does,
    without the log line, when the method returns [None]; so in the
    handler, when (a) raises, (b) is entered next, and when (b) raises
    after (a) failed, (c) is entered next. *)
Theorem strategy_errors_never_escape :
  (forall url shortcode,
     none_or_success (download_with_ytdlp_enhanced w url shortcode) /\
     none_or_success (download_with_requests w url shortcode) /\
     none_or_success (download_with_instaloader_like w url shortcode))
  /\
  (forall methods result, total (try_methods methods result))
  /\
  (forall sa sb sc request_json, total (download_handler w sa sb sc request_json))
  /\
  (forall oa ob oc d u shortcode s,
     dict_lookup "url" d = Some (VStr u) ->
     extract_instagram_shortcode u = Some shortcode ->
     let run := download_handler w (stub "a" (returned oa)) (stub "b" (returned ob))
                  (stub "c" (returned oc)) (Ok (VDict d)) s in
     let run' := download_handler w (stub "a" (returned (absorbed oa)))
                   (stub "b" (returned (absorbed ob)))
                   (stub "c" (returned (absorbed oc))) (Ok (VDict d)) s in
     run.1 = run'.1 /\ fs run.2 = fs run'.2 /\
     stub_calls (events run.2) = stub_calls (events run'.2))
  /\
  (forall name f rest result s e s1,
     f (State (fs s) (events s ++ [Log INFO ("Trying method: " +:+ name)])) = (Raise e, s1) ->
     try_methods ((name, f) :: rest) result s
     = try_methods rest result
         (State (fs s1)
            (events s1 ++ [Log ERROR ("Method " +:+ name +:+ " failed: " +:+ exn_str e)])))
  /\
  (forall name f rest result s s1,
     f (State (fs s) (events s ++ [Log INFO ("Trying method: " +:+ name)])) = (Ok VNone, s1) ->
     try_methods ((name, f) :: rest) result s = try_methods rest VNone s1)
  /\
  (forall e ob oc d u shortcode s,
     dict_lookup "url" d = Some (VStr u) ->
     extract_instagram_shortcode u = Some shortcode ->
     exists logs,
       (download_handler w (stub "a" (Raise e)) (stub "b" ob) (stub "c" oc)
          (Ok (VDict d)) s).2
       = State (fs s) (events s ++ logs) /\
       stub_calls logs = "a" :: "b" :: if succeeded ob then [] else ["c"])
  /\
  (forall oa e oc d u shortcode s,
     dict_lookup "url" d = Some (VStr u) ->
     extract_instagram_shortcode u = Some shortcode ->
     succeeded oa = false ->
     exists logs,
       (download_handler w (stub "a" oa) (stub "b" (Raise e)) (stub "c" oc)
          (Ok (VDict d)) s).2
       = State (fs s) (events s ++ logs) /\
       stub_calls logs = ["a"; "b"; "c"]).
Proof.
  split_and!.
  - intros url shortcode.
    auto using ytdlp_none_or_success, requests_none_or_success,
      instaloader_none_or_success.
  - apply try_methods_total.
  - apply download_handler_total.
  - intros oa ob oc d u shortcode s Hd Hx run run'. subst run run'.
    destruct (handler_stubbed w (returned oa) (returned ob) (returned oc)
                d u shortcode s Hd Hx) as (logs & -> & Hlogs).
    destruct (handler_stubbed w (returned (absorbed oa)) (returned (absorbed ob))
                (returned (absorbed oc)) d u shortcode s Hd Hx) as (logs' & -> & Hlogs').
    cbn [fst snd fs events]. rewrite respond_absorbed.
    split_and!; [done|done|].
    rewrite !stub_calls_app, Hlogs, Hlogs'. cbn [called_until].
    by rewrite !succeeded_absorbed.
  - intros name f rest result s e s1 Hf. cbn [try_methods bind logger emit attempt].
    by rewrite Hf.
  - intros name f rest result s s1 Hf. cbn [try_methods bind logger emit attempt].
    by rewrite Hf.
  - intros e ob oc d u shortcode s Hd Hx.
    destruct (handler_stubbed w (Raise e) ob oc d u shortcode s Hd Hx)
      as (logs & -> & Hlogs).
    exists logs. split; [done|]. rewrite Hlogs. cbn [called_until succeeded].
    by destruct (succeeded ob), (succeeded oc).
  - intros oa e oc d u shortcode s Hd Hx Ha.
    destruct (handler_stubbed w oa (Raise e) oc d u shortcode s Hd Hx)
      as (logs & -> & Hlogs).
    exists logs. split; [done|]. rewrite Hlogs. cbn [called_until succeeded].
    rewrite Ha. by destruct (succeeded oc).
Qed.

(** C6.  When each of the three strategies returns [None] or raises, the
    response is the generic failure: status 400, the fields "error" and
    "suggestion" only (no "method", no "success"), the suggestion on several
    lines; and each strategy was entered once, in order, with no retry. *)
Theorem exhaustion_gives_generic_failure d u shortcode s :
  dict_lookup "url" d = Some (VStr u) ->
  extract_instagram_shortcode u = Some shortcode ->
  (forall sa sb sc,
     (forall s1, no_result (sa u shortcode s1).1) ->
     (forall s1, no_result (sb u shortcode s1).1) ->
     (forall s1, no_result (sc u shortcode s1).1) ->
     (download_handler w sa sb sc (Ok (VDict d)) s).1 = Ok exhausted_response)
  /\
  (forall oa ob oc,
     no_result oa -> no_result ob -> no_result oc ->
     stub_calls (events (download_handler w (stub "a" oa) (stub "b" ob) (stub "c" oc)
                           (Ok (VDict d)) s).2)
     = stub_calls (events s) ++ ["a"; "b"; "c"])
  /\
  status exhausted_response = 400 /\
  content exhausted_response
  = VDict [("error", VStr exhausted_error); ("suggestion", VStr exhausted_suggestion)] /\
  py_in "method" (content exhausted_response) = Ok false /\
  py_in "success" (content exhausted_response) = Ok false /\
  str_contains nl exhausted_suggestion = true.
Proof.
  intros Hd Hx. split_and!; [| |done..].
  - intros sa sb sc Ha Hb Hc. rewrite (handler_valid _ _ _ _ _ _ _ _ Hd Hx).
    unfold run_pipeline, methods. simpl.
    match goal with |- context [sa u shortcode ?s1] =>
      specialize (Ha s1); destruct (sa u shortcode s1) as [oa sa1]; cbn [fst] in Ha end.
    destruct Ha as [->|[ea ->]]; simpl;
    (match goal with |- context [sb u shortcode ?s1] =>
      specialize (Hb s1); destruct (sb u shortcode s1) as [ob sb1]; cbn [fst] in Hb end);
    (destruct Hb as [->|[eb ->]]; simpl);
    (match goal with |- context [sc u shortcode ?s1] =>
      specialize (Hc s1); destruct (sc u shortcode s1) as [oc sc1]; cbn [fst] in Hc end);
    by destruct Hc as [->|[ec ->]].
  - intros oa ob oc Ha Hb Hc.
    destruct (handler_stubbed w oa ob oc d u shortcode s Hd Hx) as (logs & -> & Hlogs).
    cbn [snd events]. rewrite stub_calls_app, Hlogs.
    by destruct Ha as [->|[ea ->]], Hb as [->|[eb ->]], Hc as [->|[ec ->]].
Qed.

(** C7.  A request with no URL (the field absent, or falsy), with a URL in
    which "instagram.com" does not occur, or with a URL from which no
    identifier is extracted, is answered with status 400 and its own message; whatever
    the strategies are, the answer is the same and the state is left as it
    was (but for the line logged before the identifier is looked for): no
    strategy was entered. *)
Theorem validation_fails_fast sa sb sc d s :
  (truthy (default VNone (dict_lookup "url" d)) = false ->
   download_handler w sa sb sc (Ok (VDict d)) s
   = (Ok (bad_request "No URL provided"), s))
  /\
  (forall url,
     dict_lookup "url" d = Some url -> truthy url = true ->
     py_in "instagram.com" url = Ok false ->
     download_handler w sa sb sc (Ok (VDict d)) s
     = (Ok (bad_request "Invalid Instagram URL"), s))
  /\
  (forall u,
     dict_lookup "url" d = Some (VStr u) ->
     str_contains "instagram.com" u = true ->
     extract_instagram_shortcode u = None ->
     download_handler w sa sb sc (Ok (VDict d)) s
     = (Ok (bad_request "Could not extract video ID from URL"),
        State (fs s)
          (events s ++ [Log INFO ("Processing download request for: " +:+ u)])))
  /\
  (forall message, status (bad_request message) = 400).
Proof.
  split_and!; [| | |done].
  - intros Hurl. unfold download_handler. simpl. by rewrite Hurl.
  - intros url Hd Hu Hin.
    unfold download_handler. simpl. rewrite Hd. simpl. rewrite Hu. simpl.
    by rewrite Hin.
  - intros u Hd Hin Hx.
    assert (String.eqb u "" = false) as Hu.
    { apply String.eqb_neq. by intros ->. }
    unfold download_handler. simpl. rewrite Hd. simpl. rewrite Hu. simpl.
    unfold py_in. rewrite Hin. simpl. by rewrite Hx.
Qed.

(** C9.  The domain check is a substring test and the patterns are not
    anchored: the URL https://notinstagram.com/p/ABC123, on another host,
    passes validation, yields the identifier ABC123, and the pipeline runs
    on it (strategy (a) is entered). *)
Theorem substring_domain_check_admits_other_hosts :
  let u := other_host_url in
  strip_prefix "https://notinstagram.com/" u = Some "p/ABC123" /\
  str_contains "instagram.com" u = true /\
  extract_instagram_shortcode u = Some "ABC123" /\
  (forall sa sb sc s,
     download_handler w sa sb sc (Ok (VDict [("url", VStr u)])) s
     = try_except
         (logger INFO ("Processing download request for: " +:+ u);;
          logger INFO "Extracted shortcode: ABC123";;
          run_pipeline w sa sb sc u "ABC123")
         (internal_error w) s) /\
  (forall oa ob oc s,
     exists more,
       stub_calls (events (download_handler w (stub "a" oa) (stub "b" ob) (stub "c" oc)
                             (Ok (VDict [("url", VStr u)])) s).2)
       = stub_calls (events s) ++ "a" :: more).
Proof.
  intros u.
  assert (extract_instagram_shortcode u = Some "ABC123") as Hx by (vm_compute; reflexivity).
  split_and!; [done|by vm_compute|done| |].
  - intros sa sb sc s. by apply handler_valid.
  - intros oa ob oc s.
    destruct (handler_stubbed w oa ob oc [("url", VStr u)] u "ABC123" s eq_refl Hx)
      as (logs & -> & Hlogs).
    cbn [snd events]. rewrite stub_calls_app, Hlogs. cbn [called_until]. eauto.
Qed.

End Orchestrator.

Lemma strategies_in_order_witness :
  stub_calls (events (download_handler offline
                        (stub "a" (Ok VNone))
                        (stub "b" (Ok (VDict [("success", VBool true)])))
                        (stub "c" (Ok VNone))
                        (Ok (VDict reel_request)) fresh).2)
  = stub_calls (events fresh) ++ ["a"; "b"].
Proof.
  exact (proj1 (strategies_in_order_until_first_success offline reel_request
                  "https://instagram.com/reel/ABC123xyz/" "ABC123xyz" fresh
                  eq_refl eq_refl)
           (Ok VNone) (Ok (VDict [("success", VBool true)])) (Ok VNone)).
Defined.

Lemma strategy_errors_never_escape_witness :
  (download_handler offline
     (stub "a" (Raise (Exn TypeError "boom")))
     (stub "b" (Ok (VDict [("success", VBool false)])))
     (stub "c" (Raise (Exn KeyError "'x'")))
     (Ok (VDict reel_request)) fresh).1
  = (download_handler offline
       (stub "a" (Ok VNone))
       (stub "b" (Ok (VDict [("success", VBool false)])))
       (stub "c" (Ok VNone))
       (Ok (VDict reel_request)) fresh).1
  /\
  exists logs,
    (download_handler offline
       (stub "a" (Ok VNone))
       (stub "b" (Raise (Exn TypeError "boom")))
       (stub "c" (Ok VNone))
       (Ok (VDict reel_request)) fresh).2
    = State (fs fresh) (events fresh ++ logs) /\
    stub_calls logs = ["a"; "b"; "c"].
Proof.
  split.
  - exact (proj1 (proj1 (proj2 (proj2 (proj2 (strategy_errors_never_escape offline))))
                    (Raise (Exn TypeError "boom"))
                    (Ok (Some [("success", VBool false)]))
                    (Raise (Exn KeyError "'x'"))
                    reel_request "https://instagram.com/reel/ABC123xyz/" "ABC123xyz" fresh
                    eq_refl eq_refl)).
  - exact (proj2 (proj2 (proj2 (proj2 (proj2 (proj2 (proj2
                    (strategy_errors_never_escape offline)))))))
             (Ok VNone) (Exn TypeError "boom") (Ok VNone)
             reel_request "https://instagram.com/reel/ABC123xyz/" "ABC123xyz" fresh
             eq_refl eq_refl eq_refl).
Defined.

Lemma exhaustion_witness :
  (download_handler offline (stub "a" (Ok VNone)) (stub "b" (Ok VNone)) (stub "c" (Ok VNone))
     (Ok (VDict reel_request)) fresh).1
  = Ok exhausted_response.
Proof.
  apply (proj1 (exhaustion_gives_generic_failure offline reel_request
                  "https://instagram.com/reel/ABC123xyz/" "ABC123xyz" fresh
                  eq_refl eq_refl));
    intros s1; left; reflexivity.
Defined.

Lemma validation_witness :
  download_handler offline (stub "a" (Ok VNone)) (stub "b" (Ok VNone)) (stub "c" (Ok VNone))
    (Ok (VDict [("url", VStr "https://example.com/video/1")])) fresh
  = (Ok (bad_request "Invalid Instagram URL"), fresh).
Proof.
  apply (proj1 (proj2 (validation_fails_fast offline (stub "a" (Ok VNone))
                         (stub "b" (Ok VNone)) (stub "c" (Ok VNone))
                         [("url", VStr "https://example.com/video/1")] fresh))
           (VStr "https://example.com/video/1")).
  - reflexivity.
  - reflexivity.
  - reflexivity.
Defined.

(* ===================================================================== *)
(** ** Further properties of the code                                     *)
(* ===================================================================== *)

(** *** Streamed writes *)

Section Streams.

Variable w : world.

Lemma foldl_write_chunk path chunks : forall files bytes,
  files !! path = Some bytes ->
  foldl (write_chunk path) files chunks = <[path := bytes ++ concat chunks]> files.
Proof.
  induction chunks as [|c chunks IH]; intros files bytes H; simpl.
  - by rewrite app_nil_r, insert_id.
  - unfold write_chunk at 2. rewrite H. simpl.
    rewrite (IH _ (bytes ++ c)) by apply lookup_insert_eq.
    by rewrite insert_insert_eq, app_assoc.
Qed.

Lemma concat_length_sum {A} (l : list (list A)) :
  length (concat l) = sum_list (length <$> l).
Proof. induction l as [|x l IH]; simpl; [done|]. by rewrite length_app, IH. Qed.

Lemma save_stream_run path r s :
  open_error w s path = None ->
  save_stream w path r s
  = (match iter_error r with Some e => Raise e | None => Ok tt end,
     State (<[path := concat (iter_content r)]> (fs s)) (events s)).
Proof.
  intros Hopen. unfold save_stream. rewrite Hopen.
  rewrite (foldl_write_chunk path _ _ []) by apply lookup_insert_eq.
  rewrite insert_insert_eq. simpl. by destruct (iter_error r).
Qed.

Lemma save_stream_frame path r s :
  events (save_stream w path r s).2 = events s /\
  forall p, p <> path -> fs (save_stream w path r s).2 !! p = fs s !! p.
Proof.
  destruct (open_error w s path) as [e|] eqn:Hopen.
  - unfold save_stream. by rewrite Hopen.
  - rewrite save_stream_run by done. simpl. split; [done|].
    intros p Hp. by rewrite lookup_insert_ne.
Qed.

(** X1.  The streamed write [with open(path, 'wb') ...: f.write(chunk)]:
    when the file can be opened, whatever was at the path is replaced by
    the chunks received, in order, nothing lost and nothing repeated, so
    that the size of the file is the sum of the sizes of the chunks; every
    other file and the history are left as they were; and if the stream
    breaks, the error is raised with the chunks received so far on disk.
    When the file cannot be opened nothing changes. *)
Theorem streamed_file_holds_the_chunks path r s :
  (open_error w s path = None ->
   let run := save_stream w path r s in
   fs run.2 !! path = Some (concat (iter_content r)) /\
   length <$> fs run.2 !! path = Some (sum_list (length <$> iter_content r)) /\
   (forall p, p <> path -> fs run.2 !! p = fs s !! p) /\
   events run.2 = events s /\
   run.1 = match iter_error r with Some e => Raise e | None => Ok tt end)
  /\
  (forall e, open_error w s path = Some e -> save_stream w path r s = (Raise e, s)).
Proof.
  split.
  - intros Hopen run. subst run. rewrite save_stream_run by done. simpl.
    rewrite lookup_insert_eq. split_and!; [done| |  |done|done].
    + simpl. by rewrite concat_length_sum.
    + intros p Hp. by rewrite lookup_insert_ne.
  - intros e Hopen. unfold save_stream. by rewrite Hopen.
Qed.

End Streams.

(** *** Strategy (b), run by run *)

Section DirectApiRuns.

Variable w : world.

#[local] Opaque save_stream.

(** X2.  One endpoint of strategy (b) that works: the endpoint answers 200
    with a payload in which a media object with a video URL is found, the
    video is served with status 200 and saved.  The loop ends there, with
    the success result built from the author and the caption found; the
    file holds the chunks received; the requests made are the one to the
    endpoint and the one for the video, and the endpoints that follow are
    not requested. *)
Theorem direct_api_success_ends_the_loop shortcode user_agent api_url rest s
    resp data media video_url caption author video :
  let headers := api_headers user_agent shortcode in
  let s1 := State (fs s) (events s ++ [HttpGet (VStr api_url) headers false 30]) in
  let s2 := State (fs s) (events s1 ++ [HttpGet video_url headers true 60]) in
  http w s (VStr api_url) headers false 30 = Ok resp -> status_code resp = 200 ->
  json resp = Ok data -> find_media data = Ok (Some media) ->
  find_video_url media = Ok video_url -> truthy video_url = true ->
  find_caption media = Ok caption -> find_author media = Ok author ->
  http w s1 video_url headers true 60 = Ok video -> status_code video = 200 ->
  open_error w s2 (video_path w shortcode) = None -> iter_error video = None ->
  for_api_urls w shortcode user_agent (api_url :: rest) s
  = (Ok (direct_result w shortcode author caption),
     State (<[video_path w shortcode := concat (iter_content video)]> (fs s))
       (events s ++
        [HttpGet (VStr api_url) headers false 30;
         HttpGet video_url headers true 60;
         Log INFO ("Successfully downloaded via direct API: " +:+ shortcode +:+ ".mp4")])).
Proof.
  intros headers s1 s2 Hget Hstatus Hjson Hmedia Hurl Htruthy Hcaption Hauthor
    Hvideo Hvstatus Hopen Hiter.
  subst headers s1 s2. cbn [for_api_urls]. unfold try_api_url, requests_get. simpl.
  rewrite Hget, Hstatus. simpl. rewrite Hjson. simpl. rewrite Hmedia. simpl.
  rewrite Hurl. simpl. rewrite Htruthy, Hcaption. simpl. rewrite Hauthor. simpl.
  simpl in Hvideo. rewrite Hvideo, Hvstatus. simpl.
  fold (video_path w shortcode). simpl in Hopen.
  rewrite save_stream_run by exact Hopen. rewrite Hiter. simpl.
  by rewrite <- !app_assoc.
Qed.

(** X3.  Strategy (b) goes on with the next endpoint when an endpoint
    answers with a status other than 200, and when the video it points to
    is served with a status other than 200: nothing but the requests has
    happened, and no file was touched. *)
Theorem direct_api_skips_endpoint_on_bad_status shortcode user_agent api_url rest s resp :
  let headers := api_headers user_agent shortcode in
  let s1 := State (fs s) (events s ++ [HttpGet (VStr api_url) headers false 30]) in
  http w s (VStr api_url) headers false 30 = Ok resp ->
  (status_code resp <> 200 ->
   for_api_urls w shortcode user_agent (api_url :: rest) s
   = for_api_urls w shortcode user_agent rest s1)
  /\
  (forall data media video_url caption author video,
     status_code resp = 200 ->
     json resp = Ok data -> find_media data = Ok (Some media) ->
     find_video_url media = Ok video_url -> truthy video_url = true ->
     find_caption media = Ok caption -> find_author media = Ok author ->
     http w s1 video_url headers true 60 = Ok video -> status_code video <> 200 ->
     for_api_urls w shortcode user_agent (api_url :: rest) s
     = for_api_urls w shortcode user_agent rest
         (State (fs s) (events s1 ++ [HttpGet video_url headers true 60]))).
Proof.
  intros headers s1 Hget. subst headers s1. split.
  - intros Hstatus%Z.eqb_neq.
    cbn [for_api_urls]. unfold try_api_url, requests_get. simpl.
    by rewrite Hget, Hstatus.
  - intros data media video_url caption author video Hstatus Hjson Hmedia Hurl Htruthy
      Hcaption Hauthor Hvideo Hvstatus%Z.eqb_neq.
    cbn [for_api_urls]. unfold try_api_url, requests_get. simpl.
    rewrite Hget, Hstatus. simpl. rewrite Hjson. simpl. rewrite Hmedia. simpl.
    rewrite Hurl. simpl. rewrite Htruthy, Hcaption. simpl. rewrite Hauthor. simpl.
    simpl in Hvideo. by rewrite Hvideo, Hvstatus.
Qed.

End DirectApiRuns.

Section DirectApiTrace.

Variable w : world.

#[local] Opaque save_stream.

(** X4.  In strategy (b), an error that is not a JSON parse error ends the
    whole strategy, not only the endpoint: when the first request raises,
    or when the first endpoint answers 200 with a JSON value that is not a
    container (null, a boolean, a number), the strategy logs the error and
    returns [None]; the second endpoint is never requested. *)
Theorem direct_api_error_ends_the_strategy url shortcode s :
  let s1 := State (fs s)
              (events s ++ [Log INFO ("Attempting direct API method for " +:+ shortcode)]) in
  let headers := api_headers (drawn_user_agent w s1) shortcode in
  let api_url := VStr ("https://www.instagram.com/p/" +:+ shortcode +:+ "/?__a=1&__d=dis") in
  (forall e,
     http w s1 api_url headers false 30 = Raise e ->
     download_with_requests w url shortcode s
     = (Ok VNone,
        State (fs s)
          (events s1 ++ [HttpGet api_url headers false 30;
                         Log ERROR ("Direct API method failed: " +:+ exn_str e)])))
  /\
  (forall resp v,
     http w s1 api_url headers false 30 = Ok resp -> status_code resp = 200 ->
     json resp = Ok v -> is_scalar v = true ->
     download_with_requests w url shortcode s
     = (Ok VNone,
        State (fs s)
          (events s1 ++ [HttpGet api_url headers false 30;
                         Log ERROR ("Direct API method failed: argument of type '" +:+
                                    type_name v +:+ "' is not iterable")]))).
Proof.
  intros s1 headers api_url. subst s1 headers api_url. unfold drawn_user_agent. split.
  - intros e Hget.
    unfold download_with_requests, api_urls, get_random_user_agent.
    cbn [for_api_urls]. unfold try_api_url, requests_get. simpl in *.
    rewrite Hget. simpl. by rewrite <- !app_assoc.
  - intros resp v Hget Hstatus Hjson Hv.
    unfold download_with_requests, api_urls, get_random_user_agent.
    cbn [for_api_urls]. unfold try_api_url, requests_get. simpl in *.
    rewrite Hget, Hstatus. simpl. rewrite Hjson.
    destruct v; try discriminate Hv; simpl; by rewrite <- !app_assoc.
Qed.

Lemma drawn_user_agent_in_pool s : drawn_user_agent w s ∈ USER_AGENTS.
Proof.
  unfold drawn_user_agent.
  destruct (USER_AGENTS !! _) as [ua|] eqn:H; simpl.
  - by eapply list_elem_of_lookup_2.
  - apply lookup_ge_None in H.
    pose proof (Nat.mod_upper_bound (choose w s) (length USER_AGENTS)) as Hlt.
    simpl in *. lia.
Qed.

Lemma try_api_url_trace shortcode user_agent api_url s :
  exists more,
    events (try_api_url w shortcode user_agent api_url s).2 = events s ++ more /\
    Forall (request_ok (api_headers user_agent shortcode)) more /\
    (1 <= length (requests_made more) <= 2)%nat /\
    forall p, p <> video_path w shortcode ->
              fs (try_api_url w shortcode user_agent api_url s).2 !! p = fs s !! p.
Proof.
  destruct (try_api_url w shortcode user_agent api_url s) as [o s'] eqn:H.
  unfold try_api_url, requests_get in H. simpl in H.
  fold (video_path w shortcode) in H. cbn [snd].
  repeat (case_match; simplify_eq; simpl in *); simplify_eq; simpl;
    try match goal with
        | H : save_stream _ ?p ?r ?s0 = _ |- _ =>
            let He := fresh "He" in let Hf := fresh "Hf" in
            destruct (save_stream_frame w p r s0) as [He Hf];
            rewrite H in He, Hf; simpl in He, Hf; rewrite ?He
        end;
    rewrite <- ?app_assoc;
    (eexists; split_and!;
      [reflexivity
      |repeat constructor
      |simpl; lia
      |simpl; lia
      |by auto]).
Qed.

Lemma for_api_urls_trace shortcode user_agent urls : forall s,
  exists more,
    events (for_api_urls w shortcode user_agent urls s).2 = events s ++ more /\
    Forall (request_ok (api_headers user_agent shortcode)) more /\
    (length (requests_made more) <= 2 * length urls)%nat /\
    forall p, p <> video_path w shortcode ->
              fs (for_api_urls w shortcode user_agent urls s).2 !! p = fs s !! p.
Proof.
  induction urls as [|api_url urls IH]; intros s.
  - exists []. simpl. rewrite app_nil_r. by split_and!.
  - cbn [for_api_urls bind].
    destruct (try_api_url_trace shortcode user_agent api_url s)
      as (more1 & He1 & HP1 & [_ Hn1] & Hf1).
    destruct (try_api_url w shortcode user_agent api_url s) as [[[r|]|e] s1];
      simpl in He1, Hf1.
    + exists more1. simpl. split_and!; [done|done|lia|done].
    + destruct (IH s1) as (more2 & He2 & HP2 & Hn2 & Hf2).
      exists (more1 ++ more2). rewrite He2, He1, app_assoc.
      split_and!; [done|by apply Forall_app| |].
      * rewrite requests_made_app, length_app. simpl. lia.
      * intros p Hp. by rewrite Hf2, Hf1.
    + exists more1. simpl. split_and!; [done|done|lia|done].
Qed.

(** X5.  Whatever the network answers, one run of strategy (b) only adds
    to the history; it sends at least one and at most four requests, all
    with the same headers, built from one user agent of the pool and the
    identifier, each with a time limit (30 s, 60 s for the video); it never
    calls the engine; and the only file it may touch is the video file of
    the identifier. *)
Theorem direct_api_request_discipline url shortcode s :
  let run := download_with_requests w url shortcode s in
  exists user_agent more,
    user_agent ∈ USER_AGENTS /\
    events run.2 = events s ++ more /\
    Forall (request_ok (api_headers user_agent shortcode)) more /\
    (1 <= length (requests_made more) <= 4)%nat /\
    forall p, p <> video_path w shortcode -> fs run.2 !! p = fs s !! p.
Proof.
  intros run. subst run.
  unfold download_with_requests, get_random_user_agent.
  remember (api_urls shortcode) as urls eqn:Hurls. simpl.
  set (s1 := State _ _). fold (drawn_user_agent w s1).
  exists (drawn_user_agent w s1).
  destruct (for_api_urls_trace shortcode (drawn_user_agent w s1) urls s1)
    as (more & He & HP & Hn & Hf).
  assert (1 <= length (requests_made more))%nat as Hfirst.
  { subst urls. unfold api_urls in He.
    edestruct (for_api_urls_first w shortcode (drawn_user_agent w s1)) as [more' He'].
    rewrite He' in He. apply app_inv_head in He as <-. simpl. lia. }
  subst urls. simpl in Hn.
  destruct (for_api_urls _ _ _ _ _) as [[r|e] s2]; simpl in *.
  - exists (Log INFO ("Attempting direct API method for " +:+ shortcode) :: more).
    rewrite He, <- app_assoc.
    split_and!; [apply drawn_user_agent_in_pool|done|by constructor|simpl; lia..|done].
  - exists (Log INFO ("Attempting direct API method for " +:+ shortcode) :: more
            ++ [Log ERROR ("Direct API method failed: " +:+ exn_str e)]).
    rewrite He, <- !app_assoc.
    split_and!; [apply drawn_user_agent_in_pool|done| | | |done].
    + constructor; [done|]. apply Forall_app. split; [done|by repeat constructor].
    + simpl. rewrite requests_made_app, length_app. simpl. lia.
    + simpl. rewrite requests_made_app, length_app. simpl. lia.
Qed.

End DirectApiTrace.

(** *** Paths *)

Section Paths.

Lemma last_is_app f a b : b <> "" -> last_is f (a +:+ b) = last_is f b.
Proof.
  intros Hb. induction a as [|x a IH]; [done|].
  cbn [String.append last_is]. rewrite IH.
  destruct (a +:+ b) eqn:Hab; [|done].
  destruct a; [by destruct b|done].
Qed.

Lemma download_dir_shape (w : world) :
  download_dir w <> "" /\ last_is (Ascii.eqb "/") (download_dir w) = false.
Proof.
  unfold download_dir, os_path_join. simpl.
  destruct (_ || _).
  - split; [by destruct (getcwd w)|]. by rewrite last_is_app.
  - split; [by destruct (getcwd w)|]. by rewrite (last_is_app _ _ "/downloads").
Qed.

(** The download directory is a directory, also under the name the code
    builds for a file called ".". *)
Lemma download_dir_dot (w : world) :
  os_path_join (download_dir w) "." = download_dir w +:+ "/." /\
  os_path_isdir w (os_path_join (download_dir w) ".") = true.
Proof.
  destruct (download_dir_shape w) as [Hdir Hlast].
  assert (os_path_join (download_dir w) "." = download_dir w +:+ "/.") as ->.
  { unfold os_path_join. rewrite Hlast. apply String.eqb_neq in Hdir. by rewrite Hdir. }
  split; [done|]. unfold os_path_isdir. by rewrite strip_prefix_app.
Qed.

Lemma path_exists_spec (w : world) files path :
  path_exists w files path = true <->
  is_Some (files !! path) \/ os_path_isdir w path = true.
Proof.
  unfold path_exists. rewrite orb_true_iff, bool_decide_eq_true. tauto.
Qed.

End Paths.

(** *** Strategy (a), case by case *)

Section Engine.

Variable w : world.

(** X6.  Strategy (a) calls the engine once, on the URL as it was given,
    with the options built from the identifier and the user agent drawn,
    and sends no request itself; the files are afterwards what the engine
    left.  When the engine returns a dictionary, the result is the success
    result built from it if [os.path.exists] accepts
    "<download directory>/<id>.<ext>", that is if a regular file or a
    directory is there, and [None], with nothing logged, if not; so an
    engine that reports an empty id and an empty extension gives success
    with no file, the path being the download directory itself.  When the
    engine returns something that is not a dictionary, or raises, the
    result is [None] and one line is logged: a warning for a
    [DownloadError], an error otherwise. *)
Theorem engine_outcomes url shortcode s :
  let s1 := State (fs s)
              (events s ++ [Log INFO ("Attempting enhanced yt-dlp method for " +:+ shortcode)]) in
  let opts := ydl_opts w shortcode (drawn_user_agent w s1) in
  let called files more := State files (events s1 ++ ExtractInfo opts url :: more) in
  (forall info files,
     ytdl w s1 opts url = (Ok (VDict info), files) ->
     let path := os_path_join (download_dir w) (ytdlp_filename w shortcode info) in
     download_with_ytdlp_enhanced w url shortcode s
     = (Ok (if path_exists w files path then ytdlp_result w shortcode info else VNone),
        called files [])
     /\ (path_exists w files path = true <->
         is_Some (files !! path) \/ os_path_isdir w path = true)
     /\ (ytdlp_filename w shortcode info = "." -> path_exists w files path = true))
  /\
  (forall v files,
     ytdl w s1 opts url = (Ok v, files) -> is_dict v = false ->
     download_with_ytdlp_enhanced w url shortcode s
     = (Ok VNone,
        called files [Log ERROR ("Enhanced yt-dlp method error: '" +:+ type_name v +:+
                                 "' object has no attribute 'get'")]))
  /\
  (forall e files,
     ytdl w s1 opts url = (Raise e, files) ->
     download_with_ytdlp_enhanced w url shortcode s
     = (Ok VNone,
        called files [if is_class DownloadError e
                      then Log WARNING ("Enhanced yt-dlp method failed: " +:+ exn_str e)
                      else Log ERROR ("Enhanced yt-dlp method error: " +:+ exn_str e)])).
Proof.
  intros s1 opts called. subst s1 opts called. unfold drawn_user_agent. split_and!.
  - intros info files Hengine. split_and!.
    + unfold download_with_ytdlp_enhanced, get_random_user_agent, extract_info,
        os_path_exists. simpl in *. rewrite Hengine. simpl.
      fold (ytdlp_filename w shortcode info).
      destruct (path_exists w files _); simpl; by rewrite <- !app_assoc.
    + apply path_exists_spec.
    + intros ->. apply path_exists_spec. right. apply download_dir_dot.
  - intros v files Hengine Hv.
    unfold download_with_ytdlp_enhanced, get_random_user_agent, extract_info.
    simpl in *. rewrite Hengine.
    destruct v; try discriminate Hv; simpl; by rewrite <- !app_assoc.
  - intros e files Hengine.
    unfold download_with_ytdlp_enhanced, get_random_user_agent, extract_info.
    simpl in *. rewrite Hengine.
    destruct e as [[] msg]; simpl; by rewrite <- !app_assoc.
Qed.

End Engine.

(** *** Strategy (c), block by block *)

Section Scraping.

Variable w : world.

#[local] Opaque save_stream.

(** X7.  In strategy (c), a block that does not parse as JSON, or parses to
    an object with no "video" field, with a "video" that is not an object,
    or with a "video" that has no (or a falsy) "contentUrl", is skipped:
    the loop goes on with the next block and nothing has happened, not even
    a line in the log. *)
Theorem scraping_skips_unusable_block shortcode headers block rest s :
  (exists e, json_loads w block = Raise e /\ exn_class_of e = JSONDecodeError) \/
  (exists d, json_loads w block = Ok (VDict d) /\
     (dict_lookup "video" d = None \/
      (exists v, dict_lookup "video" d = Some v /\ is_dict v = false) \/
      (exists vd, dict_lookup "video" d = Some (VDict vd) /\
                  truthy (default VNone (dict_lookup "contentUrl" vd)) = false))) ->
  for_matches w shortcode headers (block :: rest) s
  = for_matches w shortcode headers rest s.
Proof.
  intros Hcase. cbn [for_matches]. unfold try_ld_json. simpl.
  destruct Hcase as [(e & -> & He)|(d & -> & [Hv|[(v & Hv & Hd)|(vd & Hv & Hu)]])]; simpl.
  - unfold is_class. by rewrite He.
  - by rewrite Hv.
  - rewrite Hv. simpl. by rewrite Hd.
  - rewrite Hv. simpl. by rewrite Hu.
Qed.

Lemma str_contains_tail l a s :
  str_contains l (String a s) = false ->
  strip_prefix l (String a s) = None /\ str_contains l s = false.
Proof.
  unfold str_contains. rewrite (str_find_eq l (String a s)).
  destruct (strip_prefix l (String a s)); [done|].
  by destruct (str_find l s).
Qed.

Lemma re_findall_from_no_occurrence l r s : forall skip,
  str_contains l s = false -> re_findall_from skip (Cat (Str l) r) s = [].
Proof.
  induction s as [|a s IH]; intros skip Hs.
  - destruct skip; [|done]. simpl.
    rewrite re_match_Cat_Str_None; [done|].
    unfold str_contains in Hs. rewrite str_find_eq in Hs.
    by destruct (strip_prefix l "").
  - apply str_contains_tail in Hs as [Hp Hs].
    destruct skip as [|k]; simpl.
    + rewrite re_match_Cat_Str_None by done. by apply IH.
    + by apply IH.
Qed.

(** X8.  Strategy (c) asks for the post page once.  When the request
    raises, the error is logged and the result is [None]; when the page is
    answered with a status other than 200, or holds no
    <script type="application/ld+json"> tag at all, the result is [None]
    and nothing else is requested or written. *)
Theorem scraping_gives_up_without_blocks url shortcode s :
  let s1 := State (fs s)
              (events s ++ [Log INFO ("Attempting HTML scraping for " +:+ shortcode)]) in
  let headers := page_headers (drawn_user_agent w s1) in
  let page := HttpGet (VStr ("https://www.instagram.com/p/" +:+ shortcode +:+ "/"))
                headers false 30 in
  (forall e,
     http w s1 (VStr ("https://www.instagram.com/p/" +:+ shortcode +:+ "/")) headers false 30
     = Raise e ->
     download_with_instaloader_like w url shortcode s
     = (Ok VNone,
        State (fs s)
          (events s1 ++ [page; Log ERROR ("HTML scraping method failed: " +:+ exn_str e)])))
  /\
  (forall resp,
     http w s1 (VStr ("https://www.instagram.com/p/" +:+ shortcode +:+ "/")) headers false 30
     = Ok resp ->
     status_code resp <> 200 \/
     str_contains ("<script type=" +:+ dquote +:+ "application/ld+json" +:+ dquote +:+ ">")
       (text resp) = false ->
     download_with_instaloader_like w url shortcode s
     = (Ok VNone, State (fs s) (events s1 ++ [page]))).
Proof.
  intros s1 headers page. subst s1 headers page. unfold drawn_user_agent. split.
  - intros e Hget.
    unfold download_with_instaloader_like, get_random_user_agent, requests_get.
    generalize ld_json_pattern. intros pattern. simpl in *. rewrite Hget. simpl.
    by rewrite <- !app_assoc.
  - intros resp Hget Hcase.
    unfold download_with_instaloader_like, get_random_user_agent, requests_get.
    destruct Hcase as [Hstatus%Z.eqb_neq|Hpage].
    + generalize ld_json_pattern. intros pattern. simpl in *.
      by rewrite Hget, Hstatus.
    + assert (re_findall ld_json_pattern (text resp) = []) as Hnone.
      { by apply re_findall_from_no_occurrence. }
      revert Hnone. generalize ld_json_pattern. intros pattern Hnone. simpl in *.
      rewrite Hget. simpl. rewrite Hnone.
      by destruct (status_code resp =? 200).
Qed.

(** X9.  In a success result of strategy (c) the title is the caption of
    the page's data: "title" and "caption" are the same value, unless the
    data has no "caption", and then they are the two defaults. *)
Theorem scraping_title_is_the_caption url shortcode s r s' :
  download_with_instaloader_like w url shortcode s = (Ok r, s') ->
  is_success r = Ok true ->
  exists d title caption,
    r = VDict d /\
    dict_lookup "title" d = Some title /\ dict_lookup "caption" d = Some caption /\
    (title = caption \/
     (title = VStr "Instagram Video" /\ caption = VStr "No caption available")).
Proof.
  intros [->|(b & data & t & ao & a & c & _ & Ht & _ & _ & Hc & -> & _)]%instaloader_outcome
    Hr; [done|].
  eexists _, t, c. split_and!; [done..|].
  destruct data; try discriminate Ht. simpl in Ht, Hc.
  destruct (dict_lookup "caption" d) as [v|]; simpl in *; simplify_eq; auto.
Qed.

(** X25.  One block of strategy (c) that works: the block parses to an
    object whose "video" is an object with a truthy "contentUrl", and the
    video is served with status 200 and saved.  When the "author" of the
    data is an object (or absent), the loop ends there with the success
    result built from the data; one request was made, the file holds the
    chunks received, and the blocks that follow are not looked at.  When
    the "author" is anything else, the error raised on reading its name
    leaves the loop, after the file was written. *)
Theorem scraping_success_ends_the_loop shortcode headers block rest s
    d vd video_url video :
  let s1 := State (fs s) (events s ++ [HttpGet video_url headers true 60]) in
  let saved :=
    State (<[video_path w shortcode := concat (iter_content video)]> (fs s))
      (events s ++
       [HttpGet video_url headers true 60;
        Log INFO ("Successfully downloaded via HTML scraping: " +:+ shortcode +:+ ".mp4")]) in
  json_loads w block = Ok (VDict d) ->
  dict_lookup "video" d = Some (VDict vd) ->
  dict_lookup "contentUrl" vd = Some video_url -> truthy video_url = true ->
  http w s video_url headers true 60 = Ok video -> status_code video = 200 ->
  open_error w s1 (video_path w shortcode) = None -> iter_error video = None ->
  (forall a,
     default (VDict []) (dict_lookup "author" d) = VDict a ->
     for_matches w shortcode headers (block :: rest) s
     = (Ok (scraping_result w shortcode
              (default (VStr "Instagram Video") (dict_lookup "caption" d))
              (default (VStr "Unknown") (dict_lookup "name" a))
              (default (VStr "No caption available") (dict_lookup "caption" d))),
        saved))
  /\
  (forall v,
     dict_lookup "author" d = Some v -> is_dict v = false ->
     for_matches w shortcode headers (block :: rest) s
     = (Raise (Exn AttributeError
                 ("'" +:+ type_name v +:+ "' object has no attribute 'get'")),
        saved)).
Proof.
  intros s1 saved Hjson Hvideo Hurl Htruthy Hget Hstatus Hopen Hiter. subst s1 saved.
  cbn [for_matches]. unfold try_ld_json, requests_get. simpl.
  rewrite Hjson. simpl. rewrite Hvideo. simpl. rewrite Hurl. simpl. rewrite Htruthy.
  simpl. rewrite Hget, Hstatus. simpl.
  fold (video_path w shortcode). simpl in Hopen.
  rewrite save_stream_run by exact Hopen. rewrite Hiter. simpl. split.
  - intros a ->. simpl. by rewrite <- !app_assoc.
  - intros v -> Hv. simpl. destruct v; try discriminate Hv; simpl; by rewrite <- !app_assoc.
Qed.

Lemma try_ld_json_trace shortcode headers block s :
  exists more,
    events (try_ld_json w shortcode headers block s).2 = events s ++ more /\
    Forall (request_ok headers) more /\
    (length (requests_made more) <= 1)%nat /\
    forall p, p <> video_path w shortcode ->
              fs (try_ld_json w shortcode headers block s).2 !! p = fs s !! p.
Proof.
  destruct (try_ld_json w shortcode headers block s) as [o s'] eqn:H.
  unfold try_ld_json, requests_get in H. simpl in H.
  fold (video_path w shortcode) in H. cbn [snd].
  repeat (case_match; simplify_eq; simpl in *); simplify_eq; simpl;
    try match goal with
        | H : save_stream _ ?p ?r ?s0 = _ |- _ =>
            let He := fresh "He" in let Hf := fresh "Hf" in
            destruct (save_stream_frame w p r s0) as [He Hf];
            rewrite H in He, Hf; simpl in He, Hf; rewrite ?He
        end;
    rewrite <- ?app_assoc;
    try (exists []; rewrite app_nil_r; split_and!; [done|done|simpl; lia|done]);
    (eexists; split_and!;
      [reflexivity
      |repeat constructor
      |simpl; lia
      |by auto]).
Qed.

Lemma for_matches_trace shortcode headers blocks : forall s,
  exists more,
    events (for_matches w shortcode headers blocks s).2 = events s ++ more /\
    Forall (request_ok headers) more /\
    (length (requests_made more) <= length blocks)%nat /\
    forall p, p <> video_path w shortcode ->
              fs (for_matches w shortcode headers blocks s).2 !! p = fs s !! p.
Proof.
  induction blocks as [|block blocks IH]; intros s.
  - exists []. simpl. rewrite app_nil_r. by split_and!.
  - cbn [for_matches bind].
    destruct (try_ld_json_trace shortcode headers block s)
      as (more1 & He1 & HP1 & Hn1 & Hf1).
    destruct (try_ld_json w shortcode headers block s) as [[[r|]|e] s1];
      simpl in He1, Hf1.
    + exists more1. simpl. split_and!; [done|done|lia|done].
    + destruct (IH s1) as (more2 & He2 & HP2 & Hn2 & Hf2).
      exists (more1 ++ more2). rewrite He2, He1, app_assoc.
      split_and!; [done|by apply Forall_app| |].
      * rewrite requests_made_app, length_app. simpl. lia.
      * intros p Hp. by rewrite Hf2, Hf1.
    + exists more1. simpl. split_and!; [done|done|lia|done].
Qed.

(** X10.  Whatever the network answers, one run of strategy (c) only adds
    to the history; all its requests carry the same headers, built from one
    user agent of the pool, and a time limit (30 s for the page, 60 s for
    a video); the page is requested first; it never calls the engine; and
    the only file it may touch is the video file of the identifier. *)
Theorem scraping_request_discipline url shortcode s :
  let run := download_with_instaloader_like w url shortcode s in
  exists user_agent more,
    user_agent ∈ USER_AGENTS /\
    events run.2
    = events s ++
      Log INFO ("Attempting HTML scraping for " +:+ shortcode)
      :: HttpGet (VStr ("https://www.instagram.com/p/" +:+ shortcode +:+ "/"))
           (page_headers user_agent) false 30
      :: more /\
    Forall (request_ok (page_headers user_agent)) more /\
    forall p, p <> video_path w shortcode -> fs run.2 !! p = fs s !! p.
Proof.
  intros run. subst run.
  unfold download_with_instaloader_like, get_random_user_agent, requests_get.
  generalize ld_json_pattern. intros pattern. simpl.
  set (s1 := State _ _). fold (drawn_user_agent w s1).
  exists (drawn_user_agent w s1).
  destruct (http w s1 _ _ _ _) as [resp|e]; simpl.
  - destruct (status_code resp =? 200); simpl.
    + match goal with |- context [for_matches w shortcode ?h ?l ?s2] =>
        destruct (for_matches_trace shortcode h l s2) as (more & He & HP & _ & Hf);
        destruct (for_matches w shortcode h l s2) as [[r|e] s3]
      end; simpl in *.
      * exists more. rewrite He, <- !app_assoc.
        split_and!; [apply drawn_user_agent_in_pool|done..].
      * exists (more ++ [Log ERROR ("HTML scraping method failed: " +:+ exn_str e)]).
        rewrite He, <- !app_assoc.
        split_and!; [apply drawn_user_agent_in_pool|done| |done].
        apply Forall_app. split; [done|by repeat constructor].
    + exists []. rewrite <- !app_assoc.
      split_and!; [apply drawn_user_agent_in_pool|done..].
  - eexists [_]. rewrite <- !app_assoc.
    split_and!; [apply drawn_user_agent_in_pool|done|by repeat constructor|done].
Qed.

End Scraping.

(** *** The handler: what it answers *)

Section Answers.

Variable w : world.

Lemma dict_lookup_is_Some k d : is_Some (dict_lookup k d) <-> k ∈ dict_keys d.
Proof.
  unfold dict_keys. induction d as [|[k' v] d IH]; simpl.
  - split; [by intros [? ?]|by intros ?%elem_of_nil].
  - rewrite elem_of_cons. destruct (String.eqb_spec k k') as [->|Hne].
    + split; [by left|intros _; by eexists].
    + rewrite IH. intuition congruence.
Qed.

(** A "url" that is not a string never reaches the strategies. *)
Lemma non_string_url_is_answered sa sb sc d url s :
  dict_lookup "url" d = Some url -> is_str url = false ->
  download_handler w sa sb sc (Ok (VDict d)) s
  = if truthy url then
      match py_in "instagram.com" url with
      | Ok false => (Ok (bad_request "Invalid Instagram URL"), s)
      | Ok true =>
          (Ok (internal_error_response "expected string or bytes-like object"),
           State (fs s)
             (events s ++
              [Log INFO ("Processing download request for: " +:+ py_str (repr w) url);
               Log ERROR "Unexpected error: expected string or bytes-like object"]))
      | Raise e =>
          (Ok (internal_error_response (exn_str e)),
           State (fs s) (events s ++ [Log ERROR ("Unexpected error: " +:+ exn_str e)]))
      end
    else (Ok (bad_request "No URL provided"), s).
Proof.
  intros Hd Hu. unfold download_handler, internal_error, internal_error_response. simpl.
  rewrite Hd. simpl.
  destruct (truthy url) eqn:Ht; simpl; [|by destruct s].
  destruct (py_in "instagram.com" url) as [[|]|e] eqn:Hin; simpl.
  - destruct url; try discriminate Hu; try discriminate Hin; simpl;
      by rewrite <- ?app_assoc.
  - by destruct s.
  - done.
Qed.

(** X11.  A request the handler cannot read is answered without any
    strategy being entered, and the files are left as they were.  A body
    that does not parse and a body that is not a JSON object are answered
    with the internal error, status 500.  A "url" that is not a string is
    answered 400, "No URL provided", when it is falsy (null, false, a zero,
    an empty list or object); when it is truthy, the answer depends on the
    test ["instagram.com" in url]: on a number or on [true] the test
    raises a TypeError, and the answer is 500 with the text of that error;
    on a list or an object that does not hold "instagram.com" the answer
    is 400, "Invalid Instagram URL"; on one that holds it, the request is
    logged, [re.search] refuses the value and the answer is 500 with the
    text of its error. *)
Theorem unreadable_request_is_answered_without_strategies sa sb sc s :
  (forall e,
     download_handler w sa sb sc (Raise e) s
     = (Ok (internal_error_response (exn_str e)),
        State (fs s) (events s ++ [Log ERROR ("Unexpected error: " +:+ exn_str e)])))
  /\
  (forall v,
     is_dict v = false ->
     let message := "'" +:+ type_name v +:+ "' object has no attribute 'get'" in
     download_handler w sa sb sc (Ok v) s
     = (Ok (internal_error_response message),
        State (fs s) (events s ++ [Log ERROR ("Unexpected error: " +:+ message)])))
  /\
  (forall d url,
     dict_lookup "url" d = Some url -> is_str url = false ->
     let run := download_handler w sa sb sc (Ok (VDict d)) s in
     (truthy url = false -> run = (Ok (bad_request "No URL provided"), s))
     /\
     (truthy url = true -> py_in "instagram.com" url = Ok false ->
      run = (Ok (bad_request "Invalid Instagram URL"), s))
     /\
     (forall e,
        truthy url = true -> py_in "instagram.com" url = Raise e ->
        run = (Ok (internal_error_response (exn_str e)),
               State (fs s) (events s ++ [Log ERROR ("Unexpected error: " +:+ exn_str e)])))
     /\
     (truthy url = true -> py_in "instagram.com" url = Ok true ->
      exists message,
        run = (Ok (internal_error_response message),
               State (fs s)
                 (events s ++
                  [Log INFO ("Processing download request for: " +:+ py_str (repr w) url);
                   Log ERROR ("Unexpected error: " +:+ message)]))))
  /\
  (forall url,
     is_scalar url = true ->
     exists e, py_in "instagram.com" url = Raise e /\ exn_class_of e = TypeError)
  /\
  (forall l, exists b, py_in "instagram.com" (VList l) = Ok b /\
                       (b = true <-> VStr "instagram.com" ∈ l))
  /\
  (forall o, exists b, py_in "instagram.com" (VDict o) = Ok b /\
                       (b = true <-> "instagram.com" ∈ dict_keys o)).
Proof.
  split_and!.
  - intros e. unfold download_handler, internal_error_response. by simpl.
  - intros v Hv message. subst message. unfold download_handler, internal_error_response.
    by destruct v.
  - intros d url Hd Hu run. subst run.
    rewrite (non_string_url_is_answered sa sb sc d url s Hd Hu).
    split_and!.
    + by intros ->.
    + by intros -> ->.
    + by intros e -> ->.
    + intros -> ->. by eexists.
  - intros []; try discriminate; intros _; by eexists.
  - intros l. eexists. split; [done|].
    induction l as [|x l IH]; simpl.
    + split; [done|by intros ?%elem_of_nil].
    + rewrite elem_of_cons, orb_true_iff, IH.
      destruct x as [| | | |x| |]; simpl; try (intuition congruence).
      destruct (String.eqb_spec x "instagram.com") as [->|Hne]; intuition congruence.
  - intros o. eexists. split; [done|]. rewrite bool_decide_eq_true.
    apply dict_lookup_is_Some.
Qed.

(** X12.  The response is built from the result of the first strategy that
    succeeds, and from nothing else: with the strategies stubbed, when (a)
    succeeds the response is that of (a)'s result; when (a) raises or
    returns no success and (b) succeeds, it is that of (b)'s result; when
    both fail and (c) succeeds, that of (c)'s. *)
Theorem response_is_built_from_first_success oa ob oc d u shortcode s :
  dict_lookup "url" d = Some (VStr u) ->
  extract_instagram_shortcode u = Some shortcode ->
  let run := download_handler w (stub "a" oa) (stub "b" ob) (stub "c" oc)
               (Ok (VDict d)) s in
  (forall ra, oa = Ok ra -> is_success ra = Ok true ->
     run.1 = Ok (settle (respond w ra s).1))
  /\
  (forall rb, succeeded oa = false -> ob = Ok rb -> is_success rb = Ok true ->
     run.1 = Ok (settle (respond w rb s).1))
  /\
  (forall rc, succeeded oa = false -> succeeded ob = false ->
     oc = Ok rc -> is_success rc = Ok true ->
     run.1 = Ok (settle (respond w rc s).1)).
Proof.
  intros Hd Hx run. subst run.
  destruct (handler_stubbed w oa ob oc d u shortcode s Hd Hx) as (logs & -> & _).
  cbn [fst]. split_and!.
  - intros ra -> Hr. cbn [final_result succeeded]. by rewrite Hr.
  - intros rb Ha -> Hr. cbn [final_result].
    destruct oa as [ra|e]; [rewrite Ha|]; cbn [succeeded]; by rewrite Hr.
  - intros rc Ha Hb -> Hr. cbn [final_result].
    destruct oa as [ra|ea]; [rewrite Ha|];
      (destruct ob as [rb|eb]; [rewrite Hb|]); cbn [succeeded]; by rewrite Hr.
Qed.


Lemma extract_needs_the_slash u :
  str_contains "instagram.com/" u = false -> extract_instagram_shortcode u = None.
Proof.
  intros Hu. destruct (extract_instagram_shortcode u) as [id|] eqn:Hx; [|done].
  apply extract_recognized in Hx.
  destruct Hx as [pre seg id rest _ _|pre user seg id rest _ _ _];
    by rewrite str_contains_app in Hu.
Qed.

(** X24.  A URL that holds "instagram.com" but never "instagram.com/"
    passes the domain check and then yields no identifier: it is answered
    with status 400, "Could not extract video ID from URL", after the
    request was logged, and no strategy is entered. *)
Theorem url_without_a_path_is_rejected sa sb sc d u s :
  dict_lookup "url" d = Some (VStr u) ->
  str_contains "instagram.com" u = true ->
  str_contains "instagram.com/" u = false ->
  download_handler w sa sb sc (Ok (VDict d)) s
  = (Ok (bad_request "Could not extract video ID from URL"),
     State (fs s) (events s ++ [Log INFO ("Processing download request for: " +:+ u)])).
Proof.
  intros Hd Hin Hslash.
  assert (String.eqb u "" = false) as Hu.
  { apply String.eqb_neq. by intros ->. }
  unfold download_handler. simpl. rewrite Hd. simpl. rewrite Hu. simpl.
  unfold py_in. rewrite Hin. simpl. by rewrite (extract_needs_the_slash u Hslash).
Qed.

End Answers.

(** *** Identifiers, URLs and paths *)

Section Identifiers.

Lemma extract_plain pre seg id rest :
  seg ∈ ["p"; "reel"; "tv"; "reels"] -> is_id id -> ends_id rest ->
  str_find "instagram.com/" (pre +:+ "instagram.com/" +:+ seg +:+ "/" +:+ id +:+ rest)
  = Some (String.length pre) ->
  extract_instagram_shortcode (pre +:+ "instagram.com/" +:+ seg +:+ "/" +:+ id +:+ rest)
  = Some id.
Proof.
  intros Hseg Hid Hrest Hfind.
  unfold extract_instagram_shortcode, patterns. cbn [first_match].
  unfold pattern1 at 1. rewrite re_search_skip by done. fold pattern1.
  by rewrite (re_search_here _ _ _ (re_match_plain seg id rest Hseg Hid Hrest)).
Qed.

Lemma recognized_is_id url id : recognized url id -> is_id id.
Proof. by intros [pre seg id' rest _ Hid|pre user seg id' rest _ _ Hid]. Qed.

(** X21.  The URLs the strategies build from an identifier lead back to
    it: for an identifier extracted from any URL, the post page of
    strategy (c) and the two endpoints of strategy (b) yield the same
    identifier again. *)
Theorem rebuilt_urls_give_back_the_identifier url id :
  extract_instagram_shortcode url = Some id ->
  extract_instagram_shortcode ("https://www.instagram.com/p/" +:+ id +:+ "/") = Some id /\
  Forall (fun api_url => extract_instagram_shortcode api_url = Some id) (api_urls id).
Proof.
  intros Hid%extract_recognized%recognized_is_id.
  split; [|repeat apply Forall_cons_2; [| |apply Forall_nil_2]].
  - apply (extract_plain "https://www." "p" id "/"); [by left|done..].
  - apply (extract_plain "https://www." "p" id "/?__a=1&__d=dis"); [by left|done..].
  - apply (extract_plain "https://www." "reel" id "/?__a=1&__d=dis");
      [by right; left|done..].
Qed.

(** X22.  A post or reel of an account whose name is p, reel, tv or reels
    is not recognised as such: the first pattern takes the account name
    for the kind of content, and what is returned is the path segment that
    follows it, "p" or "reel", not the identifier. *)
Theorem account_named_like_a_path_segment pre user seg id rest :
  let url := pre +:+ "instagram.com/" +:+ user +:+ "/" +:+ seg +:+ "/" +:+ id +:+ rest in
  user ∈ ["p"; "reel"; "tv"; "reels"] -> seg ∈ ["p"; "reel"] ->
  str_find "instagram.com/" url = Some (String.length pre) ->
  extract_instagram_shortcode url = Some seg.
Proof.
  intros url Huser Hseg Hfind. subst url.
  apply (extract_plain pre user seg ("/" +:+ id +:+ rest)); [done| |done|done].
  apply elem_of_cons in Hseg as [->|Hseg]; [done|].
  apply list_elem_of_singleton in Hseg as ->. done.
Qed.

Lemma str_forallb_not_contains f c s :
  str_forallb f s = true -> f c = false -> str_contains (String c "") s = false.
Proof.
  intros Hs Hc. unfold str_contains.
  induction s as [|a s IH]; [done|].
  simpl in Hs. apply andb_prop in Hs as [Ha Hs].
  rewrite str_find_eq. cbn [strip_prefix].
  destruct (Ascii.eqb_spec c a) as [->|_]; [congruence|].
  specialize (IH Hs). by destruct (str_find (String c "") s).
Qed.

Lemma str_forallb_not_contains_app f c s rest :
  str_forallb f s = true -> f c = false ->
  str_contains (String c "") rest = false ->
  str_contains (String c "") (s +:+ rest) = false.
Proof.
  intros Hs Hc Hrest. unfold str_contains in *.
  induction s as [|a s IH]; [done|].
  simpl in Hs. apply andb_prop in Hs as [Ha Hs].
  cbn [String.append]. rewrite str_find_eq. cbn [strip_prefix].
  destruct (Ascii.eqb_spec c a) as [->|_]; [congruence|].
  specialize (IH Hs). by destruct (str_find (String c "") (s +:+ rest)).
Qed.

(** X23.  The file strategies (b) and (c) write stays in the download
    directory: an extracted identifier holds no slash and no dot, so the
    path built from it is the download directory, a slash, the identifier
    and ".mp4", and cannot lead anywhere else. *)
Theorem video_file_stays_in_the_download_directory (w : world) url shortcode :
  extract_instagram_shortcode url = Some shortcode ->
  video_path w shortcode = download_dir w +:+ "/" +:+ shortcode +:+ ".mp4" /\
  str_contains "/" shortcode = false /\
  str_contains "." shortcode = false.
Proof.
  intros [Hne Hall]%extract_recognized%recognized_is_id.
  split_and!.
  - destruct (download_dir_shape w) as [Hdir Hlast].
    unfold video_path, os_path_join. rewrite Hlast.
    apply String.eqb_neq in Hdir. rewrite Hdir.
    destruct shortcode as [|c shortcode]; [done|]. simpl in Hall |- *.
    apply andb_prop in Hall as [Hc _].
    destruct (Ascii.eqb_spec "/" c) as [<-|_]; [done|done].
  - by apply (str_forallb_not_contains (in_class id_class)).
  - by apply (str_forallb_not_contains (in_class id_class)).
Qed.

End Identifiers.

(** *** From the download to the file served *)

Section Served.

Variable w : world.

Lemma ytdlp_servable url shortcode :
  yields_servable w shortcode
    ("Enhanced yt-dlp", download_with_ytdlp_enhanced w url shortcode).
Proof.
  intros s r s' [->|(s1 & ua & info & _ & -> & Hfile)]%ytdlp_outcome; [by left|].
  right. eexists _, (ytdlp_filename w shortcode info). split; [done|].
  split_and!; [done..|]. by left.
Qed.

Lemma requests_servable url shortcode :
  yields_servable w shortcode ("Direct API", download_with_requests w url shortcode).
Proof.
  intros s r s' Hrun. cbn [snd] in Hrun.
  apply requests_outcome in Hrun
    as [->|(s1 & ua & u & resp & data & media & a & c & _ & _ & _ & _ & _ & _ & -> & Hfile)];
    [by left|].
  right. eexists _, (shortcode +:+ ".mp4"). split; [done|].
  split_and!; [done..|]. by right.
Qed.

Lemma instaloader_servable url shortcode :
  yields_servable w shortcode
    ("HTML Scraping", download_with_instaloader_like w url shortcode).
Proof.
  intros s r s' Hrun. cbn [snd] in Hrun.
  apply instaloader_outcome in Hrun
    as [->|(b & data & t & ao & a & c & _ & _ & _ & _ & _ & -> & Hfile)]; [by left|].
  right. eexists _, (shortcode +:+ ".mp4"). split; [done|].
  split_and!; [done..|]. by right.
Qed.

(** The loop over methods whose results are servable ends with a servable
    result. *)
Lemma try_methods_servable shortcode methods :
  Forall (yields_servable w shortcode) methods ->
  forall s, exists r s',
    try_methods methods VNone s = (Ok r, s') /\ servable w (fs s') shortcode r.
Proof.
  induction 1 as [|[name f] methods Hf _ IH]; intros s; simpl.
  - eexists _, _. split; [done|by left].
  - destruct (f _) as [[r|e] s1] eqn:Hcall; simpl; [|apply IH].
    destruct (Hf _ _ _ Hcall) as [->|(d & filename & -> & Hr & Hnames)].
    + apply IH.
    + rewrite Hr. simpl. eexists _, _. split; [done|].
      right. by eexists d, filename.
Qed.

Lemma names_download_stat files shortcode d filename s :
  names_download w files shortcode d filename -> fs s = files ->
  os_path_getsize w (VStr (os_path_join (download_dir w) filename)) s
  = (Ok (size_at w files (os_path_join (download_dir w) filename)), s).
Proof.
  intros (_ & _ & _ & Hthere) <-. unfold os_path_getsize, size_at.
  destruct (fs s !! _) eqn:Hfile; [done|].
  destruct Hthere as [[_ Hex]|(_ & _ & [? ?])]; [|done].
  unfold path_exists in Hex. rewrite Hfile in Hex.
  rewrite bool_decide_eq_false_2 in Hex by (by intros [? ?]). simpl in Hex.
  by rewrite Hex.
Qed.

Lemma respond_servable shortcode r s :
  servable w (fs s) shortcode r ->
  (r = VNone /\ respond w r s = (Ok exhausted_response, s)) \/
  (exists d filename,
     r = VDict d /\ names_download w (fs s) shortcode d filename /\
     respond w r s
     = rendered w (success_response w d (VStr filename)
                     (size_at w (fs s) (os_path_join (download_dir w) filename))) s).
Proof.
  intros [->|(d & filename & -> & Hn)]; [by left|right].
  exists d, filename. split_and!; [done..|].
  pose proof (names_download_stat _ _ _ _ s Hn eq_refl) as Hstat.
  destruct Hn as (Hr & Hp & Hf & _).
  unfold respond, success_response. cbn [bind lift].
  rewrite Hr. cbn [py_getitem py_get]. rewrite Hp. cbn [bind lift]. rewrite Hstat.
  cbn [bind lift]. by rewrite Hf.
Qed.

(** What the handler of the module does with a request it can read. *)
Lemma download_outcome d s :
  (exists resp s', download w (Ok (VDict d)) s = (Ok resp, s') /\ status resp = 400) \/
  (exists resp s', download w (Ok (VDict d)) s = (Ok resp, s') /\ status resp = 500 /\
                   forall u, dict_lookup "url" d <> Some (VStr u)) \/
  (exists u shortcode d' filename s1,
     dict_lookup "url" d = Some (VStr u) /\
     extract_instagram_shortcode u = Some shortcode /\
     names_download w (fs s1) shortcode d' filename /\
     let resp := success_response w d' (VStr filename)
                   (size_at w (fs s1) (os_path_join (download_dir w) filename)) in
     download w (Ok (VDict d)) s
     = if json_compliant (content resp) then (Ok resp, s1)
       else
         let message := exn_str (dumps_error w (content resp)) in
         (Ok (internal_error_response message),
          State (fs s1) (events s1 ++ [Log ERROR ("Unexpected error: " +:+ message)]))).
Proof.
  destruct (dict_lookup "url" d) as [url|] eqn:Hd; cycle 1.
  { left. unfold download, download_handler. simpl. rewrite Hd. simpl. by eexists _, _. }
  destruct (is_str url) eqn:Hu; cycle 1.
  { pose proof (non_string_url_is_answered w
                  (download_with_ytdlp_enhanced w) (download_with_requests w)
                  (download_with_instaloader_like w) d url s Hd Hu) as Hrun.
    fold (download w (Ok (VDict d)) s) in Hrun.
    destruct (truthy url); [|left; by eexists _, _].
    destruct (py_in "instagram.com" url) as [[|]|e]; [right; left| left |right; left];
      eexists _, _; (split; [exact Hrun|]); try done;
      (split; [done|by intros u [= ->]]). }
  destruct url as [| | | |u| |]; try discriminate Hu.
  destruct (extract_instagram_shortcode u) as [shortcode|] eqn:Hx; cycle 1.
  { left. unfold download, download_handler. simpl. rewrite Hd. simpl.
    destruct (String.eqb u ""); simpl; [by eexists _, _|].
    unfold py_in. destruct (str_contains "instagram.com" u); simpl; [|by eexists _, _].
    rewrite Hx. simpl. by eexists _, _. }
  unfold download. rewrite (handler_valid _ _ _ _ _ _ _ _ Hd Hx).
  cbn [try_except bind logger emit]. unfold run_pipeline. cbn [bind].
  match goal with |- context [try_methods ?m VNone ?s0] =>
    destruct (try_methods_servable shortcode m) with (s := s0) as (r & s1 & Hloop & Hr)
  end.
  { unfold methods.
    repeat apply Forall_cons_2;
      [apply ytdlp_servable|apply requests_servable|apply instaloader_servable
      |apply Forall_nil_2]. }
  rewrite Hloop.
  destruct (respond_servable shortcode r s1 Hr) as [[-> ->]|(d' & fn & -> & Hn & ->)].
  - left. by eexists _, _.
  - right. right. exists u, shortcode, d', fn, s1. split_and!; [done..|].
    unfold rendered, internal_error, internal_error_response. cbn zeta.
    destruct (json_compliant _); [by destruct s1|done].
Qed.


Variable h : Routes.host.

Lemma video_filename_no_slash u shortcode :
  extract_instagram_shortcode u = Some shortcode ->
  str_contains "/" (shortcode +:+ ".mp4") = false.
Proof.
  intros [Hne Hall]%extract_recognized%recognized_is_id.
  by apply (str_forallb_not_contains_app (in_class id_class)).
Qed.

(** X15.  What [/download] announces for a file a strategy wrote itself
    can be fetched: when the handler of the module answers 200 and the
    result is not one of the engine, the answer names the file
    "<identifier>.mp4", by "filename" and by the link
    "/downloads/<identifier>.mp4", and gives its size; the name holds no
    slash, so the route matches it; and in the state the handler leaves,
    [/downloads/<identifier>.mp4] serves that regular file, with that size
    as Content-Length. *)
Theorem downloaded_file_is_served d s resp s' :
  download w (Ok (VDict d)) s = (Ok resp, s') -> status resp = 200 ->
  py_getitem (content resp) "method" <> Ok (VStr "ytdlp_enhanced") ->
  exists u shortcode bytes,
    dict_lookup "url" d = Some (VStr u) /\
    extract_instagram_shortcode u = Some shortcode /\
    let filename := shortcode +:+ ".mp4" in
    py_getitem (content resp) "filename" = Ok (VStr filename) /\
    py_getitem (content resp) "video" = Ok (VStr ("/downloads/" +:+ filename)) /\
    py_getitem (content resp) "file_size" = Ok (VInt (Z.of_nat (length bytes))) /\
    str_contains "/" filename = false /\
    fs s' !! os_path_join (download_dir w) filename = Some bytes /\
    Routes.serve_video h w filename s'
    = (Ok (inr (Routes.FileResponse (os_path_join (download_dir w) filename)
                  "video/mp4" filename
                  [("Accept-Ranges", "bytes");
                   ("Content-Length", py_str (repr w) (VInt (Z.of_nat (length bytes))));
                   ("Cache-Control", "no-cache")])),
       s').
Proof.
  intros Hrun Hstatus Hmethod.
  destruct (download_outcome d s)
    as [(resp' & s1 & Hrun' & Hs)|[(resp' & s1 & Hrun' & Hs & _)
       |(u & sc & d' & fn & s1 & Hd & Hx & Hn & Hrun')]];
    rewrite Hrun in Hrun'; try (simplify_eq; lia).
  cbn zeta in Hrun'.
  match type of Hrun' with context [json_compliant ?c] =>
    destruct (json_compliant c)
  end; simplify_eq.
  destruct Hn as (_ & _ & _ & [[Hengine _]|(_ & -> & [bytes Hfile])]).
  { exfalso. apply Hmethod. simpl. by rewrite Hengine. }
  exists u, sc, bytes. cbn zeta. unfold size_at. rewrite Hfile.
  split_and!; [done..|by eapply video_filename_no_slash|done|].
  unfold Routes.serve_video, os_path_exists, os_path_getsize, path_exists. simpl.
  rewrite bool_decide_eq_true_2 by eauto. simpl. rewrite Hfile. by destruct s1.
Qed.

(** X16.  [/downloads/{filename}] ends in one of two ways.  When a
    regular file is at the path in the download directory, it is served as
    video/mp4 with its size as Content-Length, and nothing is logged; the
    same answer is built, with the size of the directory, when the path is
    a directory.  When nothing is at the path, the 404 raised inside the
    [try] is caught by the [except] of the same function: the error is
    logged and the route raises status 500, with the text of the 404 as
    detail.  The route never ends with status 404, and never changes a
    file. *)
Theorem serve_video_outcomes filename s :
  let file_path := os_path_join (download_dir w) filename in
  (forall bytes,
     fs s !! file_path = Some bytes ->
     Routes.serve_video h w filename s
     = (Ok (inr (Routes.FileResponse file_path "video/mp4" filename
                   [("Accept-Ranges", "bytes");
                    ("Content-Length", py_str (repr w) (VInt (Z.of_nat (length bytes))));
                    ("Cache-Control", "no-cache")])),
        s))
  /\
  (fs s !! file_path = None -> os_path_isdir w file_path = true ->
   Routes.serve_video h w filename s
   = (Ok (inr (Routes.FileResponse file_path "video/mp4" filename
                 [("Accept-Ranges", "bytes");
                  ("Content-Length", py_str (repr w) (VInt (dir_size w file_path)));
                  ("Cache-Control", "no-cache")])),
      s))
  /\
  (fs s !! file_path = None -> os_path_isdir w file_path = false ->
   let detail := Routes.http_exception_str h 404 "File not found" in
   Routes.serve_video h w filename s
   = (Ok (inl (Routes.HTTPException 500 detail)),
      State (fs s) (events s ++ [Log ERROR ("Error serving file: " +:+ detail)])))
  /\
  (exists out s',
     Routes.serve_video h w filename s = (Ok out, s') /\ fs s' = fs s /\
     forall code detail, out = inl (Routes.HTTPException code detail) -> code = 500).
Proof.
  intros file_path. subst file_path.
  unfold Routes.serve_video, os_path_exists, os_path_getsize, path_exists. simpl.
  destruct (fs s !! os_path_join (download_dir w) filename) as [bytes|] eqn:Hfile.
  - rewrite bool_decide_eq_true_2 by eauto. simpl. rewrite Hfile. split_and!.
    + intros ? [= <-]. by destruct s.
    + done.
    + done.
    + eexists _, _. split_and!; [done..|]. intros code detail. discriminate.
  - rewrite bool_decide_eq_false_2 by (by intros [? ?]). simpl.
    destruct (os_path_isdir w _) eqn:Hdir; simpl; rewrite ?Hfile, ?Hdir; split_and!.
    + done.
    + intros _ _. by destruct s.
    + done.
    + eexists _, _. split_and!; [done..|]. intros code detail. discriminate.
    + done.
    + done.
    + done.
    + eexists _, _. split_and!; [done..|]. by intros code detail [= <- _].
Qed.

(** X17.  [/health] advertises the strategies by the tags they put in
    their results: the "method" of every success result of (a), (b) or (c)
    is in the "methods" list. *)
Theorem health_lists_every_method_tag url shortcode s r s' st :
  is_success r = Ok true ->
  download_with_ytdlp_enhanced w url shortcode s = (Ok r, s') \/
  download_with_requests w url shortcode s = (Ok r, s') \/
  download_with_instaloader_like w url shortcode s = (Ok r, s') ->
  exists tag report tags,
    py_getitem r "method" = Ok tag /\
    Routes.health h st = (Ok report, st) /\
    py_getitem report "methods" = Ok (VList tags) /\
    tag ∈ tags.
Proof.
  intros Hr [H|[H|H]].
  - apply ytdlp_outcome in H as [->|(s1 & ua & info & _ & -> & _)]; [done|].
    eexists _, _, _. split_and!; [done..|]. set_solver.
  - apply requests_outcome in H
      as [->|(s1 & ua & u & resp & data & media & a & c & _ & _ & _ & _ & _ & _ & -> & _)];
      [done|].
    eexists _, _, _. split_and!; [done..|]. set_solver.
  - apply instaloader_outcome in H
      as [->|(b & data & t & ao & a & c & _ & _ & _ & _ & _ & -> & _)]; [done|].
    eexists _, _, _. split_and!; [done..|]. set_solver.
Qed.

End Served.

(** *** The clean-up *)

Section CleanUp.

Variable h : Routes.host.
Variable w : world.

Lemma expired_here current max_age filename names p :
  expired h w current max_age [filename] p ->
  expired h w current max_age (filename :: names) p.
Proof.
  intros (x & s0 & mtime & ->%list_elem_of_singleton & H). exists filename, s0, mtime.
  split; [by left|done].
Qed.

Lemma expired_later current max_age filename names p :
  expired h w current max_age names p ->
  expired h w current max_age (filename :: names) p.
Proof.
  intros (x & s0 & mtime & Hin & H). exists x, s0, mtime. split; [by right|done].
Qed.

(** One turn only logs, and the only file it may remove is the one it
    looks at, when that one is expired. *)
Lemma clean_file_safe current max_age filename s :
  let run := Routes.clean_file h w current max_age filename s in
  (exists more, events run.2 = events s ++ more /\ Forall is_log more) /\
  forall p, fs run.2 !! p = fs s !! p \/
            (fs run.2 !! p = None /\ expired h w current max_age [filename] p).
Proof.
  unfold Routes.clean_file, Routes.os_remove. simpl.
  set (path := os_path_join (download_dir w) filename).
  case_bool_decide as Hfile; simpl; cycle 1.
  { split; [exists []; by rewrite app_nil_r|by left]. }
  destruct (Routes.getmtime h s path) as [mtime|e] eqn:Hmtime; simpl; cycle 1.
  { split; [exists []; by rewrite app_nil_r|by left]. }
  destruct (Routes.greater h _ _) eqn:Hold; simpl; cycle 1.
  { split; [exists []; by rewrite app_nil_r|by left]. }
  destruct (fs s !! path) eqn:Hpath; simpl; cycle 1.
  { split; [exists []; by rewrite app_nil_r|by left]. }
  destruct (Routes.remove_error h s path); simpl.
  { split; [exists []; by rewrite app_nil_r|by left]. }
  split; [eexists [_]; split; [done|by repeat constructor]|].
  intros p. destruct (decide (p = path)) as [->|Hp].
  - right. rewrite lookup_delete_eq. split; [done|].
    exists filename, s, mtime. split_and!; [by left|done..].
  - left. by rewrite lookup_delete_ne.
Qed.

Lemma for_listdir_safe current max_age names : forall s,
  let run := Routes.for_listdir h w current max_age names s in
  (exists more, events run.2 = events s ++ more /\ Forall is_log more) /\
  forall p, fs run.2 !! p = fs s !! p \/
            (fs run.2 !! p = None /\ expired h w current max_age names p).
Proof.
  induction names as [|filename names IH]; intros s run; subst run.
  - simpl. split; [exists []; by rewrite app_nil_r|by left].
  - cbn [Routes.for_listdir bind].
    destruct (clean_file_safe current max_age filename s) as [(more1 & He1 & Hl1) Hf1].
    destruct (Routes.clean_file h w current max_age filename s) as [[[]|e] s1];
      simpl in He1, Hf1.
    + destruct (IH s1) as [(more2 & He2 & Hl2) Hf2]. split.
      * exists (more1 ++ more2). rewrite He2, He1, app_assoc.
        split; [done|by apply Forall_app].
      * intros p. destruct (Hf2 p) as [Hp|[Hp Hx]].
        -- rewrite Hp. destruct (Hf1 p) as [?|[? Hx]]; [by left|right].
           split; [done|]. by apply expired_here.
        -- right. split; [done|]. by apply expired_later.
    + simpl. split; [by exists more1|].
      intros p. destruct (Hf1 p) as [?|[? Hx]]; [by left|right].
      split; [done|]. by apply expired_here.
Qed.

Lemma clean_old_downloads_safe max_age s :
  let run := Routes.clean_old_downloads h w max_age s in
  run.1 = Ok tt /\
  (exists more, events run.2 = events s ++ more /\ Forall is_log more) /\
  forall p, fs run.2 !! p = fs s !! p \/
            (fs run.2 !! p = None /\
             exists names, Routes.listdir h s (download_dir w) = Ok names /\
                           expired h w (Routes.now h s) max_age names p).
Proof.
  unfold Routes.clean_old_downloads. simpl.
  destruct (Routes.listdir h s (download_dir w)) as [names|e] eqn:Hlist; simpl; cycle 1.
  { split_and!; [done|eexists [_]; split; [done|by repeat constructor]|by left]. }
  destruct (for_listdir_safe (Routes.now h s) max_age names s)
    as [(more & He & Hl) Hf].
  destruct (Routes.for_listdir h w _ max_age names s) as [[[]|e] s1]; simpl in *.
  - split_and!; [done|by exists more|].
    intros p. destruct (Hf p) as [?|[? ?]]; [by left|right; eauto].
  - split_and!; [done| |].
    + exists (more ++ [Log ERROR ("Error cleaning downloads: " +:+ exn_str e)]).
      rewrite He, app_assoc. split; [done|]. apply Forall_app. by repeat constructor.
    + intros p. destruct (Hf p) as [?|[? ?]]; [by left|right; eauto].
Qed.

(** X18.  The clean-up never raises and never touches the network or the
    engine: it only logs.  Every file is afterwards as it was, or gone; and
    a file that is gone was in the download directory, under a name the
    directory listed, with an age above [max_age_hours] hours.  The start
    of the application does the same with 24 hours, after its two lines in
    the log. *)
Theorem clean_up_removes_only_expired_downloads max_age s :
  (let run := Routes.clean_old_downloads h w max_age s in
   run.1 = Ok tt /\
   (exists more, events run.2 = events s ++ more /\ Forall is_log more) /\
   forall p, fs run.2 !! p = fs s !! p \/
             (fs run.2 !! p = None /\
              exists names, Routes.listdir h s (download_dir w) = Ok names /\
                            expired h w (Routes.now h s) max_age names p))
  /\
  (let run := Routes.startup_event h w s in
   run.1 = Ok tt /\
   (exists more,
      events run.2
      = events s ++
        Log INFO "Instagram Downloader API v2.1 starting up..."
        :: Log INFO "Enhanced mode with better Render compatibility" :: more /\
      Forall is_log more) /\
   forall p, fs run.2 !! p = fs s !! p \/
             (fs run.2 !! p = None /\
              exists s0 names, Routes.listdir h s0 (download_dir w) = Ok names /\
                               expired h w (Routes.now h s0) 24 names p)).
Proof.
  split; [apply clean_old_downloads_safe|].
  unfold Routes.startup_event. cbn [bind logger emit fs events].
  match goal with |- context [Routes.clean_old_downloads h w 24 ?s0] =>
    destruct (clean_old_downloads_safe 24 s0) as (Hr & (more & He & Hl) & Hf)
  end.
  destruct (Routes.clean_old_downloads h w 24 _) as [r s1]. simpl in *.
  split_and!; [done| |].
  - exists more. rewrite He, <- !app_assoc. by split.
  - intros p. destruct (Hf p) as [?|[? (names & ? & ?)]]; [by left|right].
    split; [done|]. by eexists _, names.
Qed.

(** With a clock and a disk that answer, the loop removes exactly the
    listed files that are expired. *)
Lemma for_listdir_complete current max_age mtime names :
  (forall s0 p, Routes.getmtime h s0 p = Ok (mtime p)) ->
  (forall s0 p, Routes.remove_error h s0 p = None) ->
  forall s,
    let run := Routes.for_listdir h w current max_age names s in
    run.1 = Ok tt /\
    forall p,
      fs run.2 !! p
      = if bool_decide (p ∈ os_path_join (download_dir w) <$> names)
           && Routes.greater h (Routes.minus h current (mtime p)) (max_age * 3600)
        then None else fs s !! p.
Proof.
  intros Hmtime Hremove.
  induction names as [|filename names IH]; intros s run; subst run.
  - simpl. split; [done|]. intros p. done.
  - cbn [Routes.for_listdir bind].
    set (path := os_path_join (download_dir w) filename).
    assert (exists s1,
      Routes.clean_file h w current max_age filename s = (Ok tt, s1) /\
      forall p, fs s1 !! p
                = if bool_decide (p = path)
                     && Routes.greater h (Routes.minus h current (mtime p)) (max_age * 3600)
                  then None else fs s !! p) as (s1 & -> & Hs1).
    { unfold Routes.clean_file, Routes.os_remove. simpl. fold path.
      destruct (fs s !! path) as [bytes|] eqn:Hpath.
      - rewrite bool_decide_eq_true_2 by eauto. simpl. rewrite Hmtime. simpl.
        destruct (Routes.greater h _ _) eqn:Hold; simpl;
          rewrite ?Hpath, ?Hremove; simpl; eexists; (split; [done|]); intros p; simpl;
          case_bool_decide as Hp; subst; simpl; rewrite ?Hold;
          by rewrite ?lookup_delete_eq, ?lookup_delete_ne.
      - rewrite bool_decide_eq_false_2 by (by intros [? ?]). simpl.
        eexists. split; [done|]. intros p.
        case_bool_decide as Hp; subst; simpl; [|done].
        by destruct (Routes.greater h _ _). }
    destruct (IH s1) as [Hr Hf]. split; [done|].
    intros p. rewrite Hf, Hs1, fmap_cons. fold path.
    destruct (Routes.greater h _ _); rewrite ?andb_false_r, ?andb_true_r; [|done].
    destruct (decide (p = path)) as [->|Hp].
    + rewrite (bool_decide_eq_true_2 (path ∈ path :: _)) by left.
      rewrite (bool_decide_eq_true_2 (path = path)) by done.
      by destruct (bool_decide _).
    + rewrite (bool_decide_eq_false_2 (p = path)) by done.
      erewrite (bool_decide_ext (p ∈ path :: _)); [done|].
      rewrite elem_of_cons. tauto.
Qed.

Lemma for_listdir_stops current max_age filename after before : forall s s1 e,
  Routes.for_listdir h w current max_age before s = (Ok tt, s1) ->
  Routes.clean_file h w current max_age filename s1 = (Raise e, s1) ->
  Routes.for_listdir h w current max_age (before ++ filename :: after) s = (Raise e, s1).
Proof.
  induction before as [|b before IH]; intros s s1 e Hbefore Hturn.
  - simpl in Hbefore. injection Hbefore as <-.
    cbn [app Routes.for_listdir bind]. by rewrite Hturn.
  - cbn [app Routes.for_listdir bind] in *.
    destruct (Routes.clean_file h w current max_age b s) as [[[]|e'] s0]; [|done].
    by apply IH.
Qed.

(** X19.  When the directory can be listed, every modification time can be
    read and every removal works, the clean-up removes exactly the files of
    the download directory that are listed and whose age is above the
    limit: each of them is gone, and every other file, younger, unlisted or
    elsewhere, is as it was. *)
Theorem clean_up_removes_every_expired_download max_age mtime names s :
  Routes.listdir h s (download_dir w) = Ok names ->
  (forall s0 p, Routes.getmtime h s0 p = Ok (mtime p)) ->
  (forall s0 p, Routes.remove_error h s0 p = None) ->
  let run := Routes.clean_old_downloads h w max_age s in
  run.1 = Ok tt /\
  forall p,
    fs run.2 !! p
    = if bool_decide (p ∈ os_path_join (download_dir w) <$> names)
         && Routes.greater h (Routes.minus h (Routes.now h s) (mtime p)) (max_age * 3600)
      then None else fs s !! p.
Proof.
  intros Hlist Hmtime Hremove. unfold Routes.clean_old_downloads. simpl.
  rewrite Hlist. simpl.
  destruct (for_listdir_complete (Routes.now h s) max_age mtime names Hmtime Hremove s)
    as [Hr Hf].
  destruct (Routes.for_listdir h w _ max_age names s) as [r s1]. simpl in *.
  by rewrite Hr.
Qed.

(** X20.  One failure stops the sweep.  When the directory cannot be
    listed nothing is removed; and when the modification time of a listed
    file cannot be read, or the file cannot be removed, the files listed
    after it are not looked at: what was done for the names before it
    stays, the error is logged, and nothing is raised. *)
Theorem clean_up_stops_at_the_first_failure max_age s :
  (forall e,
     Routes.listdir h s (download_dir w) = Raise e ->
     Routes.clean_old_downloads h w max_age s
     = (Ok tt,
        State (fs s) (events s ++ [Log ERROR ("Error cleaning downloads: " +:+ exn_str e)])))
  /\
  (forall before filename after s1 e,
     Routes.listdir h s (download_dir w) = Ok (before ++ filename :: after) ->
     Routes.for_listdir h w (Routes.now h s) max_age before s = (Ok tt, s1) ->
     Routes.clean_file h w (Routes.now h s) max_age filename s1 = (Raise e, s1) ->
     Routes.clean_old_downloads h w max_age s
     = (Ok tt,
        State (fs s1)
          (events s1 ++ [Log ERROR ("Error cleaning downloads: " +:+ exn_str e)])))
  /\
  (forall current filename s1 bytes,
     fs s1 !! os_path_join (download_dir w) filename = Some bytes ->
     (forall e, Routes.getmtime h s1 (os_path_join (download_dir w) filename) = Raise e ->
        Routes.clean_file h w current max_age filename s1 = (Raise e, s1))
     /\
     (forall mtime e,
        Routes.getmtime h s1 (os_path_join (download_dir w) filename) = Ok mtime ->
        Routes.greater h (Routes.minus h current mtime) (max_age * 3600) = true ->
        Routes.remove_error h s1 (os_path_join (download_dir w) filename) = Some e ->
        Routes.clean_file h w current max_age filename s1 = (Raise e, s1))).
Proof.
  split_and!.
  - intros e Hlist. unfold Routes.clean_old_downloads. simpl. by rewrite Hlist.
  - intros before filename after s1 e Hlist Hbefore Hturn.
    unfold Routes.clean_old_downloads. simpl. rewrite Hlist. simpl.
    by rewrite (for_listdir_stops _ _ _ _ _ _ _ _ Hbefore Hturn).
  - intros current filename s1 bytes Hfile. split.
    + intros e Hmtime. unfold Routes.clean_file. simpl.
      rewrite bool_decide_eq_true_2 by eauto. simpl. by rewrite Hmtime.
    + intros mtime e Hmtime Hold Hremove. unfold Routes.clean_file, Routes.os_remove. simpl.
      rewrite bool_decide_eq_true_2 by eauto. simpl. rewrite Hmtime. simpl.
      rewrite Hold. simpl. by rewrite Hfile, Hremove.
Qed.

End CleanUp.

(** *** The properties at work on concrete worlds *)

Lemma streamed_file_holds_the_chunks_witness :
  let run := save_stream offline "/app/downloads/ABC.mp4"
               (Response 200 (Ok VNone) "" three_bytes None) one_video in
  fs run.2 !! "/app/downloads/ABC.mp4" = Some (concat three_bytes) /\
  length <$> fs run.2 !! "/app/downloads/ABC.mp4" = Some (sum_list (length <$> three_bytes)) /\
  (forall p, p <> "/app/downloads/ABC.mp4" -> fs run.2 !! p = fs one_video !! p) /\
  events run.2 = events one_video /\
  run.1 = Ok tt.
Proof.
  apply (proj1 (streamed_file_holds_the_chunks offline "/app/downloads/ABC.mp4"
                  (Response 200 (Ok VNone) "" three_bytes None) one_video)).
  reflexivity.
Defined.

Lemma direct_api_success_ends_the_loop_witness :
  for_api_urls (serving (Ok video_payload) three_bytes) "ABC" "agent"
    ["https://www.instagram.com/p/ABC/?__a=1&__d=dis";
     "https://www.instagram.com/reel/ABC/?__a=1&__d=dis"] fresh
  = (Ok (direct_result (serving (Ok video_payload) three_bytes) "ABC"
           (VStr "Unknown") (VStr "")),
     State (<[video_path (serving (Ok video_payload) three_bytes) "ABC"
              := concat three_bytes]> (fs fresh))
       (events fresh ++
        [HttpGet (VStr "https://www.instagram.com/p/ABC/?__a=1&__d=dis")
           (api_headers "agent" "ABC") false 30;
         HttpGet (VStr "https://cdn.example/v.mp4") (api_headers "agent" "ABC") true 60;
         Log INFO ("Successfully downloaded via direct API: " +:+ "ABC" +:+ ".mp4")])).
Proof.
  apply (direct_api_success_ends_the_loop (serving (Ok video_payload) three_bytes)
           "ABC" "agent" "https://www.instagram.com/p/ABC/?__a=1&__d=dis"
           ["https://www.instagram.com/reel/ABC/?__a=1&__d=dis"] fresh
           (Response 200 (Ok video_payload) "" [] None) video_payload
           (VDict [("video_url", VStr "https://cdn.example/v.mp4")])
           (VStr "https://cdn.example/v.mp4") (VStr "") (VStr "Unknown")
           (Response 200 (Raise (Exn JSONDecodeError "Expecting value")) "" three_bytes None));
    reflexivity.
Defined.

Lemma direct_api_skips_endpoint_on_bad_status_witness :
  for_api_urls refusing "ABC" "agent"
    ["https://www.instagram.com/p/ABC/?__a=1&__d=dis";
     "https://www.instagram.com/reel/ABC/?__a=1&__d=dis"] fresh
  = for_api_urls refusing "ABC" "agent"
      ["https://www.instagram.com/reel/ABC/?__a=1&__d=dis"]
      (State (fs fresh)
         (events fresh ++
          [HttpGet (VStr "https://www.instagram.com/p/ABC/?__a=1&__d=dis")
             (api_headers "agent" "ABC") false 30])).
Proof.
  apply (proj1 (direct_api_skips_endpoint_on_bad_status refusing "ABC" "agent"
                  "https://www.instagram.com/p/ABC/?__a=1&__d=dis"
                  ["https://www.instagram.com/reel/ABC/?__a=1&__d=dis"] fresh
                  (Response 429 (Raise (Exn JSONDecodeError "Expecting value")) "" [] None)
                  eq_refl)).
  simpl. lia.
Defined.

Lemma direct_api_error_ends_the_strategy_witness :
  (download_with_requests offline "https://www.instagram.com/p/ABC/" "ABC" fresh).1 = Ok VNone
  /\ requests_made
       (events (download_with_requests offline "https://www.instagram.com/p/ABC/" "ABC"
                  fresh).2)
     = [VStr "https://www.instagram.com/p/ABC/?__a=1&__d=dis"].
Proof.
  rewrite (proj1 (direct_api_error_ends_the_strategy offline
                    "https://www.instagram.com/p/ABC/" "ABC" fresh)
             (Exn (OtherError "ConnectionError") "unreachable") eq_refl).
  split; reflexivity.
Defined.

Lemma engine_outcomes_witness :
  ((download_with_ytdlp_enhanced offline "https://www.instagram.com/p/ABC/" "ABC" fresh).1
   = Ok VNone
   /\ last (events (download_with_ytdlp_enhanced offline "https://www.instagram.com/p/ABC/"
                      "ABC" fresh).2)
      = Some (Log WARNING "Enhanced yt-dlp method failed: unreachable"))
  /\
  (dotted_run.1 = Ok (ytdlp_result dotted "ABC" [("id", VStr ""); ("ext", VStr "")])
   /\ fs dotted_run.2 = ∅).
Proof.
  split.
  - rewrite (proj2 (proj2 (engine_outcomes offline "https://www.instagram.com/p/ABC/"
                             "ABC" fresh))
               (Exn DownloadError "unreachable") ∅ eq_refl).
    split; reflexivity.
  - unfold dotted_run.
    rewrite (proj1 (proj1 (engine_outcomes dotted "https://www.instagram.com/p/ABC/"
                             "ABC" fresh)
                      [("id", VStr ""); ("ext", VStr "")] ∅ eq_refl)).
    split; reflexivity.
Defined.

Lemma scraping_skips_unusable_block_witness :
  for_matches offline "ABC" (page_headers "agent") ["{broken"; "{}"] fresh
  = for_matches offline "ABC" (page_headers "agent") ["{}"] fresh.
Proof.
  apply (scraping_skips_unusable_block offline "ABC" (page_headers "agent")
           "{broken" ["{}"] fresh).
  left. exists (Exn JSONDecodeError "Expecting value"). split; reflexivity.
Defined.

Lemma scraping_gives_up_without_blocks_witness :
  download_with_instaloader_like refusing "https://www.instagram.com/p/ABC/" "ABC" fresh
  = (Ok VNone,
     State (fs fresh)
       (events fresh ++
        [Log INFO "Attempting HTML scraping for ABC";
         HttpGet (VStr "https://www.instagram.com/p/ABC/")
           (page_headers (drawn_user_agent refusing
              (State (fs fresh)
                 (events fresh ++ [Log INFO "Attempting HTML scraping for ABC"]))))
           false 30])).
Proof.
  rewrite (proj2 (scraping_gives_up_without_blocks refusing
                    "https://www.instagram.com/p/ABC/" "ABC" fresh)
             (Response 429 (Raise (Exn JSONDecodeError "Expecting value")) "" [] None)
             eq_refl).
  - reflexivity.
  - left. simpl. lia.
Defined.

Lemma scraping_title_is_the_caption_witness :
  exists d title caption,
    scraping_result scraped "ABC" (VStr "Hello") (VStr "Unknown") (VStr "Hello") = VDict d /\
    dict_lookup "title" d = Some title /\ dict_lookup "caption" d = Some caption /\
    (title = caption \/
     (title = VStr "Instagram Video" /\ caption = VStr "No caption available")).
Proof.
  apply (scraping_title_is_the_caption scraped "https://www.instagram.com/p/ABC/" "ABC"
           fresh _ scraped_run.2).
  - vm_compute. reflexivity.
  - reflexivity.
Defined.

Lemma response_is_built_from_first_success_witness :
  (download_handler offline
     (stub "a" (Raise (Exn TypeError "boom")))
     (stub "b" (Ok (VDict stubbed_success)))
     (stub "c" (Ok VNone))
     (Ok (VDict reel_request)) one_video).1
  = Ok (settle (respond offline (VDict stubbed_success) one_video).1).
Proof.
  apply (proj1 (proj2 (response_is_built_from_first_success offline
                         (Raise (Exn TypeError "boom")) (Ok (VDict stubbed_success))
                         (Ok VNone) reel_request
                         "https://instagram.com/reel/ABC123xyz/" "ABC123xyz" one_video
                         eq_refl eq_refl))
           (VDict stubbed_success)); reflexivity.
Defined.



Lemma downloaded_file_is_served_witness :
  exists u shortcode bytes,
    dict_lookup "url" reel_request = Some (VStr u) /\
    extract_instagram_shortcode u = Some shortcode /\
    let filename := shortcode +:+ ".mp4" in
    py_getitem (content served_response) "filename" = Ok (VStr filename) /\
    py_getitem (content served_response) "video" = Ok (VStr ("/downloads/" +:+ filename)) /\
    py_getitem (content served_response) "file_size" = Ok (VInt (Z.of_nat (length bytes))) /\
    str_contains "/" filename = false /\
    fs served_run.2
      !! os_path_join (download_dir (serving (Ok video_payload) three_bytes)) filename
    = Some bytes /\
    Routes.serve_video ticking (serving (Ok video_payload) three_bytes) filename served_run.2
    = (Ok (inr (Routes.FileResponse
                  (os_path_join (download_dir (serving (Ok video_payload) three_bytes))
                     filename)
                  "video/mp4" filename
                  [("Accept-Ranges", "bytes");
                   ("Content-Length",
                    py_str (repr (serving (Ok video_payload) three_bytes))
                      (VInt (Z.of_nat (length bytes))));
                   ("Cache-Control", "no-cache")])),
       served_run.2).
Proof.
  apply (downloaded_file_is_served (serving (Ok video_payload) three_bytes) ticking
           reel_request fresh served_response served_run.2).
  - vm_compute. reflexivity.
  - reflexivity.
  - vm_compute. discriminate.
Defined.

Lemma serve_video_outcomes_witness :
  Routes.serve_video ticking offline "missing.mp4" one_video
  = (Ok (inl (Routes.HTTPException 500 "404: File not found")),
     State (fs one_video)
       (events one_video ++ [Log ERROR "Error serving file: 404: File not found"])).
Proof.
  apply (proj1 (proj2 (proj2 (serve_video_outcomes offline ticking "missing.mp4"
                                one_video))));
    reflexivity.
Defined.

Lemma health_lists_every_method_tag_witness :
  exists tag report tags,
    py_getitem (direct_result (serving (Ok video_payload) []) "ABC" (VStr "Unknown") (VStr ""))
      "method" = Ok tag /\
    Routes.health ticking fresh = (Ok report, fresh) /\
    py_getitem report "methods" = Ok (VList tags) /\
    tag ∈ tags.
Proof.
  apply (health_lists_every_method_tag (serving (Ok video_payload) []) ticking
           "https://www.instagram.com/p/ABC/" "ABC" fresh _ empty_video_run.2 fresh).
  - reflexivity.
  - right. left. vm_compute. reflexivity.
Defined.

Lemma clean_up_removes_every_expired_download_witness :
  let run := Routes.clean_old_downloads ticking offline 24 two_videos in
  run.1 = Ok tt /\
  forall p,
    fs run.2 !! p
    = if bool_decide (p ∈ os_path_join (download_dir offline) <$> ["old.mp4"; "new.mp4"; "cache"])
         && Routes.greater ticking
              (Routes.minus ticking (Routes.now ticking two_videos)
                 (if String.eqb p "/app/downloads/old.mp4" then 1000 else 99000))
              (24 * 3600)
      then None else fs two_videos !! p.
Proof.
  apply (clean_up_removes_every_expired_download ticking offline 24
           (fun p => if String.eqb p "/app/downloads/old.mp4" then 1000 else 99000)
           ["old.mp4"; "new.mp4"; "cache"] two_videos).
  - reflexivity.
  - intros s0 p. reflexivity.
  - intros s0 p. reflexivity.
Defined.

Lemma clean_up_stops_at_the_first_failure_witness :
  Routes.clean_old_downloads unlistable offline 24 two_videos
  = (Ok tt,
     State (fs two_videos)
       (events two_videos ++
        [Log ERROR ("Error cleaning downloads: " +:+
                    "[Errno 2] No such file or directory: '/app/downloads'")])).
Proof.
  apply (proj1 (clean_up_stops_at_the_first_failure unlistable offline 24 two_videos)
           (Exn OSError "[Errno 2] No such file or directory: '/app/downloads'")).
  reflexivity.
Defined.

Lemma rebuilt_urls_give_back_the_identifier_witness :
  extract_instagram_shortcode ("https://www.instagram.com/p/" +:+ "ABC123xyz" +:+ "/")
  = Some "ABC123xyz" /\
  Forall (fun api_url => extract_instagram_shortcode api_url = Some "ABC123xyz")
    (api_urls "ABC123xyz").
Proof.
  apply (rebuilt_urls_give_back_the_identifier "https://instagram.com/reel/ABC123xyz/").
  vm_compute. reflexivity.
Defined.

Lemma account_named_like_a_path_segment_witness :
  extract_instagram_shortcode
    ("https://www." +:+ "instagram.com/" +:+ "reels" +:+ "/" +:+ "p" +:+ "/" +:+ "ABC123" +:+ "/")
  = Some "p".
Proof.
  apply (account_named_like_a_path_segment "https://www." "reels" "p" "ABC123" "/").
  - repeat constructor.
  - repeat constructor.
  - reflexivity.
Defined.

Lemma video_file_stays_in_the_download_directory_witness :
  video_path offline "ABC123xyz" = download_dir offline +:+ "/" +:+ "ABC123xyz" +:+ ".mp4" /\
  str_contains "/" "ABC123xyz" = false /\
  str_contains "." "ABC123xyz" = false.
Proof.
  apply (video_file_stays_in_the_download_directory offline
           "https://instagram.com/reel/ABC123xyz/").
  vm_compute. reflexivity.
Defined.

Lemma unreadable_request_is_answered_without_strategies_witness :
  download_handler offline (stub "a" (Ok VNone)) (stub "b" (Ok VNone)) (stub "c" (Ok VNone))
    (Ok (VList [])) fresh
  = (Ok (internal_error_response "'list' object has no attribute 'get'"),
     State (fs fresh)
       (events fresh ++
        [Log ERROR ("Unexpected error: " +:+ "'list' object has no attribute 'get'")]))
  /\
  download_handler offline (stub "a" (Ok VNone)) (stub "b" (Ok VNone)) (stub "c" (Ok VNone))
    (Ok (VDict [("url", VInt 0)])) fresh
  = (Ok (bad_request "No URL provided"), fresh).
Proof.
  split.
  - apply (proj1 (proj2 (unreadable_request_is_answered_without_strategies offline
                           (stub "a" (Ok VNone)) (stub "b" (Ok VNone)) (stub "c" (Ok VNone))
                           fresh))
             (VList [])).
    reflexivity.
  - apply (proj1 (proj1 (proj2 (proj2 (unreadable_request_is_answered_without_strategies
                                         offline (stub "a" (Ok VNone)) (stub "b" (Ok VNone))
                                         (stub "c" (Ok VNone)) fresh)))
                    [("url", VInt 0)] (VInt 0) eq_refl eq_refl)).
    reflexivity.
Defined.

Lemma url_without_a_path_is_rejected_witness :
  download_handler offline (stub "a" (Ok VNone)) (stub "b" (Ok VNone)) (stub "c" (Ok VNone))
    (Ok (VDict [("url", VStr "https://www.instagram.com")])) fresh
  = (Ok (bad_request "Could not extract video ID from URL"),
     State (fs fresh)
       (events fresh ++
        [Log INFO ("Processing download request for: " +:+ "https://www.instagram.com")])).
Proof.
  apply (url_without_a_path_is_rejected offline (stub "a" (Ok VNone)) (stub "b" (Ok VNone))
           (stub "c" (Ok VNone)) [("url", VStr "https://www.instagram.com")]
           "https://www.instagram.com" fresh); reflexivity.
Defined.

Lemma scraping_success_ends_the_loop_witness :
  for_matches scraped "ABC" (page_headers "agent") ["{video}"; "{other}"] fresh
  = (Ok (scraping_result scraped "ABC" (VStr "Hello") (VStr "Unknown") (VStr "Hello")),
     State (<[video_path scraped "ABC" := [Byte.x01; Byte.x02]]> (fs fresh))
       (events fresh ++
        [HttpGet (VStr "https://cdn.example/v.mp4") (page_headers "agent") true 60;
         Log INFO ("Successfully downloaded via HTML scraping: " +:+ "ABC" +:+ ".mp4")])).
Proof.
  apply (proj1 (scraping_success_ends_the_loop scraped "ABC" (page_headers "agent")
                  "{video}" ["{other}"] fresh
                  [("video", VDict [("contentUrl", VStr "https://cdn.example/v.mp4")]);
                   ("caption", VStr "Hello")]
                  [("contentUrl", VStr "https://cdn.example/v.mp4")]
                  (VStr "https://cdn.example/v.mp4")
                  (Response 200 (Raise (Exn JSONDecodeError "Expecting value")) ""
                     [[Byte.x01; Byte.x02]] None)
                  eq_refl eq_refl eq_refl eq_refl eq_refl eq_refl eq_refl eq_refl)
           []).
  reflexivity.
Defined.
